(** * despasito: the phase-equilibrium core ([despasito/thermodynamics/calc.py])

    A shallow embedding of the numerical core that wraps an equation of state
    (EOS) to solve vapour-liquid equilibrium, together with the properties the
    specification states about it.

    - Python floats and numpy [float64] entries are IEEE binary64 numbers:
      Rocq's primitive [float], whose operations compute as the hardware does
      (NaN, infinities and signed zeros included).
    - numpy arrays are lists, read by index with the [IndexError] Python
      raises out of range.
    - A Python exception is a [Raise] result; a local name that is read before
      any assignment raises [UnboundLocalError].  A [ValueError] carries its
      message template and the names and numbers formatted into it.
    - The equation of state, numpy's and scipy's numerical routines and the
      repository's [general_toolbox.solve_root] are not part of calc.py: they
      are fields of the records [EOS], [Lib] and [Toolbox], so every
      statement with a variable of those types holds for whatever those
      routines compute.  A routine that calc.py calls outside a [try] block
      is taken to return.
    - Arrays are values: an in-place update inside a function is followed
      through the names of that function, not back into the caller's array. *)

From Stdlib Require Import String Floats ZArith QArith Qfield Bool Arith Lia Sorted List.
Import ListNotations.

Set Warnings "-inexact-float".
Set Implicit Arguments.

(** ** Python results

    The exceptions calc.py raises or runs into; [LibraryError] is what a
    numerical routine raises from inside scipy. *)

Inductive exn : Type :=
| ValueError (msg : string) (names : list string) (values : list float)
| IndexError
| UnboundLocalError (name : string)
| NameError (name : string)
| ZeroDivisionError
| LibraryError (origin : string)
| TypeError (msg : string).

Inductive result (A : Type) : Type :=
| Ok (a : A)
| Raise (e : exn).

Arguments Ok {A} a.
Arguments Raise {A} e.

Definition bind {A B : Type} (r : result A) (k : A -> result B) : result B :=
  match r with
  | Ok a => k a
  | Raise e => Raise e
  end.

Declare Scope py_scope.
Delimit Scope py_scope with py.
Notation "x <- r ;; k" := (bind r (fun x => k))
  (at level 61, r at next level, right associativity) : py_scope.
Notation "' p <- r ;; k" := (bind r (fun p => k))
  (at level 61, p pattern, r at next level, right associativity) : py_scope.
Open Scope py_scope.

Definition is_ok {A : Type} (r : result A) : bool :=
  match r with Ok _ => true | Raise _ => false end.

(** ** Sequences *)

(** [a[i]] for [0 <= i]. *)
Definition getitem {A : Type} (l : list A) (i : nat) : result A :=
  match nth_error l i with
  | Some a => Ok a
  | None => Raise IndexError
  end.

(** [a[i] = v] for an index in range (callers index below [len(a)]). *)
Fixpoint setitem {A : Type} (l : list A) (i : nat) (v : A) : list A :=
  match l, i with
  | [], _ => []
  | _ :: t, O => v :: t
  | h :: t, S j => h :: setitem t j v
  end.

(** [a[-1]]. *)
Definition getlast {A : Type} (l : list A) : result A :=
  getitem (rev l) 0.

(** [a[-n:]]. *)
Definition lastn {A : Type} (n : nat) (l : list A) : list A :=
  skipn (length l - n) l.

(** [np.where(cond)[0]] over the entries of [l]. *)
Fixpoint where_from {A : Type} (p : A -> bool) (l : list A) (i : nat) : list nat :=
  match l with
  | [] => []
  | x :: t => if p x then i :: where_from p t (S i) else where_from p t (S i)
  end.

Definition np_where {A : Type} (p : A -> bool) (l : list A) : list nat :=
  where_from p l 0.

(** [for i in ind: a[i] = f(i)]. *)
Fixpoint assign_each {A : Type} (ind : list nat) (f : nat -> result A)
    (a : list A) : result (list A) :=
  match ind with
  | [] => Ok a
  | i :: rest => v <- f i ;; assign_each rest f (setitem a i v)
  end.

(** ** Arithmetic

    [calc_yi] and [calc_xi] use a zero test, a product and a quotient; they
    are written over that signature.  The code runs them on binary64, the
    instance [Arith_float], and every statement about what the code returns
    is made on it.  The instance on [Q] serves one lemma only: that the
    K-value relation is undone by its inverse in exact arithmetic. *)

Class Arith (A : Type) : Type := {
  num_zero : A;
  num_mul : A -> A -> A;
  num_div : A -> A -> A;
  num_is_zero : A -> bool
}.

#[global] Instance Arith_float : Arith float := {
  num_zero := 0%float;
  num_mul := PrimFloat.mul;
  num_div := PrimFloat.div;
  num_is_zero := fun x => PrimFloat.eqb x 0%float
}.

#[global] Instance Arith_Q : Arith Q := {
  num_zero := 0%Q;
  num_mul := Qmult;
  num_div := Qdiv;
  num_is_zero := fun x => Qeq_bool x 0%Q
}.

Section KValue.
Context {A : Type} `{Arith A}.

(** [calc_yi(xi, phil, phiv)] *)
Definition calc_yi (xi phil phiv : list A) : result (list A) :=
  let yi := repeat num_zero (length xi) in
  let ind := np_where (fun x => negb (num_is_zero x)) xi in
  assign_each ind
    (fun i =>
       x <- getitem xi i ;;
       l <- getitem phil i ;;
       v <- getitem phiv i ;;
       Ok (num_div (num_mul x l) v))
    yi.

(** [calc_xi(yi, phiv, phil)] *)
Definition calc_xi (yi phiv phil : list A) : result (list A) :=
  let xi := repeat num_zero (length yi) in
  let ind := np_where (fun y => negb (num_is_zero y)) yi in
  assign_each ind
    (fun i =>
       y <- getitem yi i ;;
       v <- getitem phiv i ;;
       l <- getitem phil i ;;
       Ok (num_div (num_mul y v) l))
    xi.
End KValue.

(** ** numpy and builtin helpers on binary64 arrays *)

Definition array : Type := list float.

Definition fsub (a b : float) : float := (a - b)%float.

(** [a[i:]], [a[i:j]] and [a[ind]] for an index array [ind]. *)
Definition slice_from {A : Type} (i : nat) (l : list A) : list A := skipn i l.

Definition slice {A : Type} (i j : nat) (l : list A) : list A :=
  firstn (j - i) (skipn i l).

Fixpoint take {A : Type} (l : list A) (ind : list nat) : result (list A) :=
  match ind with
  | [] => Ok []
  | i :: rest => x <- getitem l i ;; xs <- take l rest ;; Ok (x :: xs)
  end.

(** Element-wise [a op b] on arrays of one length, and [a op c] for a scalar. *)
Fixpoint map2 (f : float -> float -> float) (a b : array) : array :=
  match a, b with
  | x :: a', y :: b' => f x y :: map2 f a' b'
  | _, _ => []
  end.

Definition np_any_isnan (a : array) : bool := existsb is_nan a.

(** [np.count_nonzero(a)]: an entry counts unless it equals zero (NaN counts). *)
Definition np_count_nonzero (a : array) : nat :=
  length (filter (fun x => negb (x =? 0)%float) a).

(** [np.count_nonzero(cond)] for a boolean array given entry by entry. *)
Definition count_true {A : Type} (p : A -> bool) (l : list A) : nat :=
  length (filter p l).

(** [np.sum] and [np.nansum] (NaN entries skipped), adding left to right as
    numpy does on the short composition vectors of this code. *)
Definition np_sum (a : array) : float := fold_left PrimFloat.add a 0%float.

Definition np_nansum (a : array) : float :=
  np_sum (filter (fun x => negb (is_nan x)) a).

(** [np.diff(a)]. *)
Definition np_diff (a : array) : array := map2 fsub (tl a) a.

(** [np.amax], [np.amin]: NaN wins; an empty array is the [ValueError] of a
    reduction without identity, which names the operation. *)
Definition fmaximum (a b : float) : float :=
  if is_nan a then a else if is_nan b then b else if (a <? b)%float then b else a.

Definition fminimum (a b : float) : float :=
  if is_nan a then a else if is_nan b then b else if (b <? a)%float then b else a.

Definition zero_size (operation : string) : exn :=
  ValueError
    (String.append "zero-size array to reduction operation "
       (String.append operation " which has no identity")) [] [].

Definition np_amax (a : array) : result float :=
  match a with
  | [] => Raise (zero_size "maximum")
  | x :: t => Ok (fold_left fmaximum t x)
  end.

Definition np_amin (a : array) : result float :=
  match a with
  | [] => Raise (zero_size "minimum")
  | x :: t => Ok (fold_left fminimum t x)
  end.

(** [np.argmax(a)]: the first index of the largest entry, or of the first NaN. *)
Fixpoint argmax_from (a : array) (i best_i : nat) (best : float) : nat :=
  match a with
  | [] => best_i
  | x :: t =>
      if is_nan best then best_i
      else if (is_nan x || (best <? x)%float)%bool then argmax_from t (S i) i x
      else argmax_from t (S i) best_i best
  end.

Definition np_argmax (a : array) : result nat :=
  match a with
  | [] => Raise (ValueError "attempt to get argmax of an empty sequence" [] [])
  | x :: t => Ok (argmax_from t 1 0 x)
  end.

(** The builtins [min(a)] and [max(a)]: the running value is replaced only by
    an entry that compares strictly below (above) it. *)
Definition py_min (a : array) : result float :=
  match a with
  | [] => Raise (ValueError "min() arg is an empty sequence" [] [])
  | x :: t => Ok (fold_left (fun m y => if (y <? m)%float then y else m) t x)
  end.

Definition py_max (a : array) : result float :=
  match a with
  | [] => Raise (ValueError "max() arg is an empty sequence" [] [])
  | x :: t => Ok (fold_left (fun m y => if (m <? y)%float then y else m) t x)
  end.

(** [x / y] on Python floats raises on a zero divisor; on numpy scalars and
    arrays it is the IEEE quotient ([PrimFloat.div]). *)
Definition py_div (x y : float) : result float :=
  if (y =? 0)%float then Raise ZeroDivisionError else Ok (x / y)%float.

(** [a, b = seq]. *)
Definition unpack2 (l : array) : result (float * float) :=
  match l with
  | [a; b] => Ok (a, b)
  | _ => Raise (ValueError "wrong number of values to unpack" [] [])
  end.

(** Element-wise [a op b] with numpy's broadcasting of a one-entry operand;
    other length mismatches raise. *)
Definition broadcast (f : float -> float -> float) (a b : array) : result array :=
  if (length a =? length b)%nat then Ok (map2 f a b)
  else match a, b with
       | [x], _ => Ok (map (f x) b)
       | _, [y] => Ok (map (fun x => f x y) a)
       | _, _ => Raise (ValueError "operands could not be broadcast together" [] [])
       end.

(** [a / c] and [a[np.isnan(a)] = 0.] *)
Definition scale_by (a : array) (c : float) : array := map (fun x => (x / c)%float) a.

Definition zero_nans (a : array) : array :=
  map (fun x => if is_nan x then 0%float else x) a.

(** The truth value of a boolean array in an [if]: its entry when it has
    one, false when empty, an error otherwise. *)
Definition truth_value (c : list bool) : result bool :=
  match c with
  | [] => Ok false
  | [b] => Ok b
  | _ => Raise (ValueError
           "The truth value of an array with more than one element is ambiguous" [] [])
  end.

(** [np.sort([a, b])]: NaN goes last. *)
Definition sort2 (a b : float) : float * float :=
  if is_nan a then (b, a) else if (b <? a)%float then (b, a) else (a, b).

(** A local name read after the loop that may have bound it. *)
Definition bound {A : Type} (name : string) (v : option A) : result A :=
  match v with
  | Some a => Ok a
  | None => Raise (UnboundLocalError name)
  end.

(** [for z in range(n)] over a body that may [break]: the body maps the
    state to a new state and says whether it broke out.  The result is the
    final state, the last value of [z] (none when the body never ran) and
    whether the loop was left by [break]. *)
Fixpoint for_range_from {St : Type} (body : nat -> St -> result (St * bool))
    (n z : nat) (last : option nat) (s : St) : result (St * option nat * bool) :=
  match n with
  | O => Ok (s, last, false)
  | S n' =>
      '(s', broke) <- body z s ;;
      if (broke : bool) then Ok (s', Some z, true)
      else for_range_from body n' (S z) (Some z) s'
  end.

Definition for_range {St : Type} (n : nat) (body : nat -> St -> result (St * bool))
    (s : St) : result (St * option nat * bool) :=
  for_range_from body n 0 None s.

(** A value stored into an [int64] array: truncated toward zero (NaN and
    values out of range become the least [int64], as the x86 conversion
    gives), and read back as a number. *)
Definition trunc_int64 (x : float) : float :=
  if (is_nan x || (0x1p63 <=? abs x)%float)%bool then (-0x1p63)%float
  else if (0x1p52 <=? abs x)%float then x
  else
    let r := (abs x + 0x1p52 - 0x1p52)%float in
    let f := if (abs x <? r)%float then (r - 1)%float else r in
    if (x <? 0)%float then (0 - f)%float else f.

(** [_clean_plot_data(x_old, y_old)]: the distinct abscissae in increasing
    order, each with the ordinate of its first occurrence. *)
Fixpoint insert_unique (x : float) (l : array) : array :=
  match l with
  | [] => [x]
  | h :: t =>
      if (x =? h)%float then l
      else if (x <? h)%float then x :: l
      else h :: insert_unique x t
  end.

Definition sort_unique (l : array) : array :=
  fold_left (fun acc x => insert_unique x acc) l [].

Fixpoint lookup_each (x_new x_old y_old : array) : result array :=
  match x_new with
  | [] => Ok []
  | x :: rest =>
      i <- getitem (np_where (fun v => (v =? x)%float) x_old) 0 ;;
      y <- getitem y_old i ;;
      ys <- lookup_each rest x_old y_old ;;
      Ok (y :: ys)
  end.

Definition _clean_plot_data (x_old y_old : array) : result (array * array) :=
  let x_new := sort_unique x_old in
  y_new <- lookup_each x_new x_old y_old ;;
  Ok (x_new, y_new).

(** ** The collaborators

    The equation of state: [pressure] is given per density (the code also
    calls it on a density array, entry by entry). *)
Record EOS : Type := {
  density_max : array -> float -> float;
  pressure : float -> float -> array -> float;
  fugacity_coefficient : float -> float -> array -> float -> array;
  beads : list string;
  nui : list array
}.

(** A fitted [scipy.interpolate.InterpolatedUnivariateSpline]: its value at a
    point, its roots, the roots of its derivative and its definite integral. *)
Record Spline : Type := {
  spl_eval : float -> float;
  spl_roots : array;
  spl_derivative_roots : array;
  spl_integral : float -> float -> float
}.

(** numpy's and scipy's numerical routines.  A routine called inside a
    [try] block may raise; the others are taken to return.  The optimisers
    receive the objective as a function; [minimize], [minimize_scalar] and
    [least_squares] stand for the [.x] of scipy's result. *)
Record Lib : Type := {
  np_arange : float -> float -> float -> array;
  np_linspace : float -> float -> nat -> array;
  np_polyfit : array -> array -> nat -> array;
  np_roots : array -> list (float * float);
  np_polyder : array -> array;
  np_random_rand : nat -> float;
  gaussian_filter1d : array -> float -> array;
  InterpolatedUnivariateSpline : array -> array -> nat -> Spline;
  minimize_scalar : (float -> result float) -> float * float -> result float;
  minimize : (float -> float) -> float -> float * float -> result float;
  brentq : (float -> float) -> float -> float -> float -> float;
  least_squares : (float -> result float) -> float -> float * float -> result float
}.

(** The keys of [rhodict] that [PvsRho] reads, with their defaults. *)
Record rhodict : Type := {
  minrhofrac : float;
  rhoinc : float;
  vspacemax : float;
  maxrho : option float
}.

Definition rhodict_default : rhodict := {|
  minrhofrac := (1.0 / 500000.0)%float;
  rhoinc := 5.0%float;
  vspacemax := 1.0E-4%float;
  maxrho := None
|}.

Section DensityCurve.
Variable lib : Lib.

(** ** Pressure-density curve: [PvsRho(T, xi, eos, **rhodict)] *)
Definition PvsRho (T : float) (xi : array) (eos : EOS) (rd : rhodict)
    : result (array * array) :=
  let maxrho :=
    match maxrho rd with
    | None => density_max eos xi T
    | Some m => if (m =? 0)%float then density_max eos xi T else m
    end in
  let minrho := (maxrho * minrhofrac rd)%float in
  if ((maxrho - minrho) <? rhoinc rd)%float then
    Raise (ValueError
      "Density range, {}, is less than incement, {}. Check parameters used in eos.density_max()."
      [] [(maxrho - minrho)%float; rhoinc rd])
  else
    let rholist := np_arange lib minrho maxrho (rhoinc rd) in
    let vspace :=
      map2 fsub (map (fun r => (1.0 / r)%float) (removelast rholist))
                (map (fun r => (1.0 / r)%float) (tl rholist)) in
    m <- np_amax vspace ;;
    rholist <-
      (if (vspacemax rd <? m)%float then
         vspaceswitch <- getlast (np_where (fun v => (vspacemax rd <? v)%float) vspace) ;;
         r <- getitem rholist (vspaceswitch + 1) ;;
         let rholist_2 :=
           map (fun v => (1.0 / v)%float)
               (rev (np_arange lib (1.0 / r)%float (1.0 / minrho)%float (vspacemax rd))) in
         Ok (rholist_2 ++ slice_from (vspaceswitch + 2) rholist)
       else Ok rholist) ;;
    let Plist := map (fun rho => pressure eos rho T xi) rholist in
    let Plist := rev Plist in
    let rholist := rev rholist in
    let vlist := map (fun r => (1.0 / r)%float) rholist in
    Ok (vlist, Plist).

(** ** Pressure-volume spline: [PvsV_spline(vlist, Plist)] *)
Definition PvsV_spline (vlist Plist : array) : Spline * array * array :=
  let Psmoothed := gaussian_filter1d lib Plist 1.0e-2%float in
  let Pvspline := InterpolatedUnivariateSpline lib vlist Psmoothed 3 in
  let roots := spl_roots Pvspline in
  let Pvspline := InterpolatedUnivariateSpline lib vlist Psmoothed 4 in
  let extrema := spl_derivative_roots Pvspline in
  let extrema :=
    match extrema with
    | [] => extrema
    | _ => if (2 <? length extrema)%nat then slice 0 2 extrema else extrema
    end in
  let roots := if np_any_isnan Plist then [nan] else roots in
  (Pvspline, roots, extrema).

(** ** [Pdiff(rho, Pset, T, xi, eos)] *)
Definition Pdiff (rho Pset T : float) (xi : array) (eos : EOS) : float :=
  let Pguess := pressure eos rho T xi in
  (Pguess - Pset)%float.

(** ** Maxwell construction objective: [eq_area(shift, Pv, vlist)] *)
Definition eq_area (shift : float) (Pv vlist : array) : result float :=
  let '(Pvspline, roots, extrema) :=
    PvsV_spline vlist (map (fun p => (p - shift)%float) Pv) in
  '(a, b) <-
    (if (3 <=? length roots)%nat then
       r0 <- getitem roots 0 ;; r1 <- getitem roots 1 ;; r2 <- getitem roots 2 ;;
       Ok (spl_integral Pvspline r0 r1, spl_integral Pvspline r1 r2)
     else if (length roots =? 2)%nat then
       r0 <- getitem roots 0 ;; r1 <- getitem roots 1 ;;
       let a := spl_integral Pvspline r0 r1 in
       '(slope, yroot) <-
         unpack2 (np_polyfit lib (lastn 4 vlist)
                    (map (fun p => (p - shift)%float) (lastn 4 Pv)) 1) ;;
       vend <- getlast vlist ;;
       pend <- getlast Pv ;;
       Ok (a, (spl_integral Pvspline r1 vend
               + (pend - shift) * (- yroot / slope - vend) / 2)%float)
     else Raise (UnboundLocalError "a")) ;;
  Ok ((a + b) * (a + b))%float.

(** ** Saturation pressure: [calc_Psat(T, xi, eos, rhodict)]

    The second error formats [eos.beads[ind]] and [xi[ind]] for the index
    array [ind] that [np.where] returns.  [eos.beads] is the Python list of
    bead names the EOS was built from, and a list takes an integer or a
    slice as index: the one-dimensional array [ind] is neither, so the
    first argument of [format] raises [TypeError] and the message is never
    built.  The returned reciprocals are Python divisions
    ([ZeroDivisionError] on a zero root) unless [roots] became a numpy array
    through [np.append]. *)
Definition Psat_multiple_10 : exn :=
  ValueError
    "Multiple components have compositions greater than 10%, check code for source"
    [] [].

Definition Psat_multiple_0 (names : list string) (fractions : array) : exn :=
  ValueError
    "Multiple components have compositions greater than 0. Do you mean to obtain the saturation pressure of {} with a mole fraction of {}?"
    names fractions.

Definition gt_10_percent (x : float) : bool := (0.1 <? x)%float.

(** [l[ind]] for a Python list [l] and a one-dimensional index array [ind]. *)
Definition list_getitem_array {A : Type} (l : list A) (ind : list nat)
    : result (list A) :=
  Raise (TypeError "only integer scalar arrays can be converted to a scalar index").

Definition calc_Psat (T : float) (xi : array) (eos : EOS) (rd : rhodict)
    : result (float * float * float) :=
  if negb (np_count_nonzero xi =? 1)%nat then
    if negb (count_true gt_10_percent xi =? 1)%nat then
      Raise Psat_multiple_10
    else
      let ind := np_where gt_10_percent xi in
      names <- list_getitem_array (beads eos) ind ;;
      fractions <- take xi ind ;;
      Raise (Psat_multiple_0 names fractions)
  else
    '(vlist, Plist) <- PvsRho T xi eos rd ;;
    let '(Pvspline, roots, extrema) := PvsV_spline vlist Plist in
    '(Psat, roots, is_ndarray) <-
      (if (match extrema with [] => true | _ => false end
           || (length extrema <? 2)%nat || np_any_isnan roots)%bool then
         Ok (nan, [1.0; 1.0; 1.0]%float, false)
       else
         ind_Pmin1 <- getitem (np_where (fun d => (0 <? d)%float) (np_diff Plist)) 0 ;;
         k <- np_argmax (slice_from ind_Pmin1 Plist) ;;
         let ind_Pmax1 := (k + ind_Pmin1)%nat in
         Pmaxsearch <- getitem Plist ind_Pmax1 ;;
         let Pconverged := 10%float in
         lo <- np_amin (slice ind_Pmin1 ind_Pmax1 Plist) ;;
         let Pminsearch := if (Pconverged <? lo)%float then lo else Pconverged in
         Psat <- minimize_scalar lib (fun shift => eq_area shift Plist vlist)
                   (Pminsearch, Pmaxsearch) ;;
         let shifted := map (fun p => (p - Psat)%float) Plist in
         let '(Pvspline, roots, extrema) := PvsV_spline vlist shifted in
         _ <- eq_area Psat Plist vlist ;;
         if (length roots =? 2)%nat then
           '(slope, yroot) <- unpack2 (np_polyfit lib (lastn 4 vlist) (lastn 4 shifted) 1) ;;
           let vroot := (- yroot / slope)%float in
           let vroot := if (vroot <? 0.0)%float then 0x1p-52%float else vroot in
           rlast <- getlast roots ;;
           hi <- py_div 1.0 (1.1 * rlast) ;;
           rho_tmp <- minimize lib (fun rho => Pdiff rho Psat T xi eos) (1.0 / vroot)%float
                        ((1.0 / (vroot * 1e+2))%float, hi) ;;
           Ok (Psat, roots ++ [(1.0 / rho_tmp)%float], true)
         else Ok (Psat, roots, false)) ;;
    let inverse r := if is_ndarray then Ok (1.0 / r)%float else py_div 1.0 r in
    r0 <- getitem roots 0 ;;
    first <- inverse r0 ;;
    r2 <- getitem roots 2 ;;
    third <- inverse r2 ;;
    Ok (Psat, first, third).

End DensityCurve.

(** ** Phase flags

    The code's integer flag: 0 vapour, 1 liquid, 2 critical fluid, 3 no
    stable phase, 4 ideal gas.  [solve_yi_xiT] also hands out [np.nan] in a
    flag's place, which equals no integer and differs from every flag. *)
Inductive flag : Type :=
| Flag (n : Z)
| FlagNaN.

Definition flag_is (f : flag) (n : Z) : bool :=
  match f with
  | Flag m => (m =? n)%Z
  | FlagNaN => false
  end.

Definition flag_in (f : flag) (l : list Z) : bool := existsb (flag_is f) l.

(** [f != g]. *)
Definition flag_differs (f g : flag) : bool :=
  match f, g with
  | Flag m, Flag n => negb (m =? n)%Z
  | _, _ => true
  end.

Definition shift_pressure (Plist : array) (P : float) : array :=
  map (fun p => (p - P)%float) Plist.

Section PhaseDensity.
Variable lib : Lib.

(** ** [interp_vroot(v0, vlist, Plist)]

    The result is a numpy scalar when the root is re-estimated and the given
    Python float otherwise; the boolean records which. *)
Fixpoint sign_changes (Plist : array) (steps : list nat) (ind_array : list nat)
    : result (list nat) :=
  match steps with
  | [] => Ok ind_array
  | i :: rest =>
      ai <- getitem ind_array i ;;
      if (ai + 1 <? length Plist)%nat then
        let sign := if Nat.even i then 1%float else (-1)%float in
        let tmp := np_where (fun p => (p * sign <? 0)%float) (slice_from ai Plist) in
        if existsb (fun k => negb (k =? 0)%nat) tmp then
          t0 <- getitem tmp 0 ;;
          sign_changes Plist rest (setitem ind_array (i + 1) (t0 + ai)%nat)
        else Ok ind_array
      else sign_changes Plist rest ind_array
  end.

Definition interp_vroot (v0 : float) (vlist Plist : array) : result (float * bool) :=
  ind_array <- sign_changes Plist [0; 1; 2]%nat [0; 0; 0; 0]%nat ;;
  let ind_array := filter (fun k => (0 <? k)%nat) ind_array in
  let Nind := length ind_array in
  ind <-
    (if (Nind =? 0)%nat then Raise (UnboundLocalError "ind")
     else if (Nind =? 1)%nat then getitem ind_array 0
     else
       vs <- take vlist ind_array ;;
       let tmp := map (fun v => abs (v - v0)%float) vs in
       m <- np_amin tmp ;;
       ind_tmp <- getitem (np_where (fun t => (t =? m)%float) tmp) 0 ;;
       getitem ind_array ind_tmp) ;;
  vlo <- getitem vlist (ind - 1) ;;
  outside <-
    (if (v0 <? vlo)%float then Ok true
     else vhi <- getitem vlist ind ;; Ok (vhi <? v0)%float) ;;
  if (outside : bool) then
    Phi <- getitem Plist ind ;;
    Plo <- getitem Plist (ind - 1) ;;
    vhi <- getitem vlist ind ;;
    let m := ((Phi - Plo) / (vhi - vlo))%float in
    Ok ((- m / (Phi - m * vhi))%float, true)
  else Ok (v0, false).

(** ** Vapour density: [calc_rhov(P, T, xi, eos, rhodict)] *)

(** The tail extrapolation shared by the vapour branches: a line through the
    last four samples, its root, and a bounded minimisation of [Pdiff]
    started there. *)
Definition tail_density (P T : float) (xi : array) (eos : EOS)
    (vlist Plist roots : array) : result float :=
  '(slope, yroot) <- unpack2 (np_polyfit lib (lastn 4 vlist) (lastn 4 Plist) 1) ;;
  let vroot := (- yroot / slope)%float in
  rlast <- getlast roots ;;
  hi <- py_div 1.0 (1.1 * rlast) ;;
  minimize lib (fun rho => Pdiff rho P T xi eos) (1.0 / vroot)%float (1e-28%float, hi).

(** The classification by number of roots: the density estimate, the flag
    and [flag_NoOpt]. *)
Definition calc_rhov_roots (P T : float) (xi : array) (eos : EOS)
    (vlist Plist : array) (Pvspline : Spline) (roots extrema : array)
    : result (float * flag * bool) :=
  let l_roots := length roots in
  if np_any_isnan roots then Ok (nan, Flag 3, false)
  else if (l_roots =? 0)%nat then
    vend <- getlast vlist ;;
    if (spl_eval Pvspline (1 / vend) <? 0)%float then
      let flag := if (length extrema =? 0)%nat then Flag 2 else Flag 1 in
      vfirst <- getitem vlist 0 ;;
      let rho_tmp :=
        match minimize lib (fun rho => Pdiff rho P T xi eos) (1 / vfirst)%float
                (1e-28%float, (density_max eos xi T * 0.99)%float) with
        | Ok r => r
        | Raise _ => (1 / vfirst)%float
        end in
      Ok (rho_tmp, flag, true)
    else
      lowest <- py_min Plist ;;
      if (0 <? lowest + P)%float then
        '(slope, yroot) <- unpack2 (np_polyfit lib (lastn 4 vlist) (lastn 4 Plist) 1) ;;
        let vroot := (- yroot / slope)%float in
        let rho_tmp :=
          match (rlast <- getlast roots ;;
                 hi <- py_div 1.0 (1.1 * rlast) ;;
                 minimize lib (fun rho => Pdiff rho P T xi eos) (1.0 / vroot)%float
                   (1e-28%float, hi)) with
          | Ok r => r
          | Raise _ => nan
          end in
        Ok (rho_tmp, if is_nan rho_tmp then Flag 4 else Flag 0, false)
      else Ok (nan, Flag 3, false)
  else if (l_roots =? 1)%nat then
    r0 <- getitem roots 0 ;;
    if (length extrema =? 0)%nat then
      rho_tmp <- py_div 1.0 r0 ;; Ok (rho_tmp, Flag 2, false)
    else
      top <- py_max extrema ;;
      if (spl_eval Pvspline top + P <? spl_eval Pvspline r0 + P)%float then
        rho_tmp <- py_div 1.0 r0 ;; Ok (rho_tmp, Flag 1, false)
      else if (1 <? length extrema)%nat then
        rho_tmp <- py_div 1.0 r0 ;; Ok (rho_tmp, Flag 0, false)
      else Raise (UnboundLocalError "flag")
  else if (l_roots =? 2)%nat then
    r0 <- getitem roots 0 ;;
    if (spl_eval Pvspline r0 + P <? 0)%float then
      rho_tmp <- py_div 1.0 r0 ;; Ok (rho_tmp, Flag 1, false)
    else
      rho_tmp <- tail_density P T xi eos vlist Plist roots ;;
      Ok (rho_tmp, Flag 0, false)
  else
    r2 <- getitem roots 2 ;;
    rho_tmp <- py_div 1.0 r2 ;;
    Ok (rho_tmp, Flag 0, false).

(** What follows the classification for a vapour or critical estimate: a
    root of [Pdiff] bracketed within one percent of the estimate when
    [Pdiff] changes sign there, and otherwise, unless the curve starts below
    zero, a minimisation from the estimate over the whole density range. *)
Definition calc_rhov_refine (P T : float) (xi : array) (eos : EOS) (Plist : array)
    (rho_tmp : float) (flag : flag) (flag_NoOpt : bool) : result float :=
  if flag_in flag [0; 2]%Z then
    let lo := (rho_tmp * 0.99)%float in
    let hi := (rho_tmp * 1.01)%float in
    let hi :=
      if (density_max eos xi T * 0.9999 <? rho_tmp * 1.01)%float
      then (density_max eos xi T * 0.9999)%float else hi in
    if (Pdiff lo P T xi eos * Pdiff hi P T xi eos <? 0)%float then
      Ok (brentq lib (fun rho => Pdiff rho P T xi eos) lo hi 0.0000001%float)
    else
      p0 <- getitem Plist 0 ;;
      if (p0 <? 0)%float then Ok rho_tmp
      else if negb flag_NoOpt then
        minimize lib (fun rho => Pdiff rho P T xi eos) rho_tmp
          (1e-28%float, (density_max eos xi T * 0.99)%float)
      else Ok rho_tmp
  else Ok rho_tmp.

Definition calc_rhov (P T : float) (xi : array) (eos : EOS) (rd : rhodict)
    : result (float * flag) :=
  '(vlist, Plist) <- PvsRho lib T xi eos rd ;;
  let Plist := shift_pressure Plist P in
  let '(Pvspline, roots, extrema) := PvsV_spline lib vlist Plist in
  '(rho_tmp, flag, flag_NoOpt) <-
    calc_rhov_roots P T xi eos vlist Plist Pvspline roots extrema ;;
  rho_tmp <- calc_rhov_refine P T xi eos Plist rho_tmp flag flag_NoOpt ;;
  Ok (rho_tmp, flag).

(** ** Liquid density: [calc_rhol(P, T, xi, eos, rhodict)] *)
Definition calc_rhol_roots (P T : float) (xi : array) (eos : EOS)
    (vlist Plist : array) (Pvspline : Spline) (roots extrema : array)
    : result (float * flag * bool) :=
  let l_roots := length roots in
  if np_any_isnan roots then Ok (nan, Flag 3, false)
  else if (l_roots =? 0)%nat then
    vend <- getlast vlist ;;
    if negb (spl_eval Pvspline (1 / vend) =? 0)%float then
      let flag := if (length extrema =? 0)%nat then Flag 2 else Flag 1 in
      vfirst <- getitem vlist 0 ;;
      let rho_tmp :=
        match minimize lib (fun rho => Pdiff rho P T xi eos) (1 / vfirst)%float
                (1e-28%float, (density_max eos xi T * 0.99)%float) with
        | Ok r => r
        | Raise _ => (1 / vfirst)%float
        end in
      Ok (rho_tmp, flag, true)
    else
      lowest <- py_min Plist ;;
      if (0 <? lowest + P)%float then
        '(slope, yroot) <- unpack2 (np_polyfit lib (lastn 4 vlist) (lastn 4 Plist) 1) ;;
        let vroot := (- yroot / slope)%float in
        let rho_tmp :=
          match (rlast <- getlast roots ;;
                 hi <- py_div 1.0 (1.1 * rlast) ;;
                 minimize lib (fun rho => Pdiff rho P T xi eos) (1.0 / vroot)%float
                   (1e-28%float, hi)) with
          | Ok r => r
          | Raise _ => nan
          end in
        Ok (rho_tmp, if is_nan rho_tmp then Flag 4 else Flag 0, false)
      else Ok (nan, Flag 3, false)
  else if (l_roots =? 2)%nat then
    r0 <- getitem roots 0 ;;
    if (spl_eval Pvspline r0 + P <? 0)%float then
      rho_tmp <- py_div 1.0 r0 ;; Ok (rho_tmp, Flag 1, false)
    else
      rho_tmp <- py_div 1.0 r0 ;; Ok (rho_tmp, Flag 1, false)
  else if (l_roots =? 1)%nat then
    r0 <- getitem roots 0 ;;
    if (length extrema =? 0)%nat then
      '(v, is_numpy) <- interp_vroot r0 vlist Plist ;;
      rho_tmp <- (if (is_numpy : bool) then Ok (1.0 / v)%float else py_div 1.0 v) ;;
      Ok (rho_tmp, Flag 2, false)
    else
      top <- py_max extrema ;;
      if (spl_eval Pvspline top + P <? spl_eval Pvspline r0 + P)%float then
        rho_tmp <- py_div 1.0 r0 ;; Ok (rho_tmp, Flag 1, false)
      else if (1 <? length extrema)%nat then
        rho_tmp <- py_div 1.0 r0 ;; Ok (rho_tmp, Flag 0, false)
      else Raise (UnboundLocalError "flag")
  else
    r0 <- getitem roots 0 ;;
    rho_tmp <- py_div 1.0 r0 ;;
    Ok (rho_tmp, Flag 1, false).

(** The same for a liquid or critical estimate. *)
Definition calc_rhol_refine (P T : float) (xi : array) (eos : EOS) (Plist : array)
    (rho_tmp : float) (flag : flag) (flag_NoOpt : bool) : result float :=
  if flag_in flag [1; 2]%Z then
    let lo := (rho_tmp * 0.99)%float in
    let hi := (rho_tmp * 1.01)%float in
    if (Pdiff lo P T xi eos * Pdiff hi P T xi eos <? 0)%float then
      Ok (brentq lib (fun rho => Pdiff rho P T xi eos) lo hi 0.0000001%float)
    else
      p0 <- getitem Plist 0 ;;
      if (p0 <? 0)%float then Ok rho_tmp
      else if negb flag_NoOpt then
        minimize lib (fun rho => Pdiff rho P T xi eos) rho_tmp
          (1e-28%float, (density_max eos xi T * 0.99)%float)
      else Ok rho_tmp
  else Ok rho_tmp.

Definition calc_rhol (P T : float) (xi : array) (eos : EOS) (rd : rhodict)
    : result (float * flag) :=
  '(vlist, Plist) <- PvsRho lib T xi eos rd ;;
  let Plist := shift_pressure Plist P in
  let '(Pvspline, roots, extrema) := PvsV_spline lib vlist Plist in
  _ <- (if (length extrema =? 1)%nat
        then e0 <- getitem extrema 0 ;; py_div 1 e0
        else Ok 0%float) ;;
  '(rho_tmp, flag, flag_NoOpt) <-
    calc_rhol_roots P T xi eos vlist Plist Pvspline roots extrema ;;
  rho_tmp <- calc_rhol_refine P T xi eos Plist rho_tmp flag flag_NoOpt ;;
  Ok (rho_tmp, flag).

(** ** Fugacity coefficients: [calc_phiv], [calc_phil] *)
Definition calc_phiv (P T : float) (yi : array) (eos : EOS) (rd : rhodict)
    : result (array * float * flag) :=
  '(rhov, flagv) <- calc_rhov P T yi eos rd ;;
  if flag_is flagv 4 then Ok (map (fun _ => 1%float) yi, 0%float, flagv)
  else if flag_is flagv 3 then Ok ([nan; nan], rhov, flagv)
  else Ok (fugacity_coefficient eos P rhov yi T, rhov, flagv).

Definition calc_phil (P T : float) (xi : array) (eos : EOS) (rd : rhodict)
    : result (array * float * flag) :=
  '(rhol, flagl) <- calc_rhol P T xi eos rd ;;
  if flag_is flagl 3 then Ok ([nan; nan], rhol, flagl)
  else Ok (fugacity_coefficient eos P rhol xi T, rhol, flagl).

End PhaseDensity.

(** ** Module state

    The module-level names [yi_global] and [xi_global] (absent until first
    assigned) and the number of values drawn so far from [np.random.rand].
    Arrays are held by value: a name bound to a fresh array and the array it
    came from do not share later in-place updates. *)
Record world : Type := {
  yi_global : option array;
  xi_global : option array;
  draws : nat
}.

Definition set_yi_global (w : world) (yi : array) : world :=
  {| yi_global := Some yi; xi_global := xi_global w; draws := draws w |}.

Definition set_xi_global (w : world) (xi : array) : world :=
  {| yi_global := yi_global w; xi_global := Some xi; draws := draws w |}.

Section InnerSolver.
Variable lib : Lib.

(** [np.random.rand(n)] and [np.random.rand(1)[0]] *)
Definition random_array (n : nat) (w : world) : array * world :=
  (map (np_random_rand lib) (seq (draws w) n),
   {| yi_global := yi_global w; xi_global := xi_global w; draws := (draws w + n)%nat |}).

Definition random_float (w : world) : float * world :=
  (np_random_rand lib (draws w),
   {| yi_global := yi_global w; xi_global := xi_global w; draws := S (draws w) |}).

(** ** [obj_yi(yi, P, T, phil, xi, eos, rhodict, return_flag=True)]

    A float or a one-entry array [yi] stands for [[yi, 1 - yi]]. *)
Definition obj_yi (yi : array) (P T : float) (phil xi : array) (eos : EOS) (rd : rhodict)
    : result (float * flag) :=
  let yi := match yi with [y] => [y; (1 - y)%float] | _ => yi end in
  let yi := scale_by yi (np_sum yi) in
  '(phiv, _, flagv) <- calc_phiv lib P T yi eos rd ;;
  _ <- broadcast PrimFloat.mul yi phiv ;;
  num <- broadcast PrimFloat.mul xi phil ;;
  yinew <- broadcast PrimFloat.div num phiv ;;
  let yi2 := scale_by yinew (np_sum yinew) in
  '(phiv2, _, flagv2) <- calc_phiv lib P T yi2 eos rd ;;
  _ <- broadcast PrimFloat.mul yi2 phiv2 ;;
  num <- broadcast PrimFloat.mul xi phil ;;
  pred <- broadcast PrimFloat.div num phiv2 ;;
  diff <- broadcast fsub yinew pred ;;
  Ok (np_sum (map abs diff), flagv).

(** ** [find_new_yi(P, T, phil, xi, eos, bounds=(0.01, 0.99), npoints=30, rhodict)] *)
Fixpoint find_new_yi_scan (yi_ext : array) (P T : float) (phil xi : array) (eos : EOS)
    (rd : rhodict) : result (list (float * float * flag)) :=
  match yi_ext with
  | [] => Ok []
  | y :: rest =>
      let yi := [y; (1 - y)%float] in
      '(phiv, rhov, flagv) <- calc_phiv lib P T yi eos rd ;;
      num <- broadcast PrimFloat.mul xi phil ;;
      yinew1 <- broadcast PrimFloat.div num phiv ;;
      let yinew_total_1 := np_sum yinew1 in
      let yi2 := scale_by yinew1 yinew_total_1 in
      '(phiv2, rhov2, flagv2) <- calc_phiv lib P T yi2 eos rd ;;
      tmp1 <- broadcast PrimFloat.mul yi phiv ;;
      tmp2 <- broadcast PrimFloat.mul yi2 phiv2 ;;
      a0 <- getitem tmp1 0 ;; a1 <- getitem tmp1 1 ;;
      b0 <- getitem tmp2 0 ;; b1 <- getitem tmp2 1 ;;
      let obj := abs (a0 / a1 - b0 / b1)%float in
      others <- find_new_yi_scan rest P T phil xi eos rd ;;
      Ok ((obj, y, flagv) :: others)
  end.

Definition find_new_yi (P T : float) (phil xi : array) (eos : EOS)
    (bounds : float * float) (npoints : nat) (rd : rhodict) : result array :=
  let yi_ext := np_linspace lib (fst bounds) (snd bounds) npoints in
  scan <- find_new_yi_scan yi_ext P T phil xi eos rd ;;
  let valid := filter (fun '(obj, _, _) => negb (is_nan obj)) scan in
  yi_tmp <-
    (if (length valid =? 0)%nat then Ok nan
     else
       let vapour := filter (fun '(_, _, f) => negb (flag_in f [1; 3]%Z)) valid in
       let kept := match vapour with [] => valid | _ => vapour end in
       let obj_tmp := map (fun '(obj, _, _) => abs obj) kept in
       m <- py_min obj_tmp ;;
       ind <- getitem (np_where (fun o => (o =? m)%float) obj_tmp) 0 ;;
       '(_, y, _) <- getitem kept ind ;;
       Ok y) ;;
  Ok [yi_tmp; (1 - yi_tmp)%float].

(** ** [bracket_bounding_yi(P, T, phil, xi, eos, bounds, maxiter=50, tol=1e-7, rhodict)] *)
Record bracket : Type := {
  br_bounds : float * float;
  br_obj : float * float;
  br_flag : flag * flag;
  br_high_vapor : bool
}.

Definition pick {A : Type} (p : A * A) (ind : nat) : A :=
  match ind with O => fst p | _ => snd p end.

Definition put {A : Type} (p : A * A) (ind : nat) (v : A) : A * A :=
  match ind with O => (v, snd p) | _ => (fst p, v) end.

Definition bracket_step (P T : float) (phil xi : array) (eos : EOS) (rd : rhodict)
    (tol : float) (i : nat) (b : bracket) : result (bracket * bool) :=
  let y1 := ((fst (br_bounds b) + snd (br_bounds b)) / 2)%float in
  '(obj, flagv) <- obj_yi [y1] P T phil xi eos rd ;;
  '(b, ind) <-
    (if negb (br_high_vapor b) then
       ind <- getitem (np_where (fun f => negb (flag_differs f flagv))
                         [fst (br_flag b); snd (br_flag b)]) 0 ;;
       if (flag_is flagv 0 && (1 / tol <? obj)%float)%bool then
         Ok ({| br_bounds := put (br_bounds b) 0 (pick (br_bounds b) ind);
                br_obj := put (br_obj b) 0 (pick (br_obj b) ind);
                br_flag := put (br_flag b) 0 (pick (br_flag b) ind);
                br_high_vapor := true |}, 1%nat)
       else Ok (b, ind)
     else Ok (b, if (obj <? fst (br_obj b))%float then 0%nat else 1%nat)) ;;
  let b := {| br_bounds := put (br_bounds b) ind y1;
              br_obj := put (br_obj b) ind obj;
              br_flag := put (br_flag b) ind flagv;
              br_high_vapor := br_high_vapor b |} in
  Ok (b, (abs (snd (br_bounds b) - fst (br_bounds b)) <? tol)%float).

Definition bracket_bounding_yi (P T : float) (phil xi : array) (eos : EOS)
    (bounds : float * float) (maxiter : nat) (tol : float) (rd : rhodict)
    : result (array * flag) :=
  '(obj0, flag0) <- obj_yi [fst bounds] P T phil xi eos rd ;;
  '(obj1, flag1) <- obj_yi [snd bounds] P T phil xi eos rd ;;
  let b := {| br_bounds := bounds; br_obj := (obj0, obj1); br_flag := (flag0, flag1);
              br_high_vapor := false |} in
  b <-
    (if negb (flag_differs flag0 flag1) then Ok b
     else '(b, _, _) <- for_range maxiter (bracket_step P T phil xi eos rd tol) b ;; Ok b) ;;
  let flags := [fst (br_flag b); snd (br_flag b)] in
  let objs := [fst (br_obj b); snd (br_obj b)] in
  let ind_array := np_where (fun f => flag_is f 0) flags in
  ind <-
    (if (length ind_array =? 1)%nat then getitem ind_array 0
     else m <- np_amin objs ;; getitem (np_where (fun o => (o =? m)%float) objs) 0) ;;
  let y1 := pick (br_bounds b) ind in
  let flagv := pick (br_flag b) ind in
  Ok ([y1; (1 - y1)%float], flagv).

(** ** [solve_yi_xiT(yi, xi, phil, P, T, eos, rhodict, maxiter=30, tol=1e-8)]

    The names the loop carries or leaves behind.  [phiv] is not among them:
    after the loop it is only assigned, never read. *)
Record yi_state : Type := {
  st_yi : array;
  st_yi_total : array;
  st_flag_check_vapor : bool;
  st_flag_trivial_sol : bool;
  st_yi_tmp : option array;
  st_flagv : option flag;
  st_yinew : option array;
  st_yi2 : option array;
  st_phiv2 : option array;
  st_flagv2 : option flag;
  st_world : world
}.

(** The relative change of the smallest positive fraction,
    [np.abs(yi2[ind_tmp] - yi_tmp[ind_tmp]) / yi_tmp[ind_tmp]], with
    [ind_tmp = np.where(yi_tmp == min(yi_tmp[yi_tmp > 0]))[0]]. *)
Definition smallest_fraction_index (yi_tmp : array) : result (list nat) :=
  m <- py_min (filter (fun y => (0 <? y)%float) yi_tmp) ;;
  Ok (np_where (fun y => (y =? m)%float) yi_tmp).

Definition smallest_fraction_change (yi2 yi_tmp : array) (ind_tmp : list nat)
    : result array :=
  a <- take yi2 ind_tmp ;;
  b <- take yi_tmp ind_tmp ;;
  Ok (map2 (fun a b => (abs (a - b) / b)%float) a b).

(** The body of the loop; the boolean is [break]. *)
Definition solve_yi_step (xi phil : array) (P T : float) (eos : EOS) (rd : rhodict)
    (maxiter : nat) (tol : float) (z : nat) (st : yi_state) : result (yi_state * bool) :=
  let yi := st_yi st in
  let yi_tmp := scale_by yi (np_sum yi) in
  '(phiv, rhov, flagv) <- calc_phiv lib P T yi_tmp eos rd ;;
  let binary := (forallb (fun y => negb (y =? 0)%float) yi_tmp
                 && (length yi_tmp =? 2)%nat)%bool in
  let predicted (phiv : array) : result array :=
    num <- broadcast PrimFloat.mul xi phil ;; broadcast PrimFloat.div num phiv in
  (* the new guess: [None] is the break with flagv = 3 *)
  '(guess, check_vapor, trivial_sol, w) <-
    (if ((np_any_isnan phiv || flag_is flagv 1) && st_flag_check_vapor st)%bool then
       if binary then
         yi2 <- find_new_yi P T phil xi eos (0.01, 0.99)%float 30 rd ;;
         if np_any_isnan yi2 then Ok (None, false, st_flag_trivial_sol st, st_world st)
         else
           '(phiv, rhov, flagv) <- calc_phiv lib P T yi2 eos rd ;;
           yinew <- predicted phiv ;;
           Ok (Some (flagv, yinew), false, st_flag_trivial_sol st, st_world st)
       else Ok (Some (flagv, yi), false, st_flag_trivial_sol st, st_world st)
     else
       d <- broadcast fsub xi yi_tmp ;;
       if ((np_sum (map abs d) <? 1e-5)%float && st_flag_trivial_sol st)%bool then
         '(yi2, w) <-
           (if binary then
              yi2 <- find_new_yi P T phil xi eos (0.01, 0.99)%float 30 rd ;;
              Ok (yi2, st_world st)
            else
              let '(r, w) := random_array (length yi_tmp) (st_world st) in
              Ok (scale_by r (np_sum r), w)) ;;
         if np_any_isnan yi2 then Ok (None, st_flag_check_vapor st, false, w)
         else
           '(phiv, rhov, flagv) <- calc_phiv lib P T yi2 eos rd ;;
           yinew <- predicted phiv ;;
           Ok (Some (flagv, yinew), st_flag_check_vapor st, false, w)
       else
         yinew <- predicted phiv ;;
         Ok (Some (flagv, yinew), st_flag_check_vapor st, st_flag_trivial_sol st,
             st_world st)) ;;
  match guess with
  | None =>
      Ok ({| st_yi := yi; st_yi_total := st_yi_total st;
             st_flag_check_vapor := check_vapor; st_flag_trivial_sol := trivial_sol;
             st_yi_tmp := Some yi_tmp; st_flagv := Some (Flag 3);
             st_yinew := st_yinew st; st_yi2 := st_yi2 st;
             st_phiv2 := st_phiv2 st; st_flagv2 := st_flagv2 st;
             st_world := w |}, true)
  | Some (flagv, yinew) =>
      let yinew := zero_nans yinew in
      let yi2 := scale_by yinew (np_sum yinew) in
      '(phiv2, _, flagv2) <- calc_phiv lib P T yi2 eos rd ;;
      let leave (yi2 phiv2 : array) (flagv2 : flag) (w : world) (broke : bool) :=
        {| st_yi := if broke then yi else if (z <? maxiter - 1)%nat then yinew else yi;
           st_yi_total :=
             if broke then st_yi_total st
             else if (z <? maxiter - 1)%nat then st_yi_total st ++ [np_sum yinew]
             else st_yi_total st;
           st_flag_check_vapor := check_vapor; st_flag_trivial_sol := trivial_sol;
           st_yi_tmp := Some yi_tmp; st_flagv := Some flagv;
           st_yinew := Some yinew; st_yi2 := Some yi2;
           st_phiv2 := Some phiv2; st_flagv2 := Some flagv2;
           st_world := w |} in
      (* bouncing between two values *)
      bouncing <-
        (if (3 <? length (st_yi_total st))%nat then
           t2 <- getitem (rev (st_yi_total st)) 1 ;;
           t1 <- getitem (rev (st_yi_total st)) 0 ;;
           t3 <- getitem (rev (st_yi_total st)) 2 ;;
           let tmp1 := (abs (np_sum yinew - t2) + abs (t1 - t3))%float in
           Ok ((tmp1 <? abs (np_sum yinew - t1))%float && flag_differs flagv flagv2)%bool
         else Ok false) ;;
      if (bouncing : bool) then
        y0 <- getitem yi_tmp 0 ;;
        y20 <- getitem yi2 0 ;;
        '(yi2, obj) <- bracket_bounding_yi P T phil xi eos (sort2 y0 y20) 50 1e-7%float rd ;;
        '(phiv2, _, flagv2) <- calc_phiv lib P T yi2 eos rd ;;
        Ok (leave yi2 phiv2 flagv2 (set_yi_global w yi2) true, true)
      else
        (* convergence *)
        t1 <- getlast (st_yi_total st) ;;
        converged <-
          (if (abs (np_sum yinew - t1) <? tol)%float then
             ind_tmp <- smallest_fraction_index yi_tmp ;;
             change <- smallest_fraction_change yi2 yi_tmp ind_tmp ;;
             truth_value (map (fun c => (c <? tol)%float) change)
           else Ok false) ;;
        if (converged : bool) then
          Ok (leave yi2 phiv2 flagv2 (set_yi_global w yi2) true, true)
        else Ok (leave yi2 phiv2 flagv2 w false, false)
  end.

(** The loop, from the normalised guess. *)
Definition solve_yi_loop (yi xi phil : array) (P T : float) (eos : EOS) (rd : rhodict)
    (maxiter : nat) (tol : float) (w : world)
    : result (yi_state * option nat * bool) :=
  let yi_total := [np_sum yi] in
  let yi := scale_by yi (np_sum yi) in
  for_range maxiter (solve_yi_step xi phil P T eos rd maxiter tol)
    {| st_yi := yi; st_yi_total := yi_total;
       st_flag_check_vapor := true; st_flag_trivial_sol := true;
       st_yi_tmp := None; st_flagv := None; st_yinew := None; st_yi2 := None;
       st_phiv2 := None; st_flagv2 := None; st_world := w |}.

(** The re-solve after the last iteration: the least-squares solution on the
    first fraction, its fugacity coefficients and flag, and its objective. *)
Definition solve_yi_resolve (yi2 : array) (xi phil : array) (P T : float) (eos : EOS)
    (rd : rhodict) : result (array * array * flag * float) :=
  x0 <- getitem yi2 0 ;;
  y1 <- least_squares lib
          (fun y => '(obj, _) <- obj_yi [y] P T phil xi eos rd ;; Ok obj)
          x0 (0, 1)%float ;;
  let yi := [y1; (1 - y1)%float] in
  '(phiv, rhov, flagv) <- calc_phiv lib P T yi eos rd ;;
  '(obj, _) <- obj_yi yi P T phil xi eos rd ;;
  Ok (yi, phiv, flagv, obj).

(** What follows the loop, up to the [return yi2, phiv2, flagv2]. *)
Definition solve_yi_finish (st : yi_state) (z : option nat) (xi phil : array)
    (P T : float) (eos : EOS) (rd : rhodict) (maxiter : nat) (tol : float)
    : result (array * array * flag * world) :=
  yi_tmp <- bound "yi_tmp" (st_yi_tmp st) ;;
  ind_tmp <- smallest_fraction_index yi_tmp ;;
  flagv <- bound "flagv" (st_flagv st) ;;
  if flag_is flagv 3 then
    yinew <- bound "yinew" (st_yinew st) ;;
    let yi2 := scale_by yinew (np_sum yinew) in
    Ok (yi2, repeat nan (length yi_tmp), FlagNaN, st_world st)
  else
    z <- bound "z" z ;;
    if (Z.of_nat z =? Z.of_nat maxiter - 1)%Z then
      yinew <- bound "yinew" (st_yinew st) ;;
      let yi2 := scale_by yinew (np_sum yinew) in
      tmp <- smallest_fraction_change yi2 yi_tmp ind_tmp ;;
      above <- truth_value (map (fun c => (0.1 <? c)%float) tmp) ;;
      _ <- (if (above : bool)
            then find_new_yi P T phil xi eos (0.01, 0.99)%float 30 rd
            else Ok yinew) ;;
      '(yi, phiv, flagv, obj) <- solve_yi_resolve yi2 xi phil P T eos rd ;;
      (* [if obj > tol: phiv = np.full(len(yi_tmp), np.nan); flagv = 3]
         assigns names that are not returned *)
      let '(phiv, flagv) :=
        if (tol <? obj)%float then (repeat nan (length yi_tmp), Flag 3)
        else (phiv, flagv) in
      phiv2 <- bound "phiv2" (st_phiv2 st) ;;
      flagv2 <- bound "flagv2" (st_flagv2 st) ;;
      Ok (yi2, phiv2, flagv2, st_world st)
    else
      yi2 <- bound "yi2" (st_yi2 st) ;;
      phiv2 <- bound "phiv2" (st_phiv2 st) ;;
      flagv2 <- bound "flagv2" (st_flagv2 st) ;;
      Ok (yi2, phiv2, flagv2, st_world st).

Definition solve_yi_xiT (yi xi phil : array) (P T : float) (eos : EOS) (rd : rhodict)
    (maxiter : nat) (tol : float) (w : world) : result (array * array * flag * world) :=
  '(st, z, _) <- solve_yi_loop yi xi phil P T eos rd maxiter tol w ;;
  solve_yi_finish st z xi phil P T eos rd maxiter tol.

(** ** [obj_xi(xi, P, T, phiv, yi, eos, rhodict)] *)
Definition obj_xi (xi : array) (P T : float) (phiv yi : array) (eos : EOS) (rd : rhodict)
    : result float :=
  let xi := match xi with [x] => [x; (1 - x)%float] | _ => xi end in
  '(phil, rhol, flagl) <- calc_phil lib P T xi eos rd ;;
  num <- broadcast PrimFloat.mul yi phiv ;;
  xinew <- broadcast PrimFloat.div num phil ;;
  let xinew_total_1 := np_sum xinew in
  let xi2 := scale_by xinew xinew_total_1 in
  '(phil2, rhol2, flagl2) <- calc_phil lib P T xi2 eos rd ;;
  num <- broadcast PrimFloat.mul yi phiv ;;
  xinew <- broadcast PrimFloat.div num phil2 ;;
  let xinew_total_2 := np_sum xinew in
  Ok (abs (xinew_total_1 - xinew_total_2)%float).

(** ** [find_new_xi(P, T, phiv, yi, eos, rhodict)] *)
Fixpoint find_new_xi_scan (xi_ext : array) (P T : float) (phiv yi : array) (eos : EOS)
    (rd : rhodict) : result (list (float * float * flag)) :=
  match xi_ext with
  | [] => Ok []
  | x :: rest =>
      let xi := [x; (1 - x)%float] in
      '(phil, rhol, flagl) <- calc_phil lib P T xi eos rd ;;
      num <- broadcast PrimFloat.mul yi phiv ;;
      xinew <- broadcast PrimFloat.div num phil ;;
      let xinew_total_1 := np_sum xinew in
      let xi2 := scale_by xinew xinew_total_1 in
      '(phil2, rhol2, flagl2) <- calc_phil lib P T xi2 eos rd ;;
      num <- broadcast PrimFloat.mul yi phiv ;;
      xinew <- broadcast PrimFloat.div num phil2 ;;
      let xinew_total_2 := np_sum xinew in
      let obj := (xinew_total_1 - xinew_total_2)%float in
      others <- find_new_xi_scan rest P T phiv yi eos rd ;;
      Ok ((abs obj, x, flagl2) :: others)
  end.

Definition find_new_xi (P T : float) (phiv yi : array) (eos : EOS) (rd : rhodict)
    : result array :=
  let xi_ext := np_linspace lib 0.001%float 0.999%float 30 in
  scan <- find_new_xi_scan xi_ext P T phiv yi eos rd ;;
  let valid := filter (fun '(obj, _, _) => negb (is_nan obj)) scan in
  xi_tmp <-
    (if (length valid =? 0)%nat then Ok nan
     else
       let liquid := filter (fun '(_, _, f) => negb (flag_in f [0; 3; 4]%Z)) valid in
       let kept := match liquid with [] => valid | _ => liquid end in
       let obj_tmp := map (fun '(obj, _, _) => abs obj) kept in
       m <- py_min obj_tmp ;;
       ind <- getitem (np_where (fun o => (o =? m)%float) obj_tmp) 0 ;;
       '(_, x, _) <- getitem kept ind ;;
       Ok x) ;;
  Ok [xi_tmp; (1 - xi_tmp)%float].

(** ** [solve_xi_yiT(xi, yi, phiv, P, T, eos, rhodict, maxiter=20, tol=1e-6)]

    [sx_alias] records that [xinew] is the array [xi] itself ([xinew = xi]),
    so that the in-place updates of [xinew] reach [xi].  The scalar
    [phil = np.nan] is held as the one-entry array [[nan]], which broadcasts
    the same way. *)
Record xi_state : Type := {
  sx_xi : array;
  sx_xi_total : array;
  sx_xi_tmp : option array;
  sx_phil : option array;
  sx_flagl : option flag;
  sx_xinew : option array;
  sx_alias : bool;
  sx_xi2 : option array;
  sx_world : world
}.

Definition solve_xi_step (yi phiv : array) (P T : float) (eos : EOS) (rd : rhodict)
    (maxiter : nat) (tol : float) (z : nat) (st : xi_state) : result (xi_state * bool) :=
  let xi := sx_xi st in
  let xi_tmp := scale_by xi (np_sum xi) in
  '(phil, rhol, flagl) <- calc_phil lib P T xi_tmp eos rd ;;
  '(phil, flagl, xinew, alias) <-
    (if (np_any_isnan phil || flag_is flagl 0)%bool then
       '(phil, flagl, xinew, alias) <-
         (if forallb (fun x => negb (x =? 0)%float) xi then
            xinew <- find_new_xi P T phiv yi eos rd ;;
            '(phil, rhol, flagl) <- calc_phil lib P T xinew eos rd ;;
            num <- broadcast PrimFloat.mul yi phiv ;;
            xinew <- broadcast PrimFloat.div num phil ;;
            Ok (phil, flagl, xinew, false)
          else Ok (phil, flagl, xi, true)) ;;
       Ok (if np_any_isnan phil then [nan] else phil, flagl, xinew, alias)
     else
       num <- broadcast PrimFloat.mul yi phiv ;;
       xinew <- broadcast PrimFloat.div num phil ;;
       Ok (phil, flagl, xinew, false)) ;;
  let xinew := zero_nans xinew in
  let xi := if (alias : bool) then xinew else xi in
  t1 <- getlast (sx_xi_total st) ;;
  '(xi2, converged) <-
    (if (abs (np_sum xinew - t1) <? tol)%float then
       ind_tmp <- smallest_fraction_index xi_tmp ;;
       let xi2 := scale_by xinew (np_sum xinew) in
       change <- smallest_fraction_change xi2 xi_tmp ind_tmp ;;
       c <- truth_value (map (fun c => (c <? tol)%float) change) ;;
       Ok (Some xi2, c)
     else Ok (sx_xi2 st, false)) ;;
  let advance := (negb converged && (z <? maxiter - 1)%nat)%bool in
  Ok ({| sx_xi := if advance then xinew else xi;
         sx_xi_total :=
           if advance then sx_xi_total st ++ [np_sum xinew] else sx_xi_total st;
         sx_xi_tmp := Some xi_tmp; sx_phil := Some phil; sx_flagl := Some flagl;
         sx_xinew := Some xinew; sx_alias := (alias || advance)%bool; sx_xi2 := xi2;
         sx_world := if converged then set_xi_global (sx_world st) xi_tmp
                     else sx_world st |},
      converged).

Definition solve_xi_loop (xi yi phiv : array) (P T : float) (eos : EOS) (rd : rhodict)
    (maxiter : nat) (tol : float) (w : world)
    : result (xi_state * option nat * bool) :=
  let xi := scale_by xi (np_sum xi) in
  let xi_total := [np_sum xi] in
  for_range maxiter (solve_xi_step yi phiv P T eos rd maxiter tol)
    {| sx_xi := xi; sx_xi_total := xi_total; sx_xi_tmp := None; sx_phil := None;
       sx_flagl := None; sx_xinew := None; sx_alias := false; sx_xi2 := None;
       sx_world := w |}.

Definition solve_xi_finish (st : xi_state) (z : option nat) (yi phiv : array)
    (P T : float) (eos : EOS) (rd : rhodict) (maxiter : nat) (tol : float)
    : result (array * array * flag * world) :=
  xinew <- bound "xinew" (sx_xinew st) ;;
  let xinew := scale_by xinew (np_sum xinew) in
  let xi := if sx_alias st then xinew else sx_xi st in
  ind_tmp <- smallest_fraction_index xi ;;
  z <- bound "z" z ;;
  xi_tmp <- bound "xi_tmp" (sx_xi_tmp st) ;;
  _ <-
    (if (Z.of_nat z =? Z.of_nat maxiter - 1)%Z then
       let xi2 := scale_by xinew (np_sum xinew) in
       tmp <- smallest_fraction_change xi2 xi_tmp ind_tmp ;;
       above <- truth_value (map (fun c => (0.1 <? c)%float) tmp) ;;
       xinew <- (if (above : bool) then find_new_xi P T phiv yi eos rd else Ok xinew) ;;
       x0 <- getitem xinew 0 ;;
       x1 <- least_squares lib (fun x => obj_xi [x] P T phiv yi eos rd) x0 (0, 1)%float ;;
       let xi := [x1; (1 - x1)%float] in
       obj_xi xi P T phiv yi eos rd
     else
       xi2 <- bound "xi2" (sx_xi2 st) ;;
       _ <- smallest_fraction_change xi2 xi_tmp ind_tmp ;;
       Ok 0%float) ;;
  phil <- bound "phil" (sx_phil st) ;;
  flagl <- bound "flagl" (sx_flagl st) ;;
  Ok (xi_tmp, phil, flagl, sx_world st).

Definition solve_xi_yiT (xi yi phiv : array) (P T : float) (eos : EOS) (rd : rhodict)
    (maxiter : nat) (tol : float) (w : world) : result (array * array * flag * world) :=
  '(st, z, _) <- solve_xi_loop xi yi phiv P T eos rd maxiter tol w ;;
  solve_xi_finish st z yi phiv P T eos rd maxiter tol.

End InnerSolver.

(** ** Dummy saturation pressures: [setPsat(ind, eos)] *)

(** [sub in s] on strings. *)
Fixpoint contains (sub s : string) : bool :=
  if String.prefix sub s then true
  else match s with
       | EmptyString => false
       | String _ t => contains sub t
       end.

(** The loop over the beads [j] of row [eos.nui[ind]]; [Psat] and [NaNbead]
    are unbound until a bead with a positive entry assigns them. *)
Fixpoint setPsat_loop (row : array) (j : nat) (beads : list string)
    (Psat : option float) (NaNbead : option string)
    : result (option float * option string) :=
  match row with
  | [] => Ok (Psat, NaNbead)
  | x :: rest =>
      if (0.0 <? x)%float then
        b <- getitem beads j ;;
        if String.eqb b "CO2" then
          setPsat_loop rest (S j) beads (Some 10377000.0%float) NaNbead
        else if String.eqb b "N2" then
          setPsat_loop rest (S j) beads (Some 7377000.0%float) NaNbead
        else if contains "CH4" b then
          setPsat_loop rest (S j) beads (Some 6377000.0%float) NaNbead
        else if contains "CH3CH3" b then
          setPsat_loop rest (S j) beads (Some 7377000.0%float) NaNbead
        else
          setPsat_loop rest (S j) beads (Some 7377000.0%float) (Some b)
      else setPsat_loop rest (S j) beads Psat NaNbead
  end.

Definition setPsat (ind : nat) (eos : EOS) : result (float * string) :=
  row <- getitem (nui eos) ind ;;
  '(Psat, NaNbead) <- setPsat_loop row 0 (beads eos) None None ;;
  let NaNbead := match NaNbead with Some b => b | None => "No NaNbead"%string end in
  match Psat with
  | Some p => Ok (p, NaNbead)
  | None => Raise (UnboundLocalError "Psat")
  end.

(** ** The outer pressure solver *)

(** The keys of [zi_opts] that reach the inner solvers as keyword arguments. *)
Record zi_opts : Type := {
  zi_maxiter : option nat;
  zi_tol : option float
}.

Definition zi_opts_default : zi_opts := {| zi_maxiter := None; zi_tol := None |}.

Definition opt_or {A : Type} (o : option A) (default : A) : A :=
  match o with Some a => a | None => default end.

(** The repository's [general_toolbox.solve_root(func, args, x0, method,
    bounds, options)], which is not part of calc.py: it receives the
    objective, which reads and writes the module state, and returns a
    pressure or raises. *)
Record Toolbox : Type := {
  solve_root :
    (float -> world -> result (float * world)) ->
    float -> string -> float * float -> world -> result (float * world)
}.

(** [np.nanmax([a, b])] *)
Definition np_nanmax2 (a b : float) : float :=
  if is_nan a then b else if is_nan b then a else if (a <? b)%float then b else a.

Section OuterSolver.
Variable lib : Lib.
Variable toolbox : Toolbox.

(** [np.nansum(a * b / c) - 1.0] *)
Definition equilibrium_objective (a b c : array) : result float :=
  num <- broadcast PrimFloat.mul a b ;;
  q <- broadcast PrimFloat.div num c ;;
  Ok (np_nansum q - 1.0)%float.

(** ** [solve_P_xiT(P, xi, T, eos, rhodict, zi_opts)] *)
Definition solve_P_xiT (P : float) (xi : array) (T : float) (eos : EOS) (rd : rhodict)
    (zo : zi_opts) (w : world) : result (float * world) :=
  if (P <? 0)%float then Ok (10.0%float, w)
  else
    '(phil, rhol, flagl) <- calc_phil lib P T xi eos rd ;;
    guess <- match yi_global w with
             | Some yi => Ok yi
             | None => Raise (NameError "yi_global")
             end ;;
    '(yinew, phiv, flagv, w) <-
      solve_yi_xiT lib guess xi phil P T eos rd
        (opt_or (zi_maxiter zo) 30%nat) (opt_or (zi_tol zo) 1e-8%float) w ;;
    let yi := scale_by yinew (np_sum yinew) in
    let w := set_yi_global w yi in
    '(phiv, rhov, flagv) <- calc_phiv lib P T yi eos rd ;;
    obj_value <- equilibrium_objective xi phil phiv ;;
    Ok (obj_value, w).

(** ** [calc_Prange_xi(T, xi, yi, eos, rhodict, Pmin=10000, zi_opts)]

    [Prange = np.array([Pmin, Pmax])] is an [int64] array when [Pmin] is a
    Python int (the default) and the curve has no extremum ([Pmax = 100000]):
    [rx_int] records it.  A pressure stored into [Prange] is then truncated,
    and the arithmetic on its entries alone ([Prange[0] += Pmin],
    [2*Prange[0]], [Prange[1]-Prange[0]]) is [int64] arithmetic, which wraps
    around.  An [int64] value is carried as the binary64 number equal to it:
    every truncated or doubled pressure is such a number, and so is every
    integer below 2^53 in magnitude. *)
Record Prange_xi_state : Type := {
  rx_int : bool;
  rx_Prange : float * float;
  rx_ObjRange : float * float;
  rx_yi_range : array;
  rx_flag_liqu : bool;
  rx_flag_min : bool;
  rx_p : float;
  rx_Parray : array;
  rx_ObjArray : array;
  rx_Pguess : option float;
  rx_world : world
}.

Definition stored (st : Prange_xi_state) (v : float) : float :=
  if rx_int st then trunc_int64 v else v.

(** The result of an [int64] operation, brought back into the [int64] range. *)
Definition wrap_int64 (v : float) : float :=
  if (0x1p63 <=? v)%float then (v - 0x1p64)%float
  else if (v <? -0x1p63)%float then (v + 0x1p64)%float
  else v.

(** [Prange[i] + c] for an integer [c], [2*Prange[i]] and
    [Prange[i] - Prange[j]]. *)
Definition increased (st : Prange_xi_state) (a c : float) : float :=
  if rx_int st then wrap_int64 (a + c) else (a + c)%float.

Definition doubled (st : Prange_xi_state) (a : float) : float :=
  if rx_int st then wrap_int64 (2 * a) else (2 * a)%float.

Definition difference (st : Prange_xi_state) (a b : float) : float :=
  if rx_int st then wrap_int64 (a - b) else (a - b)%float.

Definition nonpositive_pressure (p : float) (xi : array) (T : float) : exn :=
  ValueError
    "Pressure, {}, cannot be equal to or less than zero. Given composition, {}, and T {}, results in a supercritical value without a coexistent fluid."
    [] (p :: xi ++ [T]).

Definition no_minimum_pressure : exn :=
  ValueError
    "Maximum Number of Iterations Reached: Proper minimum pressure for liquid density could not be found"
    [] [].

Definition fugacity_nan : exn :=
  ValueError "Fugacity coefficient should not be NaN, pressure could be too high." [] [].

(** The first loop: a lower pressure with a positive objective. *)
Definition Prange_xi_lower_step (T : float) (xi : array) (eos : EOS) (rd : rhodict)
    (Pmin : float) (zo : zi_opts) (z : nat) (st : Prange_xi_state)
    : result (Prange_xi_state * bool) :=
  let p := rx_p st in
  let '(P0, P1) := rx_Prange st in
  let '(Obj0, Obj1) := rx_ObjRange st in
  let mk Prange ObjRange yi_range flag_liqu p w :=
    {| rx_int := rx_int st; rx_Prange := Prange; rx_ObjRange := ObjRange;
       rx_yi_range := yi_range; rx_flag_liqu := flag_liqu;
       rx_flag_min := rx_flag_min st; rx_p := p; rx_Parray := rx_Parray st;
       rx_ObjArray := rx_ObjArray st; rx_Pguess := rx_Pguess st; rx_world := w |} in
  '(phil, rhol, flagl) <- calc_phil lib p T xi eos rd ;;
  if np_any_isnan phil then
    Ok (mk (increased st P0 Pmin, P1) (Obj0, Obj1) (rx_yi_range st)
          (rx_flag_liqu st) p (rx_world st), false)
  else
    '(st', broke) <-
      (if flag_in flagl [1; 2]%Z then
         '(yi_range, phiv_min, flagv_min, w) <-
           solve_yi_xiT lib (rx_yi_range st) xi phil p T eos rd
             (opt_or (zi_maxiter zo) 30%nat) (opt_or (zi_tol zo) 1e-8%float)
             (rx_world st) ;;
         obj <- equilibrium_objective xi phil phiv_min ;;
         if np_any_isnan yi_range then
           Ok (mk (stored st p, P1) (obj, Obj1) yi_range (rx_flag_liqu st)
                 (p / 2)%float w, false)
         else
           d <- broadcast fsub xi yi_range ;;
           if (np_sum (map abs d) <? 1e-5)%float then
             Ok (mk (P0, stored st p) (Obj0, obj) yi_range true (0.75 * p)%float w,
                 false)
           else if (0 <? obj)%float then
             Ok (mk (stored st p, P1) (obj, Obj1) yi_range (rx_flag_liqu st) p w, true)
           else if (Obj0 <? 0)%float then
             Ok (mk (P0, stored st p) (Obj0, obj) yi_range (rx_flag_liqu st)
                   (p / 2)%float w, false)
           else Ok (mk (P0, P1) (Obj0, Obj1) yi_range (rx_flag_liqu st) p w, false)
       else
         Ok (mk (stored st p, P1) (Obj0, Obj1) (rx_yi_range st) (rx_flag_liqu st)
               (doubled st (stored st p)) (rx_world st), false)) ;;
    if (broke : bool) then Ok (st', true)
    else
      let p := rx_p st' in
      let '(P0, P1) := rx_Prange st' in
      let '(Obj0, Obj1) := rx_ObjRange st' in
      let '(P0, Obj0) := if (P1 <? P0)%float then (P1, Obj1) else (P0, Obj0) in
      let '(p, w) :=
        if (((p <? P0)%float && negb (P0 =? P1)%float)
            || (rx_flag_liqu st' && (P1 <? p)%float))%bool
        then let '(r, w) := random_float lib (rx_world st') in
             ((difference st P1 P0 * r + P0)%float, w)
        else (p, rx_world st') in
      if (p <=? 0)%float then Raise (nonpositive_pressure p xi T)
      else
        Ok ({| rx_int := rx_int st'; rx_Prange := (P0, P1); rx_ObjRange := (Obj0, Obj1);
               rx_yi_range := rx_yi_range st'; rx_flag_liqu := rx_flag_liqu st';
               rx_flag_min := rx_flag_min st'; rx_p := p; rx_Parray := rx_Parray st';
               rx_ObjArray := rx_ObjArray st'; rx_Pguess := rx_Pguess st';
               rx_world := w |}, false).

Definition Prange_xi_lower_loop (T : float) (xi yi : array) (eos : EOS) (rd : rhodict)
    (Pmin : float) (Pmin_is_int : bool) (zo : zi_opts) (w : world)
    : result (Prange_xi_state * option nat * bool) :=
  '(vlist, Plist) <- PvsRho lib T xi eos rd ;;
  let '(Pvspline, roots, extrema) := PvsV_spline lib vlist Plist in
  Pmax <-
    (if (length extrema =? 0)%nat then Ok 100000%float
     else py_max (map (spl_eval Pvspline) extrema)) ;;
  for_range 200 (Prange_xi_lower_step T xi eos rd Pmin zo)
    {| rx_int := (Pmin_is_int && (length extrema =? 0)%nat)%bool;
       rx_Prange := (Pmin, Pmax); rx_ObjRange := (0, 0)%float; rx_yi_range := yi;
       rx_flag_liqu := false; rx_flag_min := false; rx_p := Pmin;
       rx_Parray := []; rx_ObjArray := []; rx_Pguess := None; rx_world := w |}.

(** The second loop: an upper pressure with a negative objective. *)
Definition Prange_xi_upper_step (T : float) (xi : array) (eos : EOS) (rd : rhodict)
    (zo : zi_opts) (z : nat) (st : Prange_xi_state) : result (Prange_xi_state * bool) :=
  let tol := 1e-2%float in
  let p := rx_p st in
  let '(P0, P1) := rx_Prange st in
  let '(Obj0, Obj1) := rx_ObjRange st in
  '(phil, rhol, flagl) <- calc_phil lib p T xi eos rd ;;
  if np_any_isnan phil then Raise fugacity_nan
  else
    '(yi_range, phiv_max, flagv_max, w) <-
      solve_yi_xiT lib (rx_yi_range st) xi phil p T eos rd
        (opt_or (zi_maxiter zo) 30%nat) (opt_or (zi_tol zo) 1e-8%float) (rx_world st) ;;
    obj <- equilibrium_objective xi phil phiv_max ;;
    let mk Prange ObjRange flag_liqu flag_min p Parray ObjArray Pguess w :=
      {| rx_int := rx_int st; rx_Prange := Prange; rx_ObjRange := ObjRange;
         rx_yi_range := yi_range; rx_flag_liqu := flag_liqu; rx_flag_min := flag_min;
         rx_p := p; rx_Parray := Parray; rx_ObjArray := ObjArray; rx_Pguess := Pguess;
         rx_world := w |} in
    if (negb (flag_in flagv_max [0; 2; 4]%Z) || np_any_isnan yi_range)%bool then
      let P1 := stored st p in
      Ok (mk (P0, P1) (Obj0, obj) true (rx_flag_min st)
            (difference st P1 P0 / 2.0 + P0)%float
            (rx_Parray st) (rx_ObjArray st) (rx_Pguess st) w, false)
    else if (obj <? 0)%float then
      let '(P0, Obj0) := if (P1 <? p)%float then (P1, Obj1) else (P0, Obj0) in
      let P1 := stored st p in
      let Obj1 := obj in
      let slope := ((Obj1 - Obj0) / difference st P1 P0)%float in
      let intercept := (Obj1 - slope * P1)%float in
      Ok (mk (P0, P1) (Obj0, Obj1) (rx_flag_liqu st) (rx_flag_min st) p
            (rx_Parray st) (rx_ObjArray st) (Some (- intercept / slope)%float) w, true)
    else
      let Parray := rx_Parray st ++ [p] in
      let ObjArray := rx_ObjArray st ++ [obj] in
      if rx_flag_liqu st then
        let P0 := stored st p in
        Ok (mk (P0, P1) (obj, Obj1) true (rx_flag_min st)
              (difference st P1 P0 / 2.0 + P0)%float
              Parray ObjArray (rx_Pguess st) w, false)
      else
        rising <-
          (if (0 <? z)%nat then
             last <- getitem (rev ObjArray) 0 ;;
             before <- getitem (rev ObjArray) 1 ;;
             Ok (1.1 * before <? last)%float
           else Ok false) ;;
        if ((rising : bool) || rx_flag_min st)%bool then
          let '(P0, Obj0) :=
            if negb (rx_flag_min st) then (P1, Obj1) else (P0, Obj0) in
          if existsb (fun q => (abs (p - q) <? tol)%float) (rx_Parray st) then
            Ok (mk (P0, P1) (Obj0, Obj1) false true p Parray ObjArray (rx_Pguess st) w,
                true)
          else
            '(P1, Obj1, p, w) <-
              (if (Obj0 <? obj)%float then
                 let P1 := stored st p in
                 Ok (P1, obj, (difference st P1 P0 / 2 + P0)%float, w)
               else
                 let ind := np_where (fun q => ((P0 <=? q) && (q <=? P1))%float%bool)
                              Parray in
                 if (3 <? length ind)%nat then
                   xs <- take Parray ind ;;
                   ys <- take ObjArray ind ;;
                   '(x, y) <- _clean_plot_data xs ys ;;
                   let xroot := np_roots lib (np_polyfit lib x y 2) in
                   let xroot :=
                     if (length xroot =? 0)%nat
                     then np_roots lib (np_polyder lib (np_polyfit lib x y 3))
                     else xroot in
                   if (length xroot =? 0)%nat then
                     let '(r, w) := random_float lib w in
                     Ok (P1, Obj1, (difference st P1 P0 * r + P0)%float, w)
                   else Ok (P1, Obj1, p, w)
                 else
                   let '(r, w) := random_float lib w in
                   Ok (P1, Obj1, (difference st P1 P0 * r + P0)%float, w)) ;;
            let '(p, w) :=
              if (p <? P0)%float
              then let '(r, w) := random_float lib w in
                   ((difference st P1 P0 * r + P0)%float, w)
              else (p, w) in
            Ok (mk (P0, P1) (Obj0, Obj1) false true p Parray ObjArray (rx_Pguess st) w,
                false)
        else
          let '(P0, Obj0) := if (P1 <? p)%float then (P1, Obj1) else (P0, Obj0) in
          let P1 := stored st p in
          let Obj1 := obj in
          let slope := ((Obj1 - Obj0) / difference st P1 P0)%float in
          let intercept := (Obj1 - slope * P1)%float in
          Ok (mk (P0, P1) (Obj0, Obj1) false (rx_flag_min st)
                (np_nanmax2 (- intercept / slope)%float (doubled st P1))
                Parray ObjArray (rx_Pguess st) w, false).

Definition Prange_xi_upper_loop (T : float) (xi : array) (eos : EOS) (rd : rhodict)
    (zo : zi_opts) (st : Prange_xi_state)
    : result (Prange_xi_state * option nat * bool) :=
  let '(P0, P1) := rx_Prange st in
  let P1 := if (P1 <=? P0)%float then stored st (P0 * 1.1)%float else P1 in
  for_range 200 (Prange_xi_upper_step T xi eos rd zo)
    {| rx_int := rx_int st; rx_Prange := (P0, P1); rx_ObjRange := rx_ObjRange st;
       rx_yi_range := rx_yi_range st; rx_flag_liqu := rx_flag_liqu st;
       rx_flag_min := false; rx_p := P1; rx_Parray := [P1];
       rx_ObjArray := [snd (rx_ObjRange st)]; rx_Pguess := None;
       rx_world := rx_world st |}.

Definition calc_Prange_xi (T : float) (xi yi : array) (eos : EOS) (rd : rhodict)
    (Pmin : float) (Pmin_is_int : bool) (zo : zi_opts) (w : world)
    : result ((float * float) * float * world) :=
  '(st, z, _) <- Prange_xi_lower_loop T xi yi eos rd Pmin Pmin_is_int zo w ;;
  z <- bound "z" z ;;
  if (z =? 200 - 1)%nat then Raise no_minimum_pressure
  else
    '(st, z, _) <- Prange_xi_upper_loop T xi eos rd zo st ;;
    z <- bound "z" z ;;
    if ((z =? 200 - 1)%nat || rx_flag_min st)%bool then Ok ((nan, nan), nan, rx_world st)
    else
      Pguess <- bound "Pguess" (rx_Pguess st) ;;
      Ok (rx_Prange st, Pguess, set_yi_global (rx_world st) (rx_yi_range st)).

(** ** [calc_xT_phase(xi, T, eos, rhodict, zi_opts, Pguess=-1, meth, pressure_opts)] *)
Definition no_pressure_range : exn :=
  ValueError
    "Neither a suitable pressure range, or guess in pressure could be found nor was given."
    [] [].

(** One turn of the loop over components; a NaN dummy value is logged, not
    raised. *)
Definition Psat_of_component_xT (i : nat) (xi : array) (T : float) (eos : EOS)
    (rd : rhodict) : result float :=
  let xi_tmp := setitem (map (fun _ => 0%float) xi) i 1.0%float in
  '(Psat_i, _, _) <- calc_Psat lib T xi_tmp eos rd ;;
  if is_nan Psat_i then
    '(Psat_i, NaNbead) <- setPsat i eos ;;
    Ok Psat_i
  else Ok Psat_i.

Fixpoint Psat_of_components_xT (ind : list nat) (xi : array) (T : float) (eos : EOS)
    (rd : rhodict) : result array :=
  match ind with
  | [] => Ok []
  | i :: rest =>
      p <- Psat_of_component_xT i xi T eos rd ;;
      ps <- Psat_of_components_xT rest xi T eos rd ;;
      Ok (p :: ps)
  end.

Definition clamp_tol (zo : zi_opts) : zi_opts :=
  match zi_tol zo with
  | Some tol =>
      if (1e-10 <? tol)%float
      then {| zi_maxiter := zi_maxiter zo; zi_tol := Some 1e-10%float |}
      else zo
  | None => zo
  end.

Definition calc_xT_phase (xi : array) (T : float) (eos : EOS) (rd : rhodict)
    (zo : zi_opts) (Pguess : float) (meth : string) (w : world)
    : result (float * array * flag * flag * float * world) :=
  Psat <- Psat_of_components_xT (seq 0 (length xi)) xi T eos rd ;;
  let P :=
    if (Pguess <? 0)%float then (1.0 / np_sum (map2 PrimFloat.div xi Psat))%float
    else Pguess in
  let reseeded :=
    let yi := scale_by (map2 PrimFloat.mul xi Psat) P in
    set_yi_global w (scale_by yi (np_nansum yi)) in
  let w :=
    match yi_global w with
    | Some yi => if np_any_isnan yi then reseeded else w
    | None => reseeded
    end in
  yi <- match yi_global w with
        | Some yi => Ok yi
        | None => Raise (NameError "yi_global")
        end ;;
  '(Prange, Pguess, w) <- calc_Prange_xi T xi yi eos rd 10000%float true zo w ;;
  if (is_nan (fst Prange) || is_nan (snd Prange))%bool then Raise no_pressure_range
  else
    let P := Pguess in
    '(P, w) <- solve_root toolbox (fun P => solve_P_xiT P xi T eos rd zo) P meth Prange w ;;
    '(phil, rhol, flagl) <- calc_phil lib P T xi eos rd ;;
    '(phiv, rhov, flagv) <- calc_phiv lib P T yi eos rd ;;
    let zo := clamp_tol zo in
    '(obj, w) <- solve_P_xiT P xi T eos rd zo w ;;
    yi_final <- match yi_global w with
                | Some yi => Ok yi
                | None => Raise (NameError "yi_global")
                end ;;
    Ok (P, yi_final, flagv, flagl, obj, w).

(** ** [solve_P_yiT(P, yi, T, eos, rhodict, zi_opts)] *)
Definition solve_P_yiT (P : float) (yi : array) (T : float) (eos : EOS) (rd : rhodict)
    (zo : zi_opts) (w : world) : result (float * world) :=
  if (P <? 0)%float then Ok (10.0%float, w)
  else
    '(phiv, rhov, flagv) <- calc_phiv lib P T yi eos rd ;;
    guess <- match xi_global w with
             | Some xi => Ok xi
             | None => Raise (NameError "xi_global")
             end ;;
    '(xinew, phil, flagl, w) <-
      solve_xi_yiT lib guess yi phiv P T eos rd
        (opt_or (zi_maxiter zo) 20%nat) (opt_or (zi_tol zo) 1e-6%float) w ;;
    let xi := scale_by xinew (np_sum xinew) in
    let w := set_xi_global w xi in
    '(phil, rhol, flagl) <- calc_phil lib P T xi eos rd ;;
    obj_value <- equilibrium_objective yi phiv phil ;;
    Ok (obj_value, w).

(** ** [calc_Prange_yi(T, xi, yi, eos, rhodict, zi_opts)] *)
Record Prange_yi_state : Type := {
  ry_Prange : float * float;
  ry_ObjRange : float * float;
  ry_xi_range : array;
  ry_flag_sol : bool;
  ry_flag_vapor : bool;
  ry_p : float;
  ry_Pguess : option float;
  ry_world : world
}.

Definition Prange_yi_step (T : float) (yi : array) (eos : EOS) (rd : rhodict)
    (zo : zi_opts) (i : nat) (st : Prange_yi_state) : result (Prange_yi_state * bool) :=
  let p := ry_p st in
  '(phiv, rhov, flagv) <- calc_phiv lib p T yi eos rd ;;
  '(xi_range, phil, flagl, w) <-
    solve_xi_yiT lib (ry_xi_range st) yi phiv p T eos rd
      (opt_or (zi_maxiter zo) 20%nat) (opt_or (zi_tol zo) 1e-6%float) (ry_world st) ;;
  obj <- equilibrium_objective yi phiv phil ;;
  let '(Pmin, Pmax) := ry_Prange st in
  let '(Obj0, Obj1) := ry_ObjRange st in
  let mk Prange ObjRange flag_sol flag_vapor p Pguess :=
    {| ry_Prange := Prange; ry_ObjRange := ObjRange; ry_xi_range := xi_range;
       ry_flag_sol := flag_sol; ry_flag_vapor := flag_vapor; ry_p := p;
       ry_Pguess := Pguess; ry_world := w |} in
  if (i =? 0)%nat then
    if negb (flag_in flagv [0; 2; 4]%Z) then
      Ok (mk (nan, nan) (Obj0, Obj1) (ry_flag_sol st) (ry_flag_vapor st) p (Some nan), true)
    else
      Ok (mk (Pmin, Pmax) (obj, Obj1) (ry_flag_sol st) (ry_flag_vapor st) Pmax
            (ry_Pguess st), false)
  else
    let Obj1 := if (i =? 1)%nat then obj else Obj1 in
    if negb (flag_in flagv [0; 2; 4]%Z) then
      let Pmax := p in
      let Obj1 := p in
      Ok (mk (Pmin, Pmax) (Obj0, Obj1) (ry_flag_sol st) true
            ((Pmax - Pmin) / 2.0 + Pmin)%float (ry_Pguess st), false)
    else if (0 <? obj)%float then
      let '(Pmin, Obj0) := if (Pmax <? p)%float then (Pmax, Obj1) else (Pmin, Obj0) in
      let Pmax := p in
      let Obj1 := obj in
      let slope := ((Obj1 - Obj0) / (Pmax - Pmin))%float in
      let intercept := (Obj1 - slope * Pmax)%float in
      Ok (mk (Pmin, Pmax) (Obj0, Obj1) true (ry_flag_vapor st) p
            (Some (- intercept / slope)%float), true)
    else if ry_flag_vapor st then
      let Pmin := p in
      let Obj0 := obj in
      Ok (mk (Pmin, Pmax) (Obj0, Obj1) (ry_flag_sol st) (ry_flag_vapor st)
            ((Pmax - Pmin) / 2.0 + Pmin)%float (ry_Pguess st), false)
    else
      let '(Pmin, Obj0) := if (Pmax <? p)%float then (Pmax, Obj1) else (Pmin, Obj0) in
      let Pmax := p in
      let Obj1 := obj in
      let slope := ((Obj1 - Obj0) / (Pmax - Pmin))%float in
      let intercept := (Obj1 - slope * Pmax)%float in
      Ok (mk (Pmin, Pmax) (Obj0, Obj1) (ry_flag_sol st) (ry_flag_vapor st)
            (np_nanmax2 (- intercept / slope) (2 * Pmax))%float (ry_Pguess st), false).

(** The bracketing loop of at most 200 trial pressures. *)
Definition Prange_yi_loop (T : float) (xi yi : array) (eos : EOS) (rd : rhodict)
    (zo : zi_opts) (w : world) : result (Prange_yi_state * option nat * bool) :=
  '(vlist, Plist) <- PvsRho lib T yi eos rd ;;
  let '(Pvspline, roots, extrema) := PvsV_spline lib vlist Plist in
  '(Pmin, Pmax) <-
    (if (1 <? length extrema)%nat then
       Pmin <- py_min (map (spl_eval Pvspline) extrema) ;;
       Pmax <- py_max (map (spl_eval Pvspline) extrema) ;;
       Ok (Pmin, Pmax)
     else
       Pmin <- py_min Plist ;;
       let Pmin := if (Pmin <? 0)%float then 100%float else Pmin in
       Ok (Pmin, (10 * Pmin)%float)) ;;
  for_range 200 (Prange_yi_step T yi eos rd zo)
    {| ry_Prange := (Pmin, Pmax); ry_ObjRange := (0, 0)%float; ry_xi_range := xi;
       ry_flag_sol := false; ry_flag_vapor := false; ry_p := Pmin;
       ry_Pguess := None; ry_world := w |}.

Definition calc_Prange_yi (T : float) (xi yi : array) (eos : EOS) (rd : rhodict)
    (zo : zi_opts) (w : world) : result ((float * float) * float * world) :=
  '(st, i, _) <- Prange_yi_loop T xi yi eos rd zo w ;;
  i <- bound "i" i ;;
  if (i =? 200 - 1)%nat then Ok ((nan, nan), nan, ry_world st)
  else if ry_flag_sol st then
    Pguess <- bound "Pguess" (ry_Pguess st) ;;
    Ok (ry_Prange st, Pguess, ry_world st)
  else
    let w := set_xi_global (ry_world st) (ry_xi_range st) in
    Pguess <- bound "Pguess" (ry_Pguess st) ;;
    Ok (ry_Prange st, Pguess, w).

(** ** [calc_yT_phase(yi, T, eos, rhodict, zi_opts, Pguess=-1, meth, pressure_opts)] *)
Definition beyond_critical_point (NaNbead : string) (T : float) : exn :=
  ValueError
    "Component, {}, is beyond it's critical point at {} K. Add an exception to setPsat"
    [NaNbead] [T].

(** One turn of the loop over components: the saturation pressure of pure
    component [i], or its dummy value. *)
Definition Psat_of_component_yT (i : nat) (yi : array) (T : float) (eos : EOS)
    (rd : rhodict) : result float :=
  let yi_tmp := setitem (map (fun _ => 0%float) yi) i 1.0%float in
  '(Psat_i, _, _) <- calc_Psat lib T yi_tmp eos rd ;;
  if is_nan Psat_i then
    '(Psat_i, NaNbead) <- setPsat i eos ;;
    if is_nan Psat_i then Raise (beyond_critical_point NaNbead T)
    else Ok Psat_i
  else Ok Psat_i.

Fixpoint Psat_of_components_yT (ind : list nat) (yi : array) (T : float) (eos : EOS)
    (rd : rhodict) : result array :=
  match ind with
  | [] => Ok []
  | i :: rest =>
      p <- Psat_of_component_yT i yi T eos rd ;;
      ps <- Psat_of_components_yT rest yi T eos rd ;;
      Ok (p :: ps)
  end.

Definition calc_yT_phase (yi : array) (T : float) (eos : EOS) (rd : rhodict)
    (zo : zi_opts) (Pguess : float) (meth : string) (w : world)
    : result (float * array * flag * flag * float * world) :=
  Psat <- Psat_of_components_yT (seq 0 (length yi)) yi T eos rd ;;
  let P :=
    if (Pguess <? 0)%float then (1.0 / np_sum (map2 PrimFloat.div yi Psat))%float
    else Pguess in
  let reseeded :=
    let xi := map (fun q => (P * q)%float) (map2 PrimFloat.div yi Psat) in
    set_xi_global w (scale_by xi (np_sum xi)) in
  let w :=
    match xi_global w with
    | Some xi => if np_any_isnan xi then reseeded else w
    | None => reseeded
    end in
  xi <- match xi_global w with
        | Some xi => Ok xi
        | None => Raise (NameError "xi_global")
        end ;;
  '(Prange, Pguess, w) <- calc_Prange_yi T xi yi eos rd zo w ;;
  let P := Pguess in
  '(P, w) <- solve_root toolbox (fun P => solve_P_yiT P yi T eos rd zo) P meth Prange w ;;
  '(phiv, rhov, flagv) <- calc_phiv lib P T yi eos rd ;;
  '(phil, rhol, flagl) <- calc_phil lib P T xi eos rd ;;
  let zo := clamp_tol zo in
  '(obj, w) <- solve_P_yiT P yi T eos rd zo w ;;
  Ok (P, xi, flagl, flagv, obj, w).

End OuterSolver.

(** ** Flash: [calc_flash(P, T, eos, rhodict, maxiter=200, tol=1e-9)] *)

(** [a[i] = v] with the [IndexError] of an index out of range. *)
Definition assign_at {A : Type} (l : list A) (i : nat) (v : A) : result (list A) :=
  if (i <? length l)%nat then Ok (setitem l i v) else Raise IndexError.

Definition float_of_nat (n : nat) : float := PrimFloat.of_uint63 (Uint63.of_nat n).

Definition not_binary (lx : nat) : exn :=
  ValueError
    "Only binary systems are currently supported for flash calculations, {} were given."
    [] [float_of_nat lx].

Definition all_K_greater (Ki : array) : exn :=
  ValueError "All Ki values greater than 1: {}" [] Ki.

Definition all_K_less (Ki : array) : exn :=
  ValueError "All Ki values less than 1: {}" [] Ki.

(** The repair of NaN K-values.  [ind] is the local name the three blocks
    before the loop share; it is unbound until one of them assigns it. *)
Definition flash_K_nan (Ki : array) : result (array * option (list nat)) :=
  if np_any_isnan Ki then
    let ind := np_where (fun k => negb (is_nan k)) Ki in
    if (length ind =? 2)%nat then Ok ([0.5; 1.5]%float, Some ind)
    else
      i0 <- getitem ind 0 ;;
      if (i0 =? 0)%nat then
        k0 <- getitem Ki 0 ;; Ki <- assign_at Ki 1 (2 - k0)%float ;; Ok (Ki, Some ind)
      else if (i0 =? 1)%nat then
        k1 <- getitem Ki 1 ;; Ki <- assign_at Ki 0 (2 - k1)%float ;; Ok (Ki, Some ind)
      else Ok (Ki, Some ind)
  else Ok (Ki, None).

(** K-values on one side of 1: the component to keep. *)
Definition flash_K_side (Ki : array) (ind : option (list nat))
    : result (option (list nat)) :=
  if forallb (fun k => (1.0 <? k)%float) Ki then
    let below := filter (fun k => (k <? 2.0)%float) Ki in
    m <- py_max below ;;
    let ind := np_where (fun k => (k =? m)%float) below in
    if (length ind =? 0)%nat then Raise (all_K_greater Ki) else Ok (Some ind)
  else if forallb (fun k => (k <? 1.0)%float) Ki then
    m <- py_min Ki ;;
    let ind := np_where (fun k => (k =? m)%float) Ki in
    if (length ind =? 0)%nat then Raise (all_K_less Ki) else Ok (Some ind)
  else Ok ind.

(** The other K-value as the complement to 2 of the kept one. *)
Definition flash_K_complement (Ki : array) (ind : option (list nat)) : result array :=
  ind <- bound "ind" ind ;;
  i0 <- getitem ind 0 ;;
  if (i0 =? 0)%nat then k0 <- getitem Ki 0 ;; assign_at Ki 1 (2 - k0)%float
  else if (i0 =? 1)%nat then k1 <- getitem Ki 1 ;; assign_at Ki 0 (2 - k1)%float
  else Ok Ki.

Definition flash_K_guess (Ki : array) : result array :=
  '(Ki, ind) <- flash_K_nan Ki ;;
  ind <- flash_K_side Ki ind ;;
  flash_K_complement Ki ind.

(** The names the iteration carries.  [err] starts as the number 1 and
    becomes an array when it is computed over an index array; a number is
    held as a one-entry array. *)
Record flash_state : Type := {
  fl_Ki : array;
  fl_Kiprev : option array;
  fl_xi : array;
  fl_yi : array;
  fl_flagl : option flag;
  fl_flagv : option flag;
  fl_err : array
}.

(** [np.abs(a[ind] - b[ind]) / b[ind]] with
    [ind = np.where(b == min(b[b > 0]))[0]]. *)
Definition smallest_K_change (a b : array) : result array :=
  ind <- smallest_fraction_index b ;;
  smallest_fraction_change a b ind.

Section Flash.
Variable lib : Lib.

Definition flash_step (P T : float) (eos : EOS) (rd : rhodict) (tol : float)
    (i : nat) (st : flash_state) : result (flash_state * bool) :=
  let Ki := fl_Ki st in
  k1 <- getitem Ki 1 ;;
  k0 <- getitem Ki 0 ;;
  let x0 := ((1 - k1) / (k0 - k1))%float in
  xi <- assign_at (fl_xi st) 0 x0 ;;
  xi <- assign_at xi 1 (1 - x0)%float ;;
  yi <- broadcast PrimFloat.mul Ki xi ;;
  '(phil, rhol, flagl) <- calc_phil lib P T xi eos rd ;;
  '(phiv, rhov, flagv) <- calc_phiv lib P T yi eos rd ;;
  Kinew <- broadcast PrimFloat.div phil phiv ;;
  d <- broadcast fsub Kinew Ki ;;
  let s := abs (np_sum d) in
  let mk Ki Kiprev err :=
    {| fl_Ki := Ki; fl_Kiprev := Kiprev; fl_xi := xi; fl_yi := yi;
       fl_flagl := Some flagl; fl_flagv := Some flagv; fl_err := err |} in
  stalled <- truth_value (map (fun e => (abs (e - s) <? tol)%float) (fl_err st)) ;;
  if (stalled : bool) then Ok (mk Ki (fl_Kiprev st) (fl_err st), true)
  else if (s <? tol)%float then
    err <- smallest_K_change Kinew Ki ;;
    found <- truth_value (map (fun e => (e <? tol)%float) err) ;;
    Ok (mk Ki (fl_Kiprev st) err, found)
  else Ok (mk Kinew (Some Ki) [s], false).

Definition calc_flash (P T : float) (eos : EOS) (rd : rhodict) (maxiter : nat)
    (tol : float) : result (array * flag * array * flag * array) :=
  let lx := length (nui eos) in
  if negb (lx =? 2)%nat then Raise (not_binary lx)
  else
    let zeros := repeat 0%float lx in
    Psat <- Psat_of_components_xT lib (seq 0 lx) zeros T eos rd ;;
    let Ki := map (fun p => (p / P)%float) Psat in
    Ki <- flash_K_guess Ki ;;
    '(st, i, _) <-
      for_range maxiter (flash_step P T eos rd tol)
        {| fl_Ki := Ki; fl_Kiprev := None; fl_xi := zeros; fl_yi := zeros;
           fl_flagl := None; fl_flagv := None; fl_err := [1%float] |} ;;
    (* without a turn of the loop [i] is still the last component index *)
    let i := match i with Some i => i | None => (lx - 1)%nat end in
    err <-
      (if (Z.of_nat i =? Z.of_nat maxiter - 1)%Z then
         Kiprev <- bound "Kiprev" (fl_Kiprev st) ;;
         smallest_K_change (fl_Ki st) Kiprev
       else Ok (fl_err st)) ;;
    flagl <- bound "flagl" (fl_flagl st) ;;
    flagv <- bound "flagv" (fl_flagv st) ;;
    Ok (fl_xi st, flagl, fl_yi st, flagv, err).

End Flash.

(** ** Critical-point pressure guess: [calc_CC_Pguess(xilist, Tlist, CriticalProp)]

    The mixing rules of one state point (lines 72 to 104) are arithmetic on
    Python and numpy numbers with [**]; they read the composition, the
    temperatures and the critical properties and assign local numbers only.
    They are the oracle [mixing_rules], which returns or raises: what they
    compute is read by nothing that runs, since the next statement is an
    item assignment to [eos_dict], a name the module never defines. *)
Record Mixing : Type := {
  mixing_rules : array -> array -> list array -> result unit
}.

(** What the function returns: [Psatm], the list it appends to or the
    [np.nan] it is replaced by. *)
Inductive Psat_guess : Type :=
| Psat_list (Psatm : array)
| Psat_nan.

Definition unpack7 (l : list array) : result (list array) :=
  if (length l =? 7)%nat then Ok l
  else Raise (ValueError "wrong number of values to unpack" [] []).

(** The chained comparison [-0.847 > x > 0.2387]. *)
Definition omega_out_of_range (x : float) : bool :=
  ((x <? -0.847) && (0.2387 <? x))%float%bool.

Definition calc_CC_Pguess (mix : Mixing) (xilist : list array) (Tlist : array)
    (CriticalProp : list array) : result Psat_guess :=
  props <- unpack7 CriticalProp ;;
  omega <- getitem props 2 ;;
  let flag := if forallb omega_out_of_range omega then 1%Z else 0%Z in
  if (flag =? 1)%Z then Ok Psat_nan
  else
    match xilist with
    | [] => Ok (Psat_list [])
    | xi :: _ =>
        _ <- mixing_rules mix xi Tlist props ;;
        Raise (NameError "eos_dict")
    end.

(** * Fixtures

    Small collaborators on which the definitions above run to a value. *)

(** [np.arange(start, stop, step)] for ranges of at most [fuel] entries. *)
Fixpoint arange_from (fuel : nat) (start stop step : float) (i : float) : array :=
  match fuel with
  | O => []
  | S fuel' =>
      let x := (start + i * step)%float in
      if (x <? stop)%float then x :: arange_from fuel' start stop step (i + 1)%float
      else []
  end.

(** A library whose fitted splines report the given roots and extrema, whose
    Gaussian filter of width 0.01 changes nothing, and whose optimisers return
    their starting point. *)
Definition fixture_lib (roots extrema : array) : Lib := {|
  np_arange := fun start stop step => arange_from 64 start stop step 0;
  np_linspace := fun lo hi n =>
    map (fun i => (lo + i * ((hi - lo) / (PrimFloat.of_uint63 (Uint63.of_nat n) - 1)))%float)
        (arange_from n 0 (PrimFloat.of_uint63 (Uint63.of_nat n)) 1 0);
  np_polyfit := fun _ _ _ => [1; 0]%float;
  np_roots := fun _ => [];
  np_polyder := fun c => c;
  np_random_rand := fun _ => 0.5%float;
  gaussian_filter1d := fun a _ => a;
  InterpolatedUnivariateSpline := fun _ _ _ =>
    {| spl_eval := fun _ => 0%float;
       spl_roots := roots;
       spl_derivative_roots := extrema;
       spl_integral := fun _ _ => 0%float |};
  minimize_scalar := fun _ bounds => Ok (fst bounds);
  minimize := fun _ x0 _ => Ok x0;
  brentq := fun _ a _ _ => a;
  least_squares := fun _ x0 _ => Ok x0
|}.

(** A binary CO2/H2O equation of state with a linear pressure and unit
    fugacity coefficients. *)
Definition fixture_eos : EOS := {|
  density_max := fun _ _ => 40%float;
  pressure := fun rho T _ => (rho * T)%float;
  fugacity_coefficient := fun _ _ xi _ => map (fun _ => 1%float) xi;
  beads := ["CO2"; "H2O"]%string;
  nui := [[1; 0]; [0; 1]]%float
|}.

(** The same mixture with fugacity coefficients that favour whichever
    component the vapour guess holds less of, so that the fixed-point
    iteration swings between two compositions. *)
Definition fixture_eos_swinging : EOS := {|
  density_max := fun _ _ => 40%float;
  pressure := fun rho T _ => (rho * T)%float;
  fugacity_coefficient := fun _ _ yi _ =>
    match yi with
    | y :: _ => if (y <? 0.5)%float then [1; 4]%float else [4; 1]%float
    | [] => []
    end;
  beads := ["CO2"; "H2O"]%string;
  nui := [[1; 0]; [0; 1]]%float
|}.

Definition fixture_world : world :=
  {| yi_global := None; xi_global := None; draws := 0 |}.

(** Two root finders: one answers one atmosphere without looking at the
    bracket or the objective; the other evaluates the objective at its
    starting pressure and answers that pressure. *)
Definition fixture_toolbox_constant : Toolbox :=
  {| solve_root := fun _ _ _ _ w => Ok (101325%float, w) |}.

Definition fixture_toolbox_probing : Toolbox :=
  {| solve_root := fun f x0 _ _ w => '(_, w) <- f x0 w ;; Ok (x0, w) |}.

(** Densities 10, 15, ..., 35 mol/m^3 below the fixture's maximum of 40. *)
Definition fixture_rhodict : rhodict := {|
  minrhofrac := 0.25%float;
  rhoinc := 5%float;
  vspacemax := 1%float;
  maxrho := None
|}.

(** The six samples [(vlist, Plist)] of the fixture's curve at 323.2 K. *)
Definition fixture_curve : array * array :=
  match PvsRho (fixture_lib [] []) 323.2%float [1; 0]%float fixture_eos fixture_rhodict with
  | Ok curve => curve
  | Raise _ => ([], [])
  end.

(** The same with an increment equal to the whole density range. *)
Definition fixture_rhodict_coarse : rhodict := {|
  minrhofrac := 0.25%float;
  rhoinc := 30%float;
  vspacemax := 1%float;
  maxrho := None
|}.

(** A library whose fitted splines report no root and no extremum and take
    the value 1 everywhere. *)
Definition fixture_lib_above : Lib := {|
  np_arange := np_arange (fixture_lib [] []);
  np_linspace := np_linspace (fixture_lib [] []);
  np_polyfit := np_polyfit (fixture_lib [] []);
  np_roots := np_roots (fixture_lib [] []);
  np_polyder := np_polyder (fixture_lib [] []);
  np_random_rand := np_random_rand (fixture_lib [] []);
  gaussian_filter1d := gaussian_filter1d (fixture_lib [] []);
  InterpolatedUnivariateSpline := fun _ _ _ =>
    {| spl_eval := fun _ => 1%float;
       spl_roots := [];
       spl_derivative_roots := [];
       spl_integral := fun _ _ => 0%float |};
  minimize_scalar := minimize_scalar (fixture_lib [] []);
  minimize := minimize (fixture_lib [] []);
  brentq := brentq (fixture_lib [] []);
  least_squares := least_squares (fixture_lib [] [])
|}.

(** A library whose fitted splines report no root and one extremum and take
    the value -1 everywhere: both density functions see a liquid. *)
Definition fixture_lib_below : Lib := {|
  np_arange := np_arange (fixture_lib [] []);
  np_linspace := np_linspace (fixture_lib [] []);
  np_polyfit := np_polyfit (fixture_lib [] []);
  np_roots := np_roots (fixture_lib [] []);
  np_polyder := np_polyder (fixture_lib [] []);
  np_random_rand := np_random_rand (fixture_lib [] []);
  gaussian_filter1d := gaussian_filter1d (fixture_lib [] []);
  InterpolatedUnivariateSpline := fun _ _ _ =>
    {| spl_eval := fun _ => (-1)%float;
       spl_roots := [];
       spl_derivative_roots := [0.015%float];
       spl_integral := fun _ _ => 0%float |};
  minimize_scalar := minimize_scalar (fixture_lib [] []);
  minimize := minimize (fixture_lib [] []);
  brentq := brentq (fixture_lib [] []);
  least_squares := least_squares (fixture_lib [] [])
|}.

(** The library of [fixture_lib] with a minimiser that answers the lower end
    of its range. *)
Definition fixture_lib_lower_bound (roots extrema : array) : Lib := {|
  np_arange := np_arange (fixture_lib roots extrema);
  np_linspace := np_linspace (fixture_lib roots extrema);
  np_polyfit := np_polyfit (fixture_lib roots extrema);
  np_roots := np_roots (fixture_lib roots extrema);
  np_polyder := np_polyder (fixture_lib roots extrema);
  np_random_rand := np_random_rand (fixture_lib roots extrema);
  gaussian_filter1d := gaussian_filter1d (fixture_lib roots extrema);
  InterpolatedUnivariateSpline := InterpolatedUnivariateSpline (fixture_lib roots extrema);
  minimize_scalar := minimize_scalar (fixture_lib roots extrema);
  minimize := fun _ _ bounds => Ok (fst bounds);
  brentq := brentq (fixture_lib roots extrema);
  least_squares := least_squares (fixture_lib roots extrema)
|}.

(** A CO2/H2O equation of state whose fugacity coefficients are [[2, 1]] in
    a dense phase and [[1, 1]] in a dilute one. *)
Definition fixture_eos_flash : EOS := {|
  density_max := density_max fixture_eos;
  pressure := pressure fixture_eos;
  fugacity_coefficient := fun _ rho _ _ =>
    if (50 <? rho)%float then [2; 1]%float else [1; 1]%float;
  beads := beads fixture_eos;
  nui := nui fixture_eos
|}.

(** * Properties *)

(** ** Indexing lemmas *)

Lemma setitem_length {A : Type} (l : list A) (i : nat) (v : A) :
  length (setitem l i v) = length l.
Proof.
  revert i; induction l as [|h t IH]; intros [|j]; simpl; auto.
Qed.

Lemma nth_error_setitem_eq {A : Type} (l : list A) (i : nat) (v : A) :
  (i < length l)%nat -> nth_error (setitem l i v) i = Some v.
Proof.
  revert i; induction l as [|h t IH]; intros [|j] Hlt; simpl in *; try lia; auto.
  apply IH; lia.
Qed.

Lemma nth_error_setitem_neq {A : Type} (l : list A) (i j : nat) (v : A) :
  i <> j -> nth_error (setitem l i v) j = nth_error l j.
Proof.
  revert i j; induction l as [|h t IH]; intros [|i] [|j] Hne; simpl; auto.
  congruence.
Qed.

Lemma where_from_spec {A : Type} (p : A -> bool) (l : list A) (k i : nat) :
  In i (where_from p l k) <->
  (k <= i)%nat /\ exists x, nth_error l (i - k) = Some x /\ p x = true.
Proof.
  revert k; induction l as [|h t IH]; intros k; simpl.
  - split; [tauto|]. intros [_ [x [Hx _]]]. destruct (i - k)%nat; discriminate.
  - destruct (p h) eqn:Hp; simpl; rewrite ?IH.
    + split.
      * intros [<-|[Hle [x [Hx Hpx]]]].
        -- split; [lia|]. exists h. rewrite Nat.sub_diag. auto.
        -- split; [lia|]. exists x. replace (i - k)%nat with (S (i - S k)) by lia. auto.
      * intros [Hle [x [Hx Hpx]]].
        destruct (Nat.eq_dec k i) as [->|Hne]; [now left|right].
        split; [lia|]. exists x.
        replace (i - k)%nat with (S (i - S k)) in Hx by lia. auto.
    + split.
      * intros [Hle [x [Hx Hpx]]].
        split; [lia|]. exists x. replace (i - k)%nat with (S (i - S k)) by lia. auto.
      * intros [Hle [x [Hx Hpx]]].
        destruct (Nat.eq_dec k i) as [->|Hne].
        -- rewrite Nat.sub_diag in Hx. simpl in Hx. congruence.
        -- split; [lia|]. exists x.
           replace (i - k)%nat with (S (i - S k)) in Hx by lia. auto.
Qed.

Lemma np_where_spec {A : Type} (p : A -> bool) (l : list A) (i : nat) :
  In i (np_where p l) <-> exists x, nth_error l i = Some x /\ p x = true.
Proof.
  unfold np_where. rewrite where_from_spec, Nat.sub_0_r.
  split; [tauto|]. intros Hx; split; [lia|auto].
Qed.

Lemma where_from_NoDup {A : Type} (p : A -> bool) (l : list A) (k : nat) :
  NoDup (where_from p l k).
Proof.
  revert k; induction l as [|h t IH]; intros k; simpl; [constructor|].
  destruct (p h); auto. constructor; auto.
  rewrite where_from_spec. lia.
Qed.

(** The loop [for i in ind: a[i] = f(i)] over distinct in-range indices on
    which [f] returns: the entries at [ind] are overwritten with [g], every
    other entry is kept. *)
Lemma assign_each_spec {A : Type} (g : nat -> A) (f : nat -> result A)
    (ind : list nat) (a : list A) :
  NoDup ind ->
  (forall i, In i ind -> (i < length a)%nat /\ f i = Ok (g i)) ->
  exists a', assign_each ind f a = Ok a' /\
             length a' = length a /\
             (forall i, In i ind -> nth_error a' i = Some (g i)) /\
             (forall i, ~ In i ind -> nth_error a' i = nth_error a i).
Proof.
  revert a; induction ind as [|i rest IH]; intros a Hnd Hf; simpl.
  - exists a. repeat split; auto. intros i [].
  - inversion Hnd as [|? ? Hnotin Hnd']; subst.
    destruct (Hf i (or_introl eq_refl)) as [Hlt Hfi]. rewrite Hfi; simpl.
    destruct (IH (setitem a i (g i)) Hnd') as (a' & Hrun & Hlen & Hin & Hout).
    { intros j Hj. rewrite setitem_length. apply Hf. now right. }
    exists a'. split; [exact Hrun|]. split; [now rewrite Hlen, setitem_length|]. split.
    + intros j [<-|Hj]; [|now apply Hin].
      rewrite (Hout i Hnotin). now apply nth_error_setitem_eq.
    + intros j Hj. rewrite Hout by (intros Hj'; apply Hj; now right).
      apply nth_error_setitem_neq. intros ->. apply Hj. now left.
Qed.

Lemma Forall2_pointwise {A : Type} (R : A -> A -> Prop) (d : A) (l l' : list A) :
  length l = length l' ->
  (forall i, (i < length l)%nat -> R (nth i l d) (nth i l' d)) ->
  Forall2 R l l'.
Proof.
  revert l'; induction l as [|h t IH]; intros [|h' t'] Hlen Hnth;
    simpl in Hlen; try discriminate; constructor.
  - apply (Hnth 0%nat). simpl; lia.
  - apply IH; [lia|]. intros i Hi. apply (Hnth (S i)). simpl; lia.
Qed.

(** ** The K-value relation *)

Lemma getitem_nth {A : Type} (l : list A) (i : nat) (d : A) :
  (i < length l)%nat -> getitem l i = Ok (nth i l d).
Proof.
  intros Hlt. unfold getitem. now rewrite (nth_error_nth' l d Hlt).
Qed.

(** Entry by entry, [calc_yi] leaves a zero where [xi] is zero and stores
    [xi[i] * phil[i] / phiv[i]] elsewhere. *)
Lemma calc_yi_entries (xi phil phiv : list Q) :
  length phil = length xi -> length phiv = length xi ->
  exists yi, calc_yi xi phil phiv = Ok yi /\
             length yi = length xi /\
             forall i, (i < length xi)%nat ->
               nth i yi 0%Q =
               if Qeq_bool (nth i xi 0%Q) 0 then 0%Q
               else (nth i xi 0 * nth i phil 0 / nth i phiv 0)%Q.
Proof.
  intros Hl Hv. unfold calc_yi.
  set (g := fun i => (nth i xi 0 * nth i phil 0 / nth i phiv 0)%Q).
  destruct (@assign_each_spec Q g
              (fun i => x <- getitem xi i ;; l <- getitem phil i ;;
                        v <- getitem phiv i ;; Ok (num_div (num_mul x l) v))
              (np_where (fun x => negb (num_is_zero x)) xi)
              (repeat num_zero (length xi)))
    as (yi & Hrun & Hlen & Hin & Hout).
  - apply where_from_NoDup.
  - intros i Hi. apply np_where_spec in Hi. destruct Hi as (x & Hx & _).
    assert (Hlt : (i < length xi)%nat) by (apply nth_error_Some; congruence).
    rewrite repeat_length. split; [exact Hlt|].
    rewrite (getitem_nth xi 0%Q Hlt); simpl.
    rewrite (getitem_nth phil 0%Q) by lia; simpl.
    rewrite (getitem_nth phiv 0%Q) by lia; simpl. reflexivity.
  - exists yi. rewrite repeat_length in Hlen. repeat split; auto.
    intros i Hlt.
    assert (Hyi : (i < length yi)%nat) by lia.
    pose proof (nth_error_nth' yi 0%Q Hyi) as Hnth.
    destruct (Qeq_bool (nth i xi 0%Q) 0) eqn:Hz.
    + rewrite Hout in Hnth.
      * rewrite (nth_error_nth' _ 0%Q) in Hnth by (rewrite repeat_length; lia).
        rewrite nth_repeat in Hnth. simpl in Hnth. congruence.
      * intros Hi. apply np_where_spec in Hi. destruct Hi as (x & Hx & Hp).
        rewrite (nth_error_nth' xi 0%Q Hlt) in Hx. inversion Hx; subst x.
        simpl in Hp. rewrite Hz in Hp. discriminate.
    + rewrite Hin in Hnth; [unfold g in Hnth; congruence|].
      apply np_where_spec. exists (nth i xi 0%Q).
      split; [now apply nth_error_nth'|]. simpl. now rewrite Hz.
Qed.

(** In exact arithmetic the K-value relation is undone by its inverse: on
    rationals, for vectors of one length with no zero among the
    coefficients, [calc_xi(calc_yi(xi, phil, phiv), phiv, phil)] is [xi]
    entry by entry.  The code computes in binary64, where each product and
    quotient is rounded and may underflow or overflow; what it returns is
    the subject of the next theorem. *)
Lemma calc_xi_calc_yi_exact_arithmetic (xi phil phiv : list Q) :
  length phil = length xi ->
  length phiv = length xi ->
  Forall (fun l => ~ l == 0) phil ->
  Forall (fun v => ~ v == 0) phiv ->
  exists yi xi',
    calc_yi xi phil phiv = Ok yi /\
    calc_xi yi phiv phil = Ok xi' /\
    Forall2 Qeq xi' xi.
Proof.
  intros Hl Hv Hnl Hnv.
  destruct (calc_yi_entries xi phil phiv Hl Hv) as (yi & Hyi & Hlen & Hent).
  destruct (calc_yi_entries yi phiv phil) as (xi' & Hxi' & Hlen' & Hent'); try lia.
  exists yi, xi'. split; [exact Hyi|]. split; [exact Hxi'|].
  apply Forall2_pointwise with (d := 0%Q); [lia|].
  intros i Hi. rewrite Hent' by lia. rewrite Hent by lia.
  assert (Hli : ~ nth i phil 0 == 0).
  { rewrite Forall_forall in Hnl. apply Hnl, nth_In. lia. }
  assert (Hvi : ~ nth i phiv 0 == 0).
  { rewrite Forall_forall in Hnv. apply Hnv, nth_In. lia. }
  destruct (Qeq_bool (nth i xi 0) 0) eqn:Hz.
  - simpl. symmetry. now apply Qeq_bool_eq.
  - assert (Hx : ~ nth i xi 0 == 0) by (now apply Qeq_bool_neq).
    destruct (Qeq_bool (nth i xi 0 * nth i phil 0 / nth i phiv 0) 0) eqn:Hy.
    + exfalso. apply Qeq_bool_eq in Hy. apply Hx.
      assert (E : nth i xi 0 ==
                  nth i xi 0 * nth i phil 0 / nth i phiv 0 * (nth i phiv 0 / nth i phil 0))
        by (field; auto).
      rewrite E, Hy. ring.
    + field. auto.
Qed.





(** The same conversions on binary64, at the composition and the fugacity
    coefficients of the repository's regression test (CO2/H2O at 323.2 K):
    the rounded products and quotients bring every fraction back within
    1e-15. *)
Lemma calc_xi_calc_yi_binary64_regression :
  let xi := [0.96176473; 0.03823527]%float in
  let phil := [84.79316501; 0.21474978]%float in
  let phiv := [2.45619145; 0.37836254]%float in
  exists yi xi',
    calc_yi xi phil phiv = Ok yi /\
    calc_xi yi phiv phil = Ok xi' /\
    Forall2 (fun a b => (abs (a - b) <=? 1e-15)%float = true) xi' xi.
Proof.
  cbv zeta. eexists. eexists.
  split; [vm_compute; reflexivity|]. split; [vm_compute; reflexivity|].
  repeat constructor.
Qed.

(** ** The pressure-volume spline *)

Definition spline_roots (r : Spline * array * array) : array := snd (fst r).
Definition spline_extrema (r : Spline * array * array) : array := snd r.

(** C8, as the code has it: when a pressure sample is NaN, [PvsV_spline]
    returns (it has no raising path of its own) with [roots = [NaN]], whatever
    the fitted spline reported. *)
Theorem PvsV_spline_nan_pressure_roots (lib : Lib) (vlist Plist : array) :
  np_any_isnan Plist = true ->
  spline_roots (PvsV_spline lib vlist Plist) = [nan].
Proof.
  intros Hnan. unfold PvsV_spline, spline_roots. simpl. now rewrite Hnan.
Qed.

Lemma PvsV_spline_nan_pressure_roots_witness :
  spline_roots (PvsV_spline (fixture_lib [1.5; 3.5; 4.5] [])%float
                  [1; 2; 3; 4; 5; 6]%float [5; nan; 1; -1; 2; 3]%float) = [nan].
Proof.
  apply (@PvsV_spline_nan_pressure_roots
           (fixture_lib [1.5; 3.5; 4.5] [])%float
           [1; 2; 3; 4; 5; 6]%float [5; nan; 1; -1; 2; 3]%float).
  reflexivity.
Defined.

(** C8 as stated fails on an infinite sample: the guard is [np.isnan], so a
    pressure list holding [inf] and no NaN keeps the roots the spline
    reported (here none), not [[NaN]]. *)
Lemma PvsV_spline_infinite_pressure_roots :
  existsb (fun p => negb (is_finite p)) [infinity; 5; 1; -1; 2; 3]%float = true /\
  np_any_isnan [infinity; 5; 1; -1; 2; 3]%float = false /\
  spline_roots (PvsV_spline (fixture_lib [] []) [1; 2; 3; 4; 5; 6]%float
                  [infinity; 5; 1; -1; 2; 3]%float)
    <> [nan].
Proof.
  split; [reflexivity|]. split; [reflexivity|]. vm_compute. discriminate.
Qed.

(** ** Saturation pressure: input validation *)

Definition exn_names (e : exn) : list string :=
  match e with
  | ValueError _ names _ => names
  | _ => []
  end.

Lemma where_from_length {A : Type} (p : A -> bool) (l : list A) (k : nat) :
  length (where_from p l k) = count_true p l.
Proof.
  unfold count_true. revert k; induction l as [|h t IH]; intros k; simpl; auto.
  destruct (p h); simpl; auto.
Qed.

(** C5, as the code has it: a composition whose number of nonzero entries is
    not one never yields a numeric result, the call raises.  When the number
    of entries above 10% is not one (two components above 10% in particular)
    the exception is the validation error "greater than 10%", which carries
    no component. *)
Theorem calc_Psat_rejects_impure (lib : Lib) (T : float) (xi : array) (eos : EOS)
    (rd : rhodict) :
  np_count_nonzero xi <> 1%nat ->
  (exists e, calc_Psat lib T xi eos rd = Raise e) /\
  (count_true gt_10_percent xi <> 1%nat ->
   calc_Psat lib T xi eos rd =
     Raise (ValueError
              "Multiple components have compositions greater than 10%, check code for source"
              [] [])).
Proof.
  intros Himpure. apply Nat.eqb_neq in Himpure.
  unfold calc_Psat. rewrite Himpure. cbn [negb].
  destruct (count_true gt_10_percent xi =? 1)%nat eqn:Hc; cbn [negb].
  - split.
    + eexists. unfold list_getitem_array. cbn [bind]. reflexivity.
    + intros Hne. apply Nat.eqb_eq in Hc. contradiction.
  - split; [eexists; reflexivity|]. intros _. reflexivity.
Qed.

Lemma calc_Psat_rejects_impure_witness :
  (exists e, calc_Psat (fixture_lib [] []) 323.2%float [0.5; 0.3; 0.2]%float
               fixture_eos fixture_rhodict = Raise e) /\
  calc_Psat (fixture_lib [] []) 323.2%float [0.5; 0.3; 0.2]%float
    fixture_eos fixture_rhodict =
  Raise (ValueError
           "Multiple components have compositions greater than 10%, check code for source"
           [] []).
Proof.
  destruct (@calc_Psat_rejects_impure (fixture_lib [] []) 323.2%float
              [0.5; 0.3; 0.2]%float fixture_eos fixture_rhodict) as [Hraise Hgeneric].
  - vm_compute. discriminate.
  - split; [exact Hraise|]. apply Hgeneric. vm_compute. discriminate.
Defined.

(** The branch that would name the component: with exactly one entry above
    10% among several nonzero ones the call raises as well, while indexing
    the list of bead names with the index array. *)
Lemma calc_Psat_naming_branch (lib : Lib) (T : float) (xi : array) (eos : EOS)
    (rd : rhodict) :
  np_count_nonzero xi <> 1%nat ->
  count_true gt_10_percent xi = 1%nat ->
  calc_Psat lib T xi eos rd =
    Raise (TypeError "only integer scalar arrays can be converted to a scalar index").
Proof.
  intros Himpure Hone. apply Nat.eqb_neq in Himpure. apply Nat.eqb_eq in Hone.
  unfold calc_Psat. now rewrite Himpure, Hone.
Qed.

(** C5 as stated fails on the equimolar binary: two components are above
    10%, the call raises, and the error is the generic one, which names no
    component. *)
Lemma calc_Psat_equimolar_names_no_component :
  np_count_nonzero [0.5; 0.5]%float <> 1%nat /\
  calc_Psat (fixture_lib [] []) 323.2%float [0.5; 0.5]%float fixture_eos fixture_rhodict
    = Raise Psat_multiple_10 /\
  exn_names Psat_multiple_10 = [].
Proof.
  split; [vm_compute; discriminate|]. split; reflexivity.
Qed.

(** ** Saturation pressure: the no-solution branch *)

(** The branch taken on fewer than two extrema or a NaN root. *)
Lemma calc_Psat_no_solution (lib : Lib) (T : float) (xi : array) (eos : EOS)
    (rd : rhodict) (vlist Plist : array) (Pvspline : Spline) (roots extrema : array) :
  np_count_nonzero xi = 1%nat ->
  PvsRho lib T xi eos rd = Ok (vlist, Plist) ->
  PvsV_spline lib vlist Plist = (Pvspline, roots, extrema) ->
  (length extrema < 2)%nat \/ np_any_isnan roots = true ->
  calc_Psat lib T xi eos rd = Ok (nan, 1.0, 1.0)%float.
Proof.
  intros Hpure Hcurve Hspline Hcase.
  unfold calc_Psat. rewrite Hpure, Hcurve. cbn [Nat.eqb negb bind]. rewrite Hspline.
  assert (Hcond : (match extrema with [] => true | _ => false end
                   || (length extrema <? 2)%nat || np_any_isnan roots)%bool = true).
  { destruct Hcase as [Hlt|Hnan].
    - apply Nat.ltb_lt in Hlt. rewrite Hlt. now rewrite orb_true_r.
    - rewrite Hnan. now rewrite orb_true_r. }
  rewrite Hcond. reflexivity.
Qed.

(** C6: for a pure composition whose pressure-volume curve was sampled and
    shows fewer than two extrema, or NaN roots, [calc_Psat] returns, and the
    saturation pressure it returns is NaN. *)
Theorem calc_Psat_supercritical_returns_nan (lib : Lib) (T : float) (xi : array)
    (eos : EOS) (rd : rhodict) (vlist Plist : array) :
  np_count_nonzero xi = 1%nat ->
  PvsRho lib T xi eos rd = Ok (vlist, Plist) ->
  (length (spline_extrema (PvsV_spline lib vlist Plist)) < 2)%nat \/
    np_any_isnan (spline_roots (PvsV_spline lib vlist Plist)) = true ->
  exists Psat rhol rhov,
    calc_Psat lib T xi eos rd = Ok (Psat, rhol, rhov) /\ is_nan Psat = true.
Proof.
  intros Hpure Hcurve Hcase.
  destruct (PvsV_spline lib vlist Plist) as [[Pvspline roots] extrema] eqn:Hspline.
  exists nan, 1.0%float, 1.0%float. split; [|reflexivity].
  eapply calc_Psat_no_solution; eauto.
Qed.

Lemma calc_Psat_supercritical_returns_nan_witness :
  exists Psat rhol rhov,
    calc_Psat (fixture_lib [] []) 323.2%float [1; 0]%float fixture_eos fixture_rhodict
      = Ok (Psat, rhol, rhov) /\ is_nan Psat = true.
Proof.
  apply (@calc_Psat_supercritical_returns_nan (fixture_lib [] []) 323.2%float
           [1; 0]%float fixture_eos fixture_rhodict
           (fst fixture_curve) (snd fixture_curve)).
  - reflexivity.
  - vm_compute. reflexivity.
  - left. vm_compute. lia.
Defined.

(** C9: in that branch both returned densities are exactly 1.0, the
    reciprocal of the placeholder roots [[1.0, 1.0, 1.0]], and are not NaN;
    of the three outputs only the saturation pressure is NaN. *)
Theorem calc_Psat_supercritical_unit_densities (lib : Lib) (T : float) (xi : array)
    (eos : EOS) (rd : rhodict) (vlist Plist : array) :
  np_count_nonzero xi = 1%nat ->
  PvsRho lib T xi eos rd = Ok (vlist, Plist) ->
  (length (spline_extrema (PvsV_spline lib vlist Plist)) < 2)%nat \/
    np_any_isnan (spline_roots (PvsV_spline lib vlist Plist)) = true ->
  exists Psat rhol rhov,
    calc_Psat lib T xi eos rd = Ok (Psat, rhol, rhov) /\
    rhol = 1.0%float /\ rhov = 1.0%float /\
    is_nan rhol = false /\ is_nan rhov = false /\ is_nan Psat = true.
Proof.
  intros Hpure Hcurve Hcase.
  destruct (PvsV_spline lib vlist Plist) as [[Pvspline roots] extrema] eqn:Hspline.
  exists nan, 1.0%float, 1.0%float.
  split; [|repeat split; reflexivity].
  eapply calc_Psat_no_solution; eauto.
Qed.

Lemma calc_Psat_supercritical_unit_densities_witness :
  exists Psat rhol rhov,
    calc_Psat (fixture_lib [nan] [0.03; 0.04]%float) 323.2%float [0; 1]%float
      fixture_eos fixture_rhodict = Ok (Psat, rhol, rhov) /\
    rhol = 1.0%float /\ rhov = 1.0%float /\
    is_nan rhol = false /\ is_nan rhov = false /\ is_nan Psat = true.
Proof.
  apply (@calc_Psat_supercritical_unit_densities (fixture_lib [nan] [0.03; 0.04]%float)
           323.2%float [0; 1]%float fixture_eos fixture_rhodict
           (fst fixture_curve) (snd fixture_curve)).
  - reflexivity.
  - vm_compute. reflexivity.
  - right. reflexivity.
Defined.

(** ** Density roots: three or more roots *)

Definition nonzero (x : float) : Prop := (x =? 0)%float = false.

Definition float_le (x y : float) : Prop := (x <=? y)%float = true.

Lemma py_div_nonzero (x y : float) : nonzero y -> py_div x y = Ok (x / y)%float.
Proof. unfold nonzero, py_div. now intros ->. Qed.

(** C7, as the code has it.  With three or more NaN-free roots, ordered by
    increasing specific volume, [calc_rhov] takes the third root [roots[2]],
    which is the last root, the one of largest specific volume, when there
    are exactly three, and [calc_rhol] takes the first root [roots[0]], the
    one of smallest specific volume.  The reciprocal of that root is the
    density estimate, flagged vapour (0) or liquid (1).  The flag is
    returned as chosen; the density returned is not the estimate in general
    but what the code after the selection makes of it: the [brentq] root of
    [Pdiff] between 0.99 and 1.01 times the estimate (the upper end capped
    at 0.9999 of the maximum density for the vapour) when [Pdiff] changes
    sign there; otherwise the estimate itself when the first shifted
    pressure sample is negative, and else the result of minimising [Pdiff]
    from the estimate over the whole range from 1e-28 to 0.99 of the
    maximum density. *)
Theorem calc_rho_three_or_more_roots (lib : Lib) (P T : float) (xi : array) (eos : EOS)
    (rd : rhodict) (vlist Plist : array) (r0 r1 r2 : float) (rest : array) :
  let roots := r0 :: r1 :: r2 :: rest in
  let shifted := shift_pressure Plist P in
  let objective := fun rho => Pdiff rho P T xi eos in
  let whole_range := (1e-28, density_max eos xi T * 0.99)%float in
  let vapour := (1.0 / r2)%float in
  let vapour_top :=
    if (density_max eos xi T * 0.9999 <? vapour * 1.01)%float
    then (density_max eos xi T * 0.9999)%float else (vapour * 1.01)%float in
  let liquid := (1.0 / r0)%float in
  PvsRho lib T xi eos rd = Ok (vlist, Plist) ->
  spline_roots (PvsV_spline lib vlist shifted) = roots ->
  np_any_isnan roots = false ->
  ForallOrdPairs float_le roots ->
  Forall nonzero roots ->
  Forall nonzero (spline_extrema (PvsV_spline lib vlist shifted)) ->
  calc_rhov lib P T xi eos rd =
    (if (objective (vapour * 0.99) * objective vapour_top <? 0)%float then
       Ok (brentq lib objective (vapour * 0.99)%float vapour_top 0.0000001%float, Flag 0)
     else
       p0 <- getitem shifted 0 ;;
       if (p0 <? 0)%float then Ok (vapour, Flag 0)
       else rho <- minimize lib objective vapour whole_range ;; Ok (rho, Flag 0)) /\
  (rest = [] -> getlast roots = Ok r2 /\ Forall (fun r => float_le r r2) [r0; r1]) /\
  calc_rhol lib P T xi eos rd =
    (if (objective (liquid * 0.99) * objective (liquid * 1.01) <? 0)%float then
       Ok (brentq lib objective (liquid * 0.99)%float (liquid * 1.01)%float
             0.0000001%float, Flag 1)
     else
       p0 <- getitem shifted 0 ;;
       if (p0 <? 0)%float then Ok (liquid, Flag 1)
       else rho <- minimize lib objective liquid whole_range ;; Ok (rho, Flag 1)) /\
  Forall (fun r => float_le r0 r) (r1 :: r2 :: rest).
Proof.
  intros roots shifted objective whole_range vapour vapour_top liquid
    Hcurve Hroots Hnan Hord Hnz Hnze.
  destruct (PvsV_spline lib vlist shifted) as [[Pvspline roots'] extrema] eqn:Hspline.
  unfold spline_roots, spline_extrema in Hroots, Hnze. simpl in Hroots, Hnze.
  subst roots'.
  assert (Hr0 : nonzero r0) by (inversion Hnz; assumption).
  assert (Hr2 : nonzero r2).
  { inversion Hnz as [|? ? _ H1]; inversion H1 as [|? ? _ H2]; inversion H2; assumption. }
  assert (Hmin : Forall (fun r => float_le r0 r) (r1 :: r2 :: rest))
    by (inversion Hord; assumption).
  split; [|split; [|split; [|exact Hmin]]].
  - unfold calc_rhov. rewrite Hcurve. cbn [bind]. fold shifted. rewrite Hspline.
    unfold calc_rhov_roots. fold roots. rewrite Hnan.
    cbn [roots length Nat.eqb getitem nth_error bind].
    rewrite (py_div_nonzero _ Hr2). cbn [bind].
    unfold calc_rhov_refine.
    change (flag_in (Flag 0) [0; 2]%Z) with true. cbv iota.
    fold vapour. fold vapour_top. fold whole_range. unfold objective.
    destruct (Pdiff (vapour * 0.99) P T xi eos
              * Pdiff vapour_top P T xi eos <? 0)%float; [reflexivity|].
    unfold getitem.
    destruct (nth_error shifted 0) as [p0|]; cbn [bind]; [|reflexivity].
    destruct (p0 <? 0)%float; [reflexivity|]. cbn [negb].
    destruct (minimize lib _ vapour whole_range); reflexivity.
  - intros ->. split; [reflexivity|].
    inversion Hord as [|? ? _ Htail]; subst. inversion Htail as [|? ? H12 _]; subst.
    inversion Hmin as [|? ? _ H02]; subst. inversion H02; subst.
    inversion H12; subst. repeat constructor; assumption.
  - unfold calc_rhol. rewrite Hcurve. cbn [bind]. fold shifted. rewrite Hspline.
    assert (Hwarn : exists w, (if (length extrema =? 1)%nat
                     then e0 <- getitem extrema 0 ;; py_div 1 e0
                     else Ok 0%float) = Ok w).
    { destruct extrema as [|e0 [|e1 t]]; cbn; eauto.
      inversion Hnze; subst. rewrite (py_div_nonzero _ H1). eauto. }
    destruct Hwarn as [w ->]; cbn [bind].
    unfold calc_rhol_roots; fold roots; rewrite Hnan.
    cbn [roots length Nat.eqb getitem nth_error bind].
    rewrite (py_div_nonzero _ Hr0). cbn [bind].
    unfold calc_rhol_refine.
    change (flag_in (Flag 1) [1; 2]%Z) with true. cbv iota.
    fold liquid. fold whole_range. unfold objective.
    destruct (Pdiff (liquid * 0.99) P T xi eos
              * Pdiff (liquid * 1.01) P T xi eos <? 0)%float; [reflexivity|].
    unfold getitem.
    destruct (nth_error shifted 0) as [p0|]; cbn [bind]; [|reflexivity].
    destruct (p0 <? 0)%float; [reflexivity|]. cbn [negb].
    destruct (minimize lib _ liquid whole_range); reflexivity.
Qed.

Lemma calc_rho_three_or_more_roots_witness :
  calc_rhov (fixture_lib [0.01; 0.02; 0.03] [0.015; 0.025])%float 9000%float
    323.2%float [1; 0]%float fixture_eos fixture_rhodict
  = Ok ((1.0 / 0.03)%float, Flag 0) /\
  calc_rhol (fixture_lib [0.01; 0.02; 0.03] [0.015; 0.025])%float 9000%float
    323.2%float [1; 0]%float fixture_eos fixture_rhodict
  = Ok ((1.0 / 0.01)%float, Flag 1).
Proof.
  destruct (@calc_rho_three_or_more_roots
              (fixture_lib [0.01; 0.02; 0.03] [0.015; 0.025])%float 9000%float
              323.2%float [1; 0]%float fixture_eos fixture_rhodict
              (fst fixture_curve) (snd fixture_curve)
              0.01%float 0.02%float 0.03%float [])
    as (Hv & _ & Hl & _).
  - vm_compute. reflexivity.
  - reflexivity.
  - reflexivity.
  - repeat constructor.
  - repeat constructor.
  - repeat constructor.
  - rewrite Hv, Hl. split; vm_compute; reflexivity.
Defined.

(** C7 as stated fails twice.  On four roots [calc_rhov] starts from the
    reciprocal of the third root, 0.03, while the root closest to infinite
    specific volume is the fourth, 0.04.  And on three roots the density
    returned need not be the reciprocal of the selected root: with a
    minimiser that answers the lower end of its range, [calc_rhov] selects
    0.03 and [calc_rhol] selects 0.01, and both return 1e-28. *)
Lemma calc_rho_not_last_root_nor_reciprocal :
  (calc_rhov (fixture_lib [0.01; 0.02; 0.03; 0.04] [0.015; 0.025])%float 9000%float
     323.2%float [1; 0]%float fixture_eos fixture_rhodict
   = Ok ((1.0 / 0.03)%float, Flag 0) /\
   getlast [0.01; 0.02; 0.03; 0.04]%float = Ok 0.04%float /\
   (1.0 / 0.03 =? 1.0 / 0.04)%float = false) /\
  (calc_rhov (fixture_lib_lower_bound [0.01; 0.02; 0.03] [0.015; 0.025])%float
     9000%float 323.2%float [1; 0]%float fixture_eos fixture_rhodict
   = Ok (1e-28%float, Flag 0) /\
   calc_rhol (fixture_lib_lower_bound [0.01; 0.02; 0.03] [0.015; 0.025])%float
     9000%float 323.2%float [1; 0]%float fixture_eos fixture_rhodict
   = Ok (1e-28%float, Flag 1) /\
   (1e-28 =? 1.0 / 0.03)%float = false /\
   (1e-28 =? 1.0 / 0.01)%float = false).
Proof.
  repeat split; vm_compute; reflexivity.
Qed.

(** ** Fugacity coefficients *)

(** What [calc_phiv] returns for each flag of the vapour density. *)
Lemma calc_phiv_cases (lib : Lib) (P T : float) (yi : array) (eos : EOS) (rd : rhodict)
    (rhov : float) (flagv : flag) :
  calc_rhov lib P T yi eos rd = Ok (rhov, flagv) ->
  calc_phiv lib P T yi eos rd =
    if flag_is flagv 4 then Ok (map (fun _ => 1%float) yi, 0%float, flagv)
    else if flag_is flagv 3 then Ok ([nan; nan], rhov, flagv)
    else Ok (fugacity_coefficient eos P rhov yi T, rhov, flagv).
Proof.
  intros H. unfold calc_phiv. now rewrite H.
Qed.

(** What [calc_phil] returns for each flag of the liquid density. *)
Lemma calc_phil_cases (lib : Lib) (P T : float) (xi : array) (eos : EOS) (rd : rhodict)
    (rhol : float) (flagl : flag) :
  calc_rhol lib P T xi eos rd = Ok (rhol, flagl) ->
  calc_phil lib P T xi eos rd =
    if flag_is flagl 3 then Ok ([nan; nan], rhol, flagl)
    else Ok (fugacity_coefficient eos P rhol xi T, rhol, flagl).
Proof.
  intros H. unfold calc_phil. now rewrite H.
Qed.

(** C2 at a ternary vapour whose curve has a NaN root: the classifier
    reports flag 3 and [calc_phiv] returns the two-entry [[NaN, NaN]], one
    entry short of the three components. *)
Theorem calc_phiv_ternary_no_stable_phase :
  calc_rhov (fixture_lib [nan] []) 9000%float 323.2%float [0.2; 0.3; 0.5]%float
    fixture_eos fixture_rhodict = Ok (nan, Flag 3) /\
  calc_phiv (fixture_lib [nan] []) 9000%float 323.2%float [0.2; 0.3; 0.5]%float
    fixture_eos fixture_rhodict = Ok ([nan; nan], nan, Flag 3) /\
  length [nan; nan] <> length [0.2; 0.3; 0.5]%float.
Proof.
  repeat split; try (vm_compute; reflexivity). simpl. lia.
Qed.

(** ** Dummy saturation pressures *)

(** The dummy pressure a bead with a positive entry assigns: the branches of
    the loop body in the order the code tests them (a bead containing
    "CH3CH3" and an unlisted bead both get 7377000.0). *)
Definition dummy_pressure (b : string) : float :=
  if String.eqb b "CO2" then 10377000.0%float
  else if String.eqb b "N2" then 7377000.0%float
  else if contains "CH4" b then 6377000.0%float
  else 7377000.0%float.

Definition positive (x : float) : bool := (0.0 <? x)%float.

Lemma dummy_pressure_not_nan (b : string) : is_nan (dummy_pressure b) = false.
Proof.
  unfold dummy_pressure.
  destruct (String.eqb b "CO2"); [reflexivity|].
  destruct (String.eqb b "N2"); [reflexivity|].
  destruct (contains "CH4" b); reflexivity.
Qed.

Lemma existsb_nth_error_false {A : Type} (p : A -> bool) (l : list A) (k : nat) (y : A) :
  existsb p l = false -> nth_error l k = Some y -> p y = false.
Proof.
  revert k; induction l as [|h t IH]; intros [|k] Hnone Hk; try discriminate;
    cbn [existsb nth_error] in *; apply orb_false_elim in Hnone as [Hh Ht].
  - now inversion Hk; subst.
  - eapply IH; eauto.
Qed.

(** One turn of the loop at a positive entry whose bead is listed. *)
Lemma setPsat_loop_positive (x : float) (rest : array) (j : nat) (beads : list string)
    (b : string) (Psat : option float) (NaNbead : option string) :
  positive x = true ->
  nth_error beads j = Some b ->
  exists NaNbead',
    setPsat_loop (x :: rest) j beads Psat NaNbead
    = setPsat_loop rest (S j) beads (Some (dummy_pressure b)) NaNbead'.
Proof.
  intros Hx Hb. unfold positive in Hx. cbn [setPsat_loop]. rewrite Hx.
  unfold getitem. rewrite Hb. cbn [bind]. unfold dummy_pressure.
  destruct (String.eqb b "CO2"); [eexists; reflexivity|].
  destruct (String.eqb b "N2"); [eexists; reflexivity|].
  destruct (contains "CH4" b); [eexists; reflexivity|].
  destruct (contains "CH3CH3" b); eexists; reflexivity.
Qed.

(** The loop ends with the dummy pressure of the last bead that has a
    positive entry, or with [Psat] as it was when there is none. *)
Lemma setPsat_loop_last (row : array) (j : nat) (beads : list string)
    (Psat : option float) (NaNbead : option string) :
  (forall k x, nth_error row k = Some x -> positive x = true ->
               (j + k < length beads)%nat) ->
  exists Psat' NaNbead',
    setPsat_loop row j beads Psat NaNbead = Ok (Psat', NaNbead') /\
    ((existsb positive row = false /\ Psat' = Psat) \/
     exists k x b,
       nth_error row k = Some x /\ positive x = true /\
       (forall k' y, (k < k')%nat -> nth_error row k' = Some y -> positive y = false) /\
       nth_error beads (j + k) = Some b /\
       Psat' = Some (dummy_pressure b)).
Proof.
  revert j Psat NaNbead; induction row as [|x rest IH]; intros j Psat NaNbead Hcover.
  - exists Psat, NaNbead. split; [reflexivity|]. left. split; reflexivity.
  - assert (Hrest : forall k y, nth_error rest k = Some y -> positive y = true ->
                                (S j + k < length beads)%nat).
    { intros k y Hk Hy. specialize (Hcover (S k) y Hk Hy). lia. }
    destruct (positive x) eqn:Hx.
    + assert (Hj : (j + 0 < length beads)%nat) by (apply (Hcover 0%nat x); auto).
      destruct (nth_error beads j) as [b|] eqn:Hb;
        [|apply nth_error_None in Hb; lia].
      destruct (@setPsat_loop_positive x rest j beads b Psat NaNbead Hx Hb)
        as (NaNbead1 & ->).
      destruct (IH (S j) (Some (dummy_pressure b)) NaNbead1 Hrest)
        as (Psat' & NaNbead' & Hrun & Hlast).
      exists Psat', NaNbead'. split; [exact Hrun|]. right.
      destruct Hlast as [[Hnone ->]|(k & y & b' & Hk & Hy & Hafter & Hb' & ->)].
      * exists 0%nat, x, b. repeat split; auto.
        -- intros [|k'] y Hlt Hk'; [lia|]. cbn [nth_error] in Hk'.
           eapply existsb_nth_error_false; eauto.
        -- now rewrite Nat.add_0_r.
      * exists (S k), y, b'. repeat split; auto.
        -- intros [|k'] z Hlt Hk'; [lia|]. cbn [nth_error] in Hk'.
           apply (Hafter k' z); [lia|exact Hk'].
        -- now replace (j + S k)%nat with (S j + k)%nat by lia.
    + destruct (IH (S j) Psat NaNbead Hrest) as (Psat' & NaNbead' & Hrun & Hlast).
      exists Psat', NaNbead'. split.
      { cbn [setPsat_loop]. unfold positive in Hx. rewrite Hx. exact Hrun. }
      destruct Hlast as [[Hnone ->]|(k & y & b' & Hk & Hy & Hafter & Hb' & ->)].
      * left. split; [|reflexivity]. cbn [existsb]. now rewrite Hx, Hnone.
      * right. exists (S k), y, b'. repeat split; auto.
        -- intros [|k'] z Hlt Hk'; [lia|]. cbn [nth_error] in Hk'.
           apply (Hafter k' z); [lia|exact Hk'].
        -- now replace (j + S k)%nat with (S j + k)%nat by lia.
Qed.

(** C10: for a component whose stoichiometry row has a positive entry, the
    EOS listing a bead for every column with a positive entry (the beads the
    loop reads), [setPsat] returns the dummy pressure of the last such bead:
    10377000.0 for "CO2", 6377000.0 for a bead containing "CH4", and
    7377000.0 for "N2" and for every other bead, the unlisted ones included.
    The value is never NaN; so the [isnan] test that guards the "beyond it's
    critical point" error of [calc_yT_phase] never holds, and that turn of
    its loop is the turn of [calc_xT_phase], which has no such error. *)
Theorem setPsat_positive_row_not_nan (ind : nat) (eos : EOS) (row : array) :
  nth_error (nui eos) ind = Some row ->
  existsb (fun x => (0.0 <? x)%float) row = true ->
  (forall k x, nth_error row k = Some x -> (0.0 <? x)%float = true ->
               (k < length (beads eos))%nat) ->
  (exists j x b Psat NaNbead,
     nth_error row j = Some x /\ (0.0 <? x)%float = true /\
     (forall k y, (j < k)%nat -> nth_error row k = Some y -> (0.0 <? y)%float = false) /\
     nth_error (beads eos) j = Some b /\
     setPsat ind eos = Ok (Psat, NaNbead) /\
     Psat = (if String.eqb b "CO2" then 10377000.0
             else if String.eqb b "N2" then 7377000.0
             else if contains "CH4" b then 6377000.0
             else 7377000.0)%float /\
     is_nan Psat = false) /\
  (forall lib yi T rd,
     Psat_of_component_yT lib ind yi T eos rd
     = Psat_of_component_xT lib ind yi T eos rd).
Proof.
  intros Hrow Hpos Hcover.
  destruct (@setPsat_loop_last row 0 (beads eos) None None Hcover)
    as (Psat' & nb & Hrun & Hlast).
  destruct Hlast as [[Hnone _]|(j & x & b & Hj & Hx & Hafter & Hb & ->)].
  { unfold positive in Hnone. rewrite Hnone in Hpos. discriminate. }
  assert (Hset : setPsat ind eos =
                 Ok (dummy_pressure b,
                     match nb with Some n => n | None => "No NaNbead"%string end)).
  { unfold setPsat, getitem. rewrite Hrow. cbn [bind]. rewrite Hrun. reflexivity. }
  split.
  - exists j, x, b, (dummy_pressure b),
      (match nb with Some n => n | None => "No NaNbead"%string end).
    repeat split; auto. apply dummy_pressure_not_nan.
  - intros lib yi T rd. unfold Psat_of_component_yT, Psat_of_component_xT.
    destruct (calc_Psat lib T _ eos rd) as [[[p rhol] rhov]|e]; cbn [bind]; [|reflexivity].
    destruct (is_nan p); [|reflexivity].
    rewrite Hset. cbn [bind]. now rewrite dummy_pressure_not_nan.
Qed.

(** C10 at the water component of the fixture, whose bead "H2O" is none of
    the listed ones. *)
Lemma setPsat_positive_row_not_nan_witness :
  (exists j x b Psat NaNbead,
     nth_error [0; 1]%float j = Some x /\ (0.0 <? x)%float = true /\
     (forall k y, (j < k)%nat -> nth_error [0; 1]%float k = Some y ->
                  (0.0 <? y)%float = false) /\
     nth_error (beads fixture_eos) j = Some b /\
     setPsat 1 fixture_eos = Ok (Psat, NaNbead) /\
     Psat = (if String.eqb b "CO2" then 10377000.0
             else if String.eqb b "N2" then 7377000.0
             else if contains "CH4" b then 6377000.0
             else 7377000.0)%float /\
     is_nan Psat = false) /\
  (forall lib yi T rd,
     Psat_of_component_yT lib 1 yi T fixture_eos rd
     = Psat_of_component_xT lib 1 yi T fixture_eos rd).
Proof.
  apply (@setPsat_positive_row_not_nan 1 fixture_eos [0; 1]%float).
  - reflexivity.
  - reflexivity.
  - intros [|[|k]] x Hk _; simpl in *; try lia. destruct k; discriminate.
Defined.

(** Without a bead for a column with a positive entry the loop raises while
    reading [eos.beads[j]]. *)
Lemma setPsat_missing_bead (ind : nat) (eos : EOS) (row : array) (k : nat) (x : float) :
  nth_error (nui eos) ind = Some row ->
  nth_error row k = Some x ->
  (0.0 <? x)%float = true ->
  (length (beads eos) <= k)%nat ->
  (forall k' y, (k' < k)%nat -> nth_error row k' = Some y ->
                (0.0 <? y)%float = true -> (k' < length (beads eos))%nat) ->
  setPsat ind eos = Raise IndexError.
Proof.
  intros Hrow Hk Hx Hshort Hbefore.
  unfold setPsat, getitem. rewrite Hrow. cbn [bind].
  assert (Hloop : forall row j P N,
            nth_error row k = Some x ->
            (length (beads eos) <= j + k)%nat ->
            (forall k' y, (k' < k)%nat -> nth_error row k' = Some y ->
                          (0.0 <? y)%float = true -> (j + k' < length (beads eos))%nat) ->
            setPsat_loop row j (beads eos) P N = Raise IndexError).
  { clear Hrow Hk Hshort Hbefore row. revert k.
    induction k as [|k IH]; intros row j P N Hk Hshort Hbefore.
    - destruct row as [|y rest]; [discriminate|]. cbn [nth_error] in Hk.
      inversion Hk; subst y. cbn [setPsat_loop]. rewrite Hx.
      unfold getitem. rewrite Nat.add_0_r in Hshort.
      apply nth_error_None in Hshort. now rewrite Hshort.
    - destruct row as [|y rest]; [discriminate|]. cbn [nth_error] in Hk.
      assert (Hnext : forall P' N', setPsat_loop rest (S j) (beads eos) P' N'
                                    = Raise IndexError).
      { intros P' N'. apply IH; [exact Hk|lia|].
        intros k' z Hlt Hk' Hz. specialize (Hbefore (S k') z). cbn [nth_error] in Hbefore.
        assert (j + S k' < length (beads eos))%nat by (apply Hbefore; auto; lia). lia. }
      destruct (positive y) eqn:Hy.
      + assert (Hj : (j + 0 < length (beads eos))%nat)
          by (apply (Hbefore 0%nat y); [lia|reflexivity|exact Hy]).
        destruct (nth_error (beads eos) j) as [b|] eqn:Hb;
          [|apply nth_error_None in Hb; lia].
        destruct (@setPsat_loop_positive y rest j (beads eos) b P N Hy Hb) as (N1 & ->).
        apply Hnext.
      + cbn [setPsat_loop]. unfold positive in Hy. rewrite Hy. apply Hnext. }
  rewrite (Hloop row 0%nat None None Hk); [reflexivity|simpl; lia|].
  intros k' y Hlt Hk' Hy. simpl. eapply Hbefore; eauto.
Qed.

(** The water bead of the fixture is none of the listed exceptions: it gets
    the generic 7377000.0 Pa and is reported as the bead beyond its critical
    point. *)
Lemma setPsat_unknown_bead :
  setPsat 1 fixture_eos = Ok (7377000.0%float, "H2O"%string) /\
  setPsat 0 fixture_eos = Ok (10377000.0%float, "No NaNbead"%string).
Proof.
  split; reflexivity.
Qed.

(** A row without a positive entry leaves [Psat] unbound: the [return]
    raises. *)
Lemma setPsat_no_positive_entry :
  setPsat 0 {| density_max := density_max fixture_eos;
               pressure := pressure fixture_eos;
               fugacity_coefficient := fugacity_coefficient fixture_eos;
               beads := beads fixture_eos;
               nui := [[0; 0]]%float |}
  = Raise (UnboundLocalError "Psat").
Proof.
  reflexivity.
Qed.

(** ** The inner composition solver at its iteration cap *)

(** Unless the loop left flag 3, what [solve_yi_xiT] returns as fugacity
    coefficients and flag are [phiv2] and [flagv2] as the loop left them:
    the NaN vector and the flag 3 assigned after the least-squares re-solve
    go to [phiv] and [flagv], which are not returned. *)
Lemma solve_yi_finish_returns_loop_values (lib : Lib) (st : yi_state) (z : option nat)
    (xi phil : array) (P T : float) (eos : EOS) (rd : rhodict) (maxiter : nat)
    (tol : float) (f : flag) (yi2 phiv2 : array) (flagv2 : flag) (w : world) :
  st_flagv st = Some f ->
  flag_is f 3 = false ->
  solve_yi_finish lib st z xi phil P T eos rd maxiter tol = Ok (yi2, phiv2, flagv2, w) ->
  st_phiv2 st = Some phiv2 /\ st_flagv2 st = Some flagv2.
Proof.
  intros Hf Hnot3 H. unfold solve_yi_finish in H. rewrite Hf in H.
  cbn [bound bind] in H.
  destruct (bound "yi_tmp" (st_yi_tmp st)) as [yi_tmp|]; cbn [bind] in H;
    [|discriminate].
  destruct (smallest_fraction_index yi_tmp) as [ind_tmp|]; cbn [bind] in H;
    [|discriminate].
  rewrite Hnot3 in H.
  destruct (bound "z" z) as [z'|]; cbn [bind] in H; [|discriminate].
  destruct (Z.of_nat z' =? Z.of_nat maxiter - 1)%Z.
  - destruct (bound "yinew" (st_yinew st)) as [yinew|]; cbn [bind] in H;
      [|discriminate].
    destruct (smallest_fraction_change _ _ _) as [tmp|]; cbn [bind] in H;
      [|discriminate].
    destruct (truth_value _) as [above|]; cbn [bind] in H; [|discriminate].
    destruct (if above then _ else _) as [guess|]; cbn [bind] in H; [|discriminate].
    destruct (solve_yi_resolve _ _ _ _ _ _ _ _) as [[[[yi phiv] flagv] obj]|];
      cbn [bind] in H; [|discriminate].
    destruct (if (tol <? obj)%float then _ else _) as [phiv' flagv'].
    destruct (st_phiv2 st) as [p2|]; cbn [bound bind] in H; [|discriminate].
    destruct (st_flagv2 st) as [f2|]; cbn [bound bind] in H; [|discriminate].
    inversion H; subst. auto.
  - destruct (st_yi2 st) as [y2|]; cbn [bound bind] in H; [|discriminate].
    destruct (st_phiv2 st) as [p2|]; cbn [bound bind] in H; [|discriminate].
    destruct (st_flagv2 st) as [f2|]; cbn [bound bind] in H; [|discriminate].
    inversion H; subst. auto.
Qed.

(** C3 on a binary mixture whose iteration swings between two compositions:
    the loop runs its 30 iterations without a break, the smallest fraction
    is off by 300%, the least-squares re-solve ends with an objective of
    0.75, far above the tolerance 1e-8, and [solve_yi_xiT] still returns the
    last iterate with its finite fugacity coefficients and flag 0 (vapour)
    instead of NaN coefficients and flag 3. *)
Theorem solve_yi_xiT_cap_returns_last_iterate :
  let lib := fixture_lib [0.01; 0.02; 0.03]%float [0.015; 0.025]%float in
  let eos := fixture_eos_swinging in
  let rd := fixture_rhodict in
  let yi := [0.2; 0.8]%float in
  let xi := [0.5; 0.5]%float in
  let phil := [1; 1]%float in
  let P := 9000%float in
  let T := 323.2%float in
  (exists st,
     solve_yi_loop lib yi xi phil P T eos rd 30 1e-8%float fixture_world
       = Ok (st, Some 29%nat, false) /\
     st_flagv st = Some (Flag 0) /\
     st_yi_tmp st = Some [0.8; 0.2]%float /\
     st_yinew st = Some [0.125; 0.5]%float) /\
  (exists change,
     smallest_fraction_change [0.2; 0.8]%float [0.8; 0.2]%float [1%nat] = Ok [change] /\
     (0.1 <? change)%float = true) /\
  solve_yi_resolve lib [0.2; 0.8]%float xi phil P T eos rd
    = Ok ([0.2; 0.8]%float, [1; 4]%float, Flag 0, 0.75%float) /\
  (1e-8 <? 0.75)%float = true /\
  solve_yi_xiT lib yi xi phil P T eos rd 30 1e-8%float fixture_world
    = Ok ([0.2; 0.8]%float, [1; 4]%float, Flag 0, fixture_world) /\
  flag_is (Flag 0) 3 = false /\
  np_any_isnan [1; 4]%float = false.
Proof.
  cbv zeta. split; [|split].
  - eexists. split; [vm_compute; reflexivity|]. repeat split.
  - eexists. split; vm_compute; reflexivity.
  - repeat split; vm_compute; reflexivity.
Qed.

(** ** The outer pressure solver at its iteration cap *)

(** When the bracketing loop of [calc_Prange_yi] ends with [i = 199],
    [calc_Prange_yi] returns: a NaN range and a NaN guess. *)
Lemma calc_Prange_yi_cap_returns_nan (lib : Lib) (T : float) (xi yi : array) (eos : EOS)
    (rd : rhodict) (zo : zi_opts) (w : world) (st : Prange_yi_state) (broke : bool) :
  Prange_yi_loop lib T xi yi eos rd zo w = Ok (st, Some 199%nat, broke) ->
  calc_Prange_yi lib T xi yi eos rd zo w = Ok ((nan, nan), nan, ry_world st).
Proof.
  intros H. unfold calc_Prange_yi. rewrite H. reflexivity.
Qed.

(** The sibling: a range returned by [calc_Prange_xi] without NaN comes
    from two loops that both ended before their last iteration. *)
Lemma calc_Prange_xi_range_below_cap (lib : Lib) (T : float) (xi yi : array) (eos : EOS)
    (rd : rhodict) (Pmin : float) (Pmin_is_int : bool) (zo : zi_opts) (w w' : world)
    (Prange : float * float) (Pguess : float) :
  calc_Prange_xi lib T xi yi eos rd Pmin Pmin_is_int zo w = Ok (Prange, Pguess, w') ->
  is_nan (fst Prange) = false ->
  exists st1 z1 b1 st2 z2 b2,
    Prange_xi_lower_loop lib T xi yi eos rd Pmin Pmin_is_int zo w = Ok (st1, Some z1, b1) /\
    z1 <> 199%nat /\
    Prange_xi_upper_loop lib T xi eos rd zo st1 = Ok (st2, Some z2, b2) /\
    z2 <> 199%nat /\
    rx_flag_min st2 = false.
Proof.
  intros H Hnan. unfold calc_Prange_xi in H.
  destruct (Prange_xi_lower_loop _ _ _ _ _ _ _ _ _ _) as [[[st1 z1] b1]|];
    cbn [bind] in H; [|discriminate].
  destruct z1 as [z1|]; cbn [bound bind] in H; [|discriminate].
  destruct (z1 =? 200 - 1)%nat eqn:Hz1; [discriminate|].
  destruct (Prange_xi_upper_loop _ _ _ _ _ _ _) as [[[st2 z2] b2]|] eqn:Hupper;
    cbn [bind] in H; [|discriminate].
  destruct z2 as [z2|]; cbn [bound bind] in H; [|discriminate].
  destruct (z2 =? 200 - 1)%nat eqn:Hz2; cbn [orb] in H.
  - inversion H; subst. discriminate.
  - destruct (rx_flag_min st2) eqn:Hmin.
    + inversion H; subst. discriminate.
    + exists st1, z1, b1, st2, z2, b2.
      apply Nat.eqb_neq in Hz1, Hz2. simpl in Hz1, Hz2. repeat split; auto.
Qed.

(** The sibling: whatever [calc_xT_phase] returns, the range it got from
    [calc_Prange_xi] held no NaN; a NaN range is answered by a [ValueError]. *)
Lemma calc_xT_phase_checks_range (lib : Lib) (toolbox : Toolbox) (xi : array) (T : float)
    (eos : EOS) (rd : rhodict) (zo : zi_opts) (Pguess : float) (meth : string)
    (w : world) (out : float * array * flag * flag * float * world) :
  calc_xT_phase lib toolbox xi T eos rd zo Pguess meth w = Ok out ->
  exists yi w0 Prange Pguess' w1,
    calc_Prange_xi lib T xi yi eos rd 10000%float true zo w0 = Ok (Prange, Pguess', w1) /\
    is_nan (fst Prange) = false /\ is_nan (snd Prange) = false.
Proof.
  intros H. unfold calc_xT_phase in H.
  destruct (Psat_of_components_xT _ _ _ _ _ _) as [Psat|]; cbn [bind] in H;
    [|discriminate].
  match type of H with
  | bind (match yi_global ?w0 with _ => _ end) _ = _ =>
      destruct (yi_global w0) as [yi|] eqn:Hyi; cbn [bind] in H; [|discriminate];
      destruct (calc_Prange_xi lib T xi yi eos rd 10000%float true zo w0)
        as [[[Prange Pguess'] w1]|] eqn:Hrange; cbn [bind] in H; [|discriminate];
      exists yi, w0, Prange, Pguess', w1
  end.
  split; [exact Hrange|].
  destruct (is_nan (fst Prange)); [discriminate|].
  destruct (is_nan (snd Prange)); [discriminate|]. auto.
Qed.

(** The first loop of [calc_Prange_xi] on a liquid side that reports an ideal
    gas (flag 4) at every trial pressure, so that the pressure is doubled in
    every turn.  With the default integer [Pmin = 10000] on a curve without
    extremum the doubling is [int64] arithmetic: the fiftieth doubling wraps
    around to a negative pressure, which the loop answers with its
    "cannot be equal to or less than zero" error.  With [Pmin = 10000.0] the
    doubling stays in binary64 and the loop runs into its iteration cap. *)
Lemma calc_Prange_xi_doubling :
  (exists p,
     calc_Prange_xi (fixture_lib [] []) 323.2%float [0.3; 0.7]%float [0.3; 0.7]%float
       fixture_eos fixture_rhodict 10000%float true zi_opts_default fixture_world
     = Raise (nonpositive_pressure p [0.3; 0.7]%float 323.2%float) /\
     p = (10000 * 0x1p50 - 0x1p64)%float /\ (p <? 0)%float = true) /\
  calc_Prange_xi (fixture_lib [] []) 323.2%float [0.3; 0.7]%float [0.3; 0.7]%float
    fixture_eos fixture_rhodict 10000%float false zi_opts_default fixture_world
  = Raise no_minimum_pressure.
Proof.
  split.
  - eexists. split; [vm_compute; reflexivity|]. split; vm_compute; reflexivity.
  - vm_compute. reflexivity.
Qed.

(** C4 on a mixture with unit fugacity coefficients, whose equilibrium
    objective is zero at every trial pressure and never changes sign.  The
    bracketing of [calc_Prange_yi] runs all 200 iterations without a break
    and returns a NaN range and guess instead of raising; [calc_yT_phase]
    hands them to the root finder unchecked, and with a root finder that
    answers a pressure it returns that pressure with flags and a zero
    objective. *)
Theorem calc_yT_phase_cap_returns_number :
  let lib := fixture_lib [0.01; 0.02; 0.03]%float [] in
  let yi := [0.3; 0.7]%float in
  let T := 323.2%float in
  (exists st,
     Prange_yi_loop lib T yi yi fixture_eos fixture_rhodict zi_opts_default fixture_world
       = Ok (st, Some 199%nat, false) /\
     ry_flag_sol st = false) /\
  (exists w,
     calc_Prange_yi lib T yi yi fixture_eos fixture_rhodict zi_opts_default fixture_world
       = Ok ((nan, nan), nan, w)) /\
  (exists xi w,
     calc_yT_phase lib fixture_toolbox_constant yi T fixture_eos fixture_rhodict
       zi_opts_default (-1)%float "hybr" fixture_world
     = Ok (101325%float, xi, Flag 1, Flag 0, 0%float, w)).
Proof.
  cbv zeta. split; [|split].
  - eexists. split; [vm_compute; reflexivity|reflexivity].
  - eexists. vm_compute. reflexivity.
  - eexists. eexists. vm_compute. reflexivity.
Qed.

(** On the same input a root finder that evaluates the objective at the NaN
    guess ends the call with the error of an empty [min()] inside
    [solve_xi_yiT], not with a convergence failure. *)
Lemma calc_yT_phase_cap_probing_root_finder :
  calc_yT_phase (fixture_lib [0.01; 0.02; 0.03]%float []) fixture_toolbox_probing
    [0.3; 0.7]%float 323.2%float fixture_eos fixture_rhodict zi_opts_default
    (-1)%float "hybr" fixture_world
  = Raise (ValueError "min() arg is an empty sequence" [] []).
Proof.
  vm_compute. reflexivity.
Qed.

(** * Further properties of the code *)

(** ** NaN in binary64 arithmetic *)

Lemma is_nan_spec (x : float) : is_nan x = true <-> Prim2SF x = S754_nan.
Proof.
  unfold is_nan. rewrite FloatAxioms.eqb_spec. unfold SFeqb.
  destruct (Prim2SF x) as [s| s| |s m e]; simpl.
  - split; discriminate.
  - destruct s; split; discriminate.
  - split; reflexivity.
  - destruct s; rewrite Z.compare_refl, Pos.compare_cont_refl; simpl; split; discriminate.
Qed.

Lemma sub_nan_l (x y : float) : is_nan x = true -> is_nan (x - y) = true.
Proof.
  intros H. apply is_nan_spec in H. apply is_nan_spec.
  rewrite FloatAxioms.sub_spec, H. reflexivity.
Qed.

Lemma sub_nan_r (x y : float) : is_nan y = true -> is_nan (x - y) = true.
Proof.
  intros H. apply is_nan_spec in H. apply is_nan_spec.
  rewrite FloatAxioms.sub_spec, H. unfold SF64sub, SFsub. destruct (Prim2SF x); reflexivity.
Qed.

Lemma div_nan_r (x y : float) : is_nan y = true -> is_nan (x / y) = true.
Proof.
  intros H. apply is_nan_spec in H. apply is_nan_spec.
  rewrite FloatAxioms.div_spec, H. unfold SF64div, SFdiv. destruct (Prim2SF x); reflexivity.
Qed.

Lemma ltb_nan_l (x y : float) : is_nan x = true -> (x <? y)%float = false.
Proof.
  intros H. apply is_nan_spec in H. rewrite FloatAxioms.ltb_spec, H. reflexivity.
Qed.

Lemma ltb_nan_r (x y : float) : is_nan y = true -> (x <? y)%float = false.
Proof.
  intros H. apply is_nan_spec in H. rewrite FloatAxioms.ltb_spec, H.
  unfold SFltb, SFcompare. destruct (Prim2SF x); reflexivity.
Qed.

Lemma eqb_nan_l (x y : float) : is_nan x = true -> (x =? y)%float = false.
Proof.
  intros H. apply is_nan_spec in H. rewrite FloatAxioms.eqb_spec, H. reflexivity.
Qed.

Lemma eqb_nan_r (x y : float) : is_nan y = true -> (x =? y)%float = false.
Proof.
  intros H. apply is_nan_spec in H. rewrite FloatAxioms.eqb_spec, H.
  unfold SFeqb, SFcompare. destruct (Prim2SF x); reflexivity.
Qed.

Lemma eqb_refl_not_nan (x : float) : is_nan x = false -> (x =? x)%float = true.
Proof.
  unfold is_nan. destruct (x =? x)%float; [reflexivity|discriminate].
Qed.

(** A NaN sample stays NaN under a pressure shift, and a NaN shift turns
    every sample into NaN. *)
Lemma shift_pressure_nan (Plist : array) (P : float) :
  np_any_isnan Plist = true -> np_any_isnan (shift_pressure Plist P) = true.
Proof.
  unfold np_any_isnan, shift_pressure. induction Plist as [|p t IH]; simpl; [discriminate|].
  intros H. apply orb_true_iff in H. apply orb_true_iff. destruct H as [H|H].
  - left. now apply sub_nan_l.
  - right. now apply IH.
Qed.

Lemma shift_pressure_by_nan (Plist : array) (P : float) :
  is_nan P = true -> Plist <> [] -> np_any_isnan (shift_pressure Plist P) = true.
Proof.
  intros HP Hne. destruct Plist as [|p t]; [contradiction|].
  unfold np_any_isnan, shift_pressure. simpl. now rewrite (@sub_nan_r p P HP).
Qed.

(** ** The pressure-density curve *)

(** X1: [PvsRho] pairs its two arrays: when it returns, there is one list of
    densities of which [vlist] holds the reciprocals and [Plist] the EOS
    pressures, entry by entry. *)
Theorem PvsRho_samples_paired (lib : Lib) (T : float) (xi : array) (eos : EOS)
    (rd : rhodict) (vlist Plist : array) :
  PvsRho lib T xi eos rd = Ok (vlist, Plist) ->
  exists rholist,
    vlist = map (fun r => (1.0 / r)%float) rholist /\
    Plist = map (fun rho => pressure eos rho T xi) rholist /\
    length vlist = length Plist.
Proof.
  unfold PvsRho. intros H.
  destruct (_ <? rhoinc rd)%float; [discriminate|].
  destruct (np_amax _) as [m|]; cbn [bind] in H; [|discriminate].
  match type of H with
  | bind ?r _ = _ => destruct r as [rholist|]; cbn [bind] in H; [|discriminate]
  end.
  inversion H; subst. exists (rev rholist).
  split; [reflexivity|]. split; [now rewrite map_rev|].
  now rewrite !length_map, !length_rev, length_map.
Qed.

Lemma PvsRho_samples_paired_witness :
  exists rholist,
    fst fixture_curve = map (fun r => (1.0 / r)%float) rholist /\
    snd fixture_curve = map (fun rho => pressure fixture_eos rho 323.2%float [1; 0]%float)
                          rholist /\
    length (fst fixture_curve) = length (snd fixture_curve).
Proof.
  apply (@PvsRho_samples_paired (fixture_lib [] []) 323.2%float [1; 0]%float fixture_eos
           fixture_rhodict).
  vm_compute. reflexivity.
Defined.

(** The density the curve ends at: [maxrho] when given and nonzero, the
    EOS's [density_max] otherwise. *)
Definition top_density (T : float) (xi : array) (eos : EOS) (rd : rhodict) : float :=
  match maxrho rd with
  | None => density_max eos xi T
  | Some m => if (m =? 0)%float then density_max eos xi T else m
  end.

(** X2: A density range that passes the increment test but yields fewer than two
    densities (the range equal to the increment, for one) leaves no spacing
    to inspect: [np.amax] of the empty array of spacings raises, and
    [PvsRho] ends in numpy's [ValueError] for a zero-size reduction, which
    names the operation, maximum. *)
Theorem PvsRho_single_density (lib : Lib) (T : float) (xi : array) (eos : EOS)
    (rd : rhodict) :
  let top := top_density T xi eos rd in
  let bottom := (top * minrhofrac rd)%float in
  (top - bottom <? rhoinc rd)%float = false ->
  (length (np_arange lib bottom top (rhoinc rd)) <= 1)%nat ->
  PvsRho lib T xi eos rd =
    Raise (ValueError
             "zero-size array to reduction operation maximum which has no identity"
             [] []).
Proof.
  intros top bottom Htest Hlen. unfold PvsRho. fold (top_density T xi eos rd).
  fold top. fold bottom. rewrite Htest.
  destruct (np_arange lib bottom top (rhoinc rd)) as [|r [|r' t]]; simpl in *;
    try reflexivity; lia.
Qed.

Lemma PvsRho_single_density_witness :
  PvsRho (fixture_lib [] []) 323.2%float [1; 0]%float fixture_eos fixture_rhodict_coarse
  = Raise (ValueError
             "zero-size array to reduction operation maximum which has no identity"
             [] []).
Proof.
  apply (@PvsRho_single_density (fixture_lib [] []) 323.2%float [1; 0]%float fixture_eos
           fixture_rhodict_coarse).
  - reflexivity.
  - vm_compute. lia.
Defined.

(** ** Root interpolation *)

Lemma where_from_none {A : Type} (p : A -> bool) (l : list A) (k : nat) :
  Forall (fun x => p x = false) l -> where_from p l k = [].
Proof.
  revert k; induction l as [|h t IH]; intros k H; simpl; [reflexivity|].
  inversion H; subst. rewrite H2. now apply IH.
Qed.

Lemma where_from_cons {A : Type} (p : A -> bool) (h : A) (t : list A) (k : nat) :
  where_from p (h :: t) k = if p h then k :: where_from p t (S k) else where_from p t (S k).
Proof. reflexivity. Qed.

(** The code's test for a sign change in the first pass, [Plist * (-1)**0 < 0]. *)
Definition tests_negative (p : float) : bool := (p * 1 <? 0)%float.

(** A pass that finds no index after the first stops the scan. *)
Lemma sign_changes_stops (Plist : array) (i : nat) (rest ind_array : list nat) (ai : nat) :
  getitem ind_array i = Ok ai ->
  (ai + 1 <? length Plist)%nat = true ->
  existsb (fun k => negb (k =? 0)%nat)
    (np_where (fun p => (p * (if Nat.even i then 1 else -1) <? 0)%float)
       (slice_from ai Plist)) = false ->
  sign_changes Plist (i :: rest) ind_array = Ok ind_array.
Proof.
  intros Hai Hlen Hnone. simpl. rewrite Hai. cbn [bind]. rewrite Hlen.
  now rewrite Hnone.
Qed.

(** X3: when no sample after the first tests negative, [interp_vroot] finds no
    index, logs that it returns the given root, and then reads the index it
    never assigned: the call raises. *)
Theorem interp_vroot_no_sign_change (v0 : float) (vlist Plist : array) :
  Forall (fun p => tests_negative p = false) (tl Plist) ->
  interp_vroot v0 vlist Plist = Raise (UnboundLocalError "ind").
Proof.
  intros H. unfold interp_vroot.
  assert (Hscan : sign_changes Plist [0; 1; 2]%nat [0; 0; 0; 0]%nat = Ok [0; 0; 0; 0]%nat).
  { destruct Plist as [|p [|q t]]; try reflexivity.
    apply sign_changes_stops with (ai := 0%nat); try reflexivity.
    unfold np_where, slice_from. cbn [skipn Nat.even]. simpl in H.
    unfold tests_negative in H.
    rewrite where_from_cons, (where_from_none _ 1 H).
    destruct (p * 1 <? 0)%float; reflexivity. }
  rewrite Hscan. reflexivity.
Qed.

Lemma interp_vroot_no_sign_change_witness :
  interp_vroot 0.05%float [0.03; 0.04; 0.1]%float [-2; 1; 3]%float
  = Raise (UnboundLocalError "ind").
Proof.
  apply (@interp_vroot_no_sign_change 0.05%float [0.03; 0.04; 0.1]%float [-2; 1; 3]%float).
  repeat constructor.
Defined.

(** ** The Maxwell construction objective *)

(** X4: with fewer than two roots of the shifted curve [eq_area] logs a warning
    and then adds the two areas it never computed: the call raises.  A NaN
    sample, or a NaN shift of a non-empty curve, is such a case, the roots
    being [[NaN]]. *)
Theorem eq_area_needs_two_roots (lib : Lib) (shift : float) (Pv vlist : array) :
  (length (spline_roots (PvsV_spline lib vlist (shift_pressure Pv shift))) < 2)%nat \/
    np_any_isnan Pv = true \/ (is_nan shift = true /\ Pv <> []) ->
  eq_area lib shift Pv vlist = Raise (UnboundLocalError "a").
Proof.
  assert (Hfew : (length (spline_roots (PvsV_spline lib vlist (shift_pressure Pv shift))) < 2)%nat ->
                 eq_area lib shift Pv vlist = Raise (UnboundLocalError "a")).
  { intros Hlen. unfold eq_area. fold (shift_pressure Pv shift).
    destruct (PvsV_spline lib vlist (shift_pressure Pv shift)) as [[Pvspline roots] extrema].
    unfold spline_roots in Hlen. simpl in Hlen.
    destruct roots as [|r0 [|r1 t]]; simpl in *; try reflexivity; lia. }
  intros [Hlen|Hnan]; [now apply Hfew|]. apply Hfew.
  assert (Hs : np_any_isnan (shift_pressure Pv shift) = true).
  { destruct Hnan as [H|[H Hne]].
    - now apply shift_pressure_nan.
    - now apply shift_pressure_by_nan. }
  unfold PvsV_spline, spline_roots. simpl. rewrite Hs. simpl. lia.
Qed.

Lemma eq_area_needs_two_roots_witness :
  eq_area (fixture_lib [0.01; 0.02; 0.03] [0.015; 0.025])%float 5000%float
    [5; nan; 1; -1; 2; 3]%float [1; 2; 3; 4; 5; 6]%float
  = Raise (UnboundLocalError "a").
Proof.
  apply (@eq_area_needs_two_roots (fixture_lib [0.01; 0.02; 0.03] [0.015; 0.025])%float
           5000%float [5; nan; 1; -1; 2; 3]%float [1; 2; 3; 4; 5; 6]%float).
  right. left. reflexivity.
Defined.

(** ** Phase density: flags and NaN *)

Definition spline_fit (r : Spline * array * array) : Spline := fst (fst r).

Ltac split_result H :=
  repeat (first
    [ discriminate H
    | match type of H with
      | context [bind ?r _] =>
          let E := fresh "E" in destruct r eqn:E; cbn [bind] in H
      | context [if ?c then _ else _] =>
          let E := fresh "E" in destruct c eqn:E
      | context [match ?x with Ok _ => _ | Raise _ => _ end] =>
          let E := fresh "E" in destruct x eqn:E
      | context [let '(_, _) := ?p in _] => destruct p
      end ]).

(** The classification by roots hands out the flags 0 to 4 only, and a NaN
    estimate with the flags 3 and 4. *)
Lemma calc_rhov_roots_flag (lib : Lib) (P T : float) (xi : array) (eos : EOS)
    (vlist Plist : array) (Pvspline : Spline) (roots extrema : array)
    (rho : float) (f : flag) (b : bool) :
  calc_rhov_roots lib P T xi eos vlist Plist Pvspline roots extrema = Ok (rho, f, b) ->
  (exists n, f = Flag n /\ In n [0; 1; 2; 3; 4]%Z) /\
  (flag_in f [3; 4]%Z = true -> is_nan rho = true).
Proof.
  intros H. unfold calc_rhov_roots in H. cbv zeta in H.
  split_result H; inversion H; subst; clear H;
    (split; [eexists; split; [reflexivity|simpl; tauto]
            |simpl; intros Hf; try discriminate Hf; try reflexivity; try assumption]).
Qed.

Lemma calc_rhol_roots_flag (lib : Lib) (P T : float) (xi : array) (eos : EOS)
    (vlist Plist : array) (Pvspline : Spline) (roots extrema : array)
    (rho : float) (f : flag) (b : bool) :
  calc_rhol_roots lib P T xi eos vlist Plist Pvspline roots extrema = Ok (rho, f, b) ->
  (exists n, f = Flag n /\ In n [0; 1; 2; 3; 4]%Z) /\
  (flag_in f [3; 4]%Z = true -> is_nan rho = true).
Proof.
  intros H. unfold calc_rhol_roots in H. cbv zeta in H.
  split_result H; inversion H; subst; clear H;
    (split; [eexists; split; [reflexivity|simpl; tauto]
            |simpl; intros Hf; try discriminate Hf; try reflexivity; try assumption]).
Qed.

(** X5: whatever [calc_rhov] returns carries one of the flags 0 to 4, and with
    the flags 3 (no stable phase) and 4 (ideal gas) the density is NaN: those
    estimates are not refined. *)
Theorem calc_rhov_flag_and_density (lib : Lib) (P T : float) (xi : array) (eos : EOS)
    (rd : rhodict) (rho : float) (f : flag) :
  calc_rhov lib P T xi eos rd = Ok (rho, f) ->
  (exists n, f = Flag n /\ In n [0; 1; 2; 3; 4]%Z) /\
  (flag_in f [3; 4]%Z = true -> is_nan rho = true).
Proof.
  intros H. unfold calc_rhov in H.
  destruct (PvsRho lib T xi eos rd) as [[vlist Plist]|]; cbn [bind] in H; [|discriminate].
  destruct (PvsV_spline lib vlist (shift_pressure Plist P)) as [[Pvspline roots] extrema].
  destruct (calc_rhov_roots _ _ _ _ _ _ _ _ _ _) as [[[rho_tmp f'] b]|] eqn:Hroots;
    cbn [bind] in H; [|discriminate].
  destruct (calc_rhov_roots_flag _ _ _ _ _ _ _ _ _ _ Hroots) as [Hflag Hnan].
  destruct (calc_rhov_refine _ _ _ _ _ _ _ _ _) as [rho'|] eqn:Hrefine;
    cbn [bind] in H; [|discriminate].
  inversion H; subst. split; [exact Hflag|].
  intros Hf. unfold calc_rhov_refine in Hrefine.
  destruct Hflag as (n & -> & Hn). simpl in Hn, Hf.
  destruct Hn as [<-|[<-|[<-|[<-|[<-|[]]]]]]; try discriminate Hf;
    simpl in Hrefine; inversion Hrefine; subst; now apply Hnan.
Qed.

Lemma calc_rhov_flag_and_density_witness :
  (exists n, Flag 3 = Flag n /\ In n [0; 1; 2; 3; 4]%Z) /\
  (flag_in (Flag 3) [3; 4]%Z = true -> is_nan nan = true).
Proof.
  apply (@calc_rhov_flag_and_density (fixture_lib [nan] []) 9000%float 323.2%float
           [0.2; 0.3; 0.5]%float fixture_eos fixture_rhodict nan (Flag 3)).
  vm_compute. reflexivity.
Defined.

(** X6: the same for [calc_rhol], whose docstring lists the flags 0 to 3 only:
    flag 4 is among the flags it can return. *)
Theorem calc_rhol_flag_and_density (lib : Lib) (P T : float) (xi : array) (eos : EOS)
    (rd : rhodict) (rho : float) (f : flag) :
  calc_rhol lib P T xi eos rd = Ok (rho, f) ->
  (exists n, f = Flag n /\ In n [0; 1; 2; 3; 4]%Z) /\
  (flag_in f [3; 4]%Z = true -> is_nan rho = true).
Proof.
  intros H. unfold calc_rhol in H.
  destruct (PvsRho lib T xi eos rd) as [[vlist Plist]|]; cbn [bind] in H; [|discriminate].
  destruct (PvsV_spline lib vlist (shift_pressure Plist P)) as [[Pvspline roots] extrema].
  match type of H with
  | bind ?r _ = _ => destruct r; cbn [bind] in H; [|discriminate]
  end.
  destruct (calc_rhol_roots _ _ _ _ _ _ _ _ _ _) as [[[rho_tmp f'] b]|] eqn:Hroots;
    cbn [bind] in H; [|discriminate].
  destruct (calc_rhol_roots_flag _ _ _ _ _ _ _ _ _ _ Hroots) as [Hflag Hnan].
  destruct (calc_rhol_refine _ _ _ _ _ _ _ _ _) as [rho'|] eqn:Hrefine;
    cbn [bind] in H; [|discriminate].
  inversion H; subst. split; [exact Hflag|].
  intros Hf. unfold calc_rhol_refine in Hrefine.
  destruct Hflag as (n & -> & Hn). simpl in Hn, Hf.
  destruct Hn as [<-|[<-|[<-|[<-|[<-|[]]]]]]; try discriminate Hf;
    simpl in Hrefine; inversion Hrefine; subst; now apply Hnan.
Qed.

Lemma calc_rhol_flag_and_density_witness :
  (exists n, Flag 4 = Flag n /\ In n [0; 1; 2; 3; 4]%Z) /\
  (flag_in (Flag 4) [3; 4]%Z = true -> is_nan nan = true).
Proof.
  apply (@calc_rhol_flag_and_density (fixture_lib [] []) 9000%float 323.2%float
           [1; 0]%float fixture_eos fixture_rhodict nan (Flag 4)).
  vm_compute. reflexivity.
Defined.

(** ** Phase density: a curve without roots *)

(** X7: in the branch for a rootless curve that lies above zero pressure, the
    bound of the tail minimisation reads [roots[-1]] of the empty root list
    inside the [try]: the minimisation is never run, the estimate is NaN and
    the flag is 4, never 0.  [calc_phiv] then answers with the ideal gas:
    unit coefficients and density 0. *)
Theorem calc_rhov_rootless_is_ideal_gas (lib : Lib) (P T : float) (xi : array)
    (eos : EOS) (rd : rhodict) (vlist Plist : array) (vend lowest slope yroot : float) :
  let shifted := shift_pressure Plist P in
  let fit := PvsV_spline lib vlist shifted in
  PvsRho lib T xi eos rd = Ok (vlist, Plist) ->
  spline_roots fit = [] ->
  getlast vlist = Ok vend ->
  (spl_eval (spline_fit fit) (1 / vend) <? 0)%float = false ->
  py_min shifted = Ok lowest ->
  (0 <? lowest + P)%float = true ->
  np_polyfit lib (lastn 4 vlist) (lastn 4 shifted) 1 = [slope; yroot] ->
  calc_rhov lib P T xi eos rd = Ok (nan, Flag 4) /\
  calc_phiv lib P T xi eos rd = Ok (map (fun _ => 1%float) xi, 0%float, Flag 4).
Proof.
  intros shifted fit Hcurve Hroots Hend Heval Hmin Hpos Hfit.
  assert (Hrho : calc_rhov lib P T xi eos rd = Ok (nan, Flag 4)).
  { unfold calc_rhov. rewrite Hcurve. cbn [bind]. fold shifted. fold fit.
    destruct fit as [[Pvspline roots] extrema] eqn:Hfitted.
    unfold spline_roots, spline_fit in *. simpl in Hroots, Heval. subst roots.
    unfold calc_rhov_roots. cbn [np_any_isnan existsb length Nat.eqb].
    rewrite Hend. cbn [bind]. rewrite Heval, Hmin. cbn [bind]. rewrite Hpos, Hfit.
    reflexivity. }
  split; [exact Hrho|]. unfold calc_phiv. rewrite Hrho. reflexivity.
Qed.

Lemma calc_rhov_rootless_is_ideal_gas_witness :
  calc_rhov (fixture_lib [] []) 9000%float 323.2%float [1; 0]%float fixture_eos
    fixture_rhodict = Ok (nan, Flag 4) /\
  calc_phiv (fixture_lib [] []) 9000%float 323.2%float [1; 0]%float fixture_eos
    fixture_rhodict = Ok (map (fun _ => 1%float) [1; 0]%float, 0%float, Flag 4).
Proof.
  eapply (@calc_rhov_rootless_is_ideal_gas (fixture_lib [] []) 9000%float 323.2%float
            [1; 0]%float fixture_eos fixture_rhodict (fst fixture_curve) (snd fixture_curve)).
  - vm_compute. reflexivity.
  - reflexivity.
  - vm_compute. reflexivity.
  - reflexivity.
  - vm_compute. reflexivity.
  - vm_compute. reflexivity.
  - reflexivity.
Defined.

Lemma PvsRho_lengths (lib : Lib) (T : float) (xi : array) (eos : EOS) (rd : rhodict)
    (vlist Plist : array) :
  PvsRho lib T xi eos rd = Ok (vlist, Plist) -> length vlist = length Plist.
Proof.
  unfold PvsRho. intros H.
  destruct (_ <? rhoinc rd)%float; [discriminate|].
  destruct (np_amax _) as [m|]; cbn [bind] in H; [|discriminate].
  match type of H with
  | bind ?r _ = _ => destruct r as [rholist|]; cbn [bind] in H; [|discriminate]
  end.
  inversion H; subst. now rewrite !length_map, !length_rev, length_map.
Qed.

Lemma getlast_nonempty {A : Type} (l : list A) (x : A) : getlast l = Ok x -> l <> [].
Proof.
  intros H ->. discriminate H.
Qed.

(** X8: [calc_rhol] tests the spline value at [1/vlist[-1]] for truth, not for
    its sign: on a rootless curve every nonzero value, positive and NaN
    included, makes the call return a liquid (flag 1) or, without extrema, a
    critical fluid (flag 2), and [calc_phil] asks the EOS for the fugacity
    coefficients at the density found. *)
Theorem calc_rhol_rootless_is_liquid (lib : Lib) (P T : float) (xi : array)
    (eos : EOS) (rd : rhodict) (vlist Plist : array) (vend : float) :
  let shifted := shift_pressure Plist P in
  let fit := PvsV_spline lib vlist shifted in
  let f := if (length (spline_extrema fit) =? 0)%nat then Flag 2 else Flag 1 in
  PvsRho lib T xi eos rd = Ok (vlist, Plist) ->
  spline_roots fit = [] ->
  Forall nonzero (spline_extrema fit) ->
  getlast vlist = Ok vend ->
  (spl_eval (spline_fit fit) (1 / vend) =? 0)%float = false ->
  exists rho,
    calc_rhol lib P T xi eos rd = Ok (rho, f) /\
    calc_phil lib P T xi eos rd = Ok (fugacity_coefficient eos P rho xi T, rho, f).
Proof.
  intros shifted fit f Hcurve Hroots Hnz Hend Heval.
  assert (Hlen : length vlist = length Plist) by (eapply PvsRho_lengths; eauto).
  assert (Hv : vlist <> []) by (eapply getlast_nonempty; eauto).
  destruct vlist as [|v0 vt]; [contradiction|].
  destruct Plist as [|p0 pt]; [discriminate|].
  assert (Hrho : exists rho, calc_rhol lib P T xi eos rd = Ok (rho, f)).
  { unfold calc_rhol. rewrite Hcurve. cbn [bind]. fold shifted. fold fit.
    subst f. destruct fit as [[Pvspline roots] extrema] eqn:Hfitted.
    unfold spline_roots, spline_fit, spline_extrema in *.
    simpl in Hroots, Heval, Hnz |- *. subst roots.
    assert (Hwarn : exists w, (if (length extrema =? 1)%nat
                               then e0 <- getitem extrema 0 ;; py_div 1 e0
                               else Ok 0%float) = Ok w).
    { destruct extrema as [|e0 [|e1 t]]; cbn; eauto.
      inversion Hnz; subst. rewrite (@py_div_nonzero 1 e0); eauto. }
    destruct Hwarn as [w ->]. cbn [bind].
    unfold calc_rhol_roots. cbn [np_any_isnan existsb length Nat.eqb].
    rewrite Hend. cbn [bind]. rewrite Heval. cbn [negb getitem nth_error bind].
    unfold calc_rhol_refine.
    assert (Hin : flag_in (if (length extrema =? 0)%nat then Flag 2 else Flag 1) [1; 2]%Z
                  = true) by (destruct (length extrema =? 0)%nat; reflexivity).
    rewrite Hin. unfold shifted, shift_pressure. cbn [map getitem nth_error bind negb].
    repeat match goal with
           | |- context [if ?c then _ else _] => destruct c
           end; cbn [bind]; eauto. }
  destruct Hrho as [rho Hrho]. exists rho. split; [exact Hrho|].
  unfold calc_phil. rewrite Hrho. cbn [bind]. subst f.
  destruct (length (spline_extrema fit) =? 0)%nat; reflexivity.
Qed.

Lemma calc_rhol_rootless_is_liquid_witness :
  exists rho,
    calc_rhol fixture_lib_above 9000%float 323.2%float [1; 0]%float fixture_eos
      fixture_rhodict = Ok (rho, Flag 2) /\
    calc_phil fixture_lib_above 9000%float 323.2%float [1; 0]%float fixture_eos
      fixture_rhodict
    = Ok (fugacity_coefficient fixture_eos 9000%float rho [1; 0]%float 323.2%float,
          rho, Flag 2).
Proof.
  eapply (@calc_rhol_rootless_is_liquid fixture_lib_above 9000%float 323.2%float
            [1; 0]%float fixture_eos fixture_rhodict (fst fixture_curve)
            (snd fixture_curve)).
  - vm_compute. reflexivity.
  - reflexivity.
  - constructor.
  - vm_compute. reflexivity.
  - reflexivity.
Defined.

(** ** Phase density: one root, one extremum *)

(** X9: with one root and one extremum, when the curve at the root is not above
    the curve at the extremum, none of the three branches of the one-root
    case applies and [flag] stays unbound: both density functions raise. *)
Theorem calc_rho_one_root_one_extremum (lib : Lib) (P T : float) (xi : array) (eos : EOS)
    (rd : rhodict) (vlist Plist : array) (r0 e0 : float) :
  let shifted := shift_pressure Plist P in
  let fit := PvsV_spline lib vlist shifted in
  PvsRho lib T xi eos rd = Ok (vlist, Plist) ->
  spline_roots fit = [r0] ->
  spline_extrema fit = [e0] ->
  is_nan r0 = false ->
  (spl_eval (spline_fit fit) e0 + P <? spl_eval (spline_fit fit) r0 + P)%float = false ->
  calc_rhov lib P T xi eos rd = Raise (UnboundLocalError "flag") /\
  (nonzero e0 -> calc_rhol lib P T xi eos rd = Raise (UnboundLocalError "flag")).
Proof.
  intros shifted fit Hcurve Hroots Hextrema Hnan Hcmp.
  destruct fit as [[Pvspline roots] extrema] eqn:Hfitted.
  unfold spline_roots, spline_extrema, spline_fit in *.
  simpl in Hroots, Hextrema, Hcmp. subst roots extrema.
  split.
  - unfold calc_rhov. rewrite Hcurve. cbn [bind]. fold shifted. fold fit. rewrite Hfitted.
    unfold calc_rhov_roots.
    cbn [np_any_isnan existsb length Nat.eqb getitem nth_error bind py_max fold_left orb].
    rewrite Hnan, Hcmp. reflexivity.
  - intros He0. unfold calc_rhol. rewrite Hcurve. cbn [bind]. fold shifted. fold fit.
    rewrite Hfitted. cbn [length Nat.eqb getitem nth_error bind].
    rewrite (@py_div_nonzero 1 e0 He0). cbn [bind].
    unfold calc_rhol_roots.
    cbn [np_any_isnan existsb length Nat.eqb getitem nth_error bind py_max fold_left orb].
    rewrite Hnan, Hcmp. reflexivity.
Qed.

Lemma calc_rho_one_root_one_extremum_witness :
  calc_rhov (fixture_lib [0.02] [0.015])%float 9000%float 323.2%float [1; 0]%float
    fixture_eos fixture_rhodict = Raise (UnboundLocalError "flag") /\
  (nonzero 0.015%float ->
   calc_rhol (fixture_lib [0.02] [0.015])%float 9000%float 323.2%float [1; 0]%float
     fixture_eos fixture_rhodict = Raise (UnboundLocalError "flag")).
Proof.
  apply (@calc_rho_one_root_one_extremum (fixture_lib [0.02] [0.015])%float 9000%float
           323.2%float [1; 0]%float fixture_eos fixture_rhodict
           (fst fixture_curve) (snd fixture_curve) 0.02%float 0.015%float).
  - vm_compute. reflexivity.
  - reflexivity.
  - reflexivity.
  - reflexivity.
  - reflexivity.
Defined.

(** ** Phase density: NaN pressures *)

(** X10: A NaN among the sampled pressures, or a NaN target pressure, makes the
    roots [[NaN]]: [calc_rhov] reports no stable phase (flag 3) with a NaN
    density, and [calc_phiv] answers with the two-entry NaN vector. *)
Theorem calc_phiv_nan_pressure (lib : Lib) (P T : float) (yi : array) (eos : EOS)
    (rd : rhodict) (vlist Plist : array) :
  PvsRho lib T yi eos rd = Ok (vlist, Plist) ->
  np_any_isnan Plist = true \/ (is_nan P = true /\ Plist <> []) ->
  calc_rhov lib P T yi eos rd = Ok (nan, Flag 3) /\
  calc_phiv lib P T yi eos rd = Ok ([nan; nan], nan, Flag 3).
Proof.
  intros Hcurve Hnan.
  assert (Hs : np_any_isnan (shift_pressure Plist P) = true).
  { destruct Hnan as [H|[H Hne]].
    - now apply shift_pressure_nan.
    - now apply shift_pressure_by_nan. }
  assert (Hrho : calc_rhov lib P T yi eos rd = Ok (nan, Flag 3)).
  { unfold calc_rhov. rewrite Hcurve. cbn [bind].
    unfold PvsV_spline. rewrite Hs. unfold calc_rhov_roots. reflexivity. }
  split; [exact Hrho|]. unfold calc_phiv. rewrite Hrho. reflexivity.
Qed.

Lemma calc_phiv_nan_pressure_witness :
  calc_rhov (fixture_lib [0.01; 0.02; 0.03]%float []) nan 323.2%float [0.3; 0.7]%float
    fixture_eos fixture_rhodict = Ok (nan, Flag 3) /\
  calc_phiv (fixture_lib [0.01; 0.02; 0.03]%float []) nan 323.2%float [0.3; 0.7]%float
    fixture_eos fixture_rhodict = Ok ([nan; nan], nan, Flag 3).
Proof.
  apply (@calc_phiv_nan_pressure (fixture_lib [0.01; 0.02; 0.03]%float []) nan 323.2%float
           [0.3; 0.7]%float fixture_eos fixture_rhodict
           (fst fixture_curve) (snd fixture_curve)).
  - vm_compute. reflexivity.
  - right. split; [reflexivity|]. vm_compute. discriminate.
Defined.

(** ** The K-value conversions on binary64 *)

(** A loop of item assignments whose right-hand sides can only fail on an
    index out of range fails that way as soon as one of them does. *)
Lemma assign_each_index_error {A : Type} (ind : list nat) (f : nat -> result A)
    (a : list A) (i : nat) :
  (forall j e, f j = Raise e -> e = IndexError) ->
  In i ind -> f i = Raise IndexError ->
  assign_each ind f a = Raise IndexError.
Proof.
  intros Honly Hin Hfail. revert a.
  induction ind as [|j rest IH]; intros a; [destruct Hin|].
  simpl. destruct (f j) as [v|e] eqn:Hj; cbn [bind].
  - destruct Hin as [->|Hin]; [congruence|]. now apply IH.
  - now rewrite (Honly _ _ Hj).
Qed.

Lemma getitem_error {A : Type} (l : list A) (i : nat) (e : exn) :
  getitem l i = Raise e -> e = IndexError.
Proof.
  unfold getitem. destruct (nth_error l i); [discriminate|]. now intros [= <-].
Qed.

Lemma getitem_out_of_range {A : Type} (l : list A) (i : nat) :
  (length l <= i)%nat -> getitem l i = Raise IndexError.
Proof.
  intros H. unfold getitem. apply nth_error_None in H. now rewrite H.
Qed.

(** X11: on binary64 vectors, with a coefficient of each kind for every entry of
    [xi], [calc_yi] returns a vector of the length of [xi] that is zero where
    [xi] is zero and [xi[i] * phil[i] / phiv[i]] elsewhere (a NaN fraction
    is not zero).  [calc_xi] is the same computation with the roles of the
    two coefficient vectors exchanged. *)
Theorem calc_yi_binary64_entries (xi phil phiv : array) :
  (length xi <= length phil)%nat ->
  (length xi <= length phiv)%nat ->
  exists yi,
    calc_yi xi phil phiv = Ok yi /\
    calc_xi xi phil phiv = Ok yi /\
    length yi = length xi /\
    forall i, (i < length xi)%nat ->
      nth i yi 0%float =
      if (nth i xi 0 =? 0)%float then 0%float
      else (nth i xi 0 * nth i phil 0 / nth i phiv 0)%float.
Proof.
  intros Hl Hv.
  set (g := fun i => (nth i xi 0 * nth i phil 0 / nth i phiv 0)%float).
  destruct (@assign_each_spec float g
              (fun i => x <- getitem xi i ;; l <- getitem phil i ;;
                        v <- getitem phiv i ;; Ok (num_div (num_mul x l) v))
              (np_where (fun x => negb (num_is_zero x)) xi)
              (repeat num_zero (length xi)))
    as (yi & Hrun & Hlen & Hin & Hout).
  - apply where_from_NoDup.
  - intros i Hi. apply np_where_spec in Hi. destruct Hi as (x & Hx & _).
    assert (Hlt : (i < length xi)%nat) by (apply nth_error_Some; congruence).
    rewrite repeat_length. split; [exact Hlt|].
    rewrite (getitem_nth xi 0%float Hlt); simpl.
    rewrite (getitem_nth phil 0%float) by lia; simpl.
    rewrite (getitem_nth phiv 0%float) by lia; simpl. reflexivity.
  - exists yi. rewrite repeat_length in Hlen.
    split; [exact Hrun|]. split; [exact Hrun|]. split; [exact Hlen|].
    intros i Hlt.
    assert (Hyi : (i < length yi)%nat) by lia.
    pose proof (nth_error_nth' yi 0%float Hyi) as Hnth.
    destruct (nth i xi 0 =? 0)%float eqn:Hz.
    + rewrite Hout in Hnth.
      * rewrite (nth_error_nth' _ 0%float) in Hnth by (rewrite repeat_length; lia).
        rewrite nth_repeat in Hnth. simpl in Hnth. congruence.
      * intros Hi. apply np_where_spec in Hi. destruct Hi as (x & Hx & Hp).
        rewrite (nth_error_nth' xi 0%float Hlt) in Hx. inversion Hx; subst x.
        simpl in Hp. rewrite Hz in Hp. discriminate.
    + rewrite Hin in Hnth; [unfold g in Hnth; congruence|].
      apply np_where_spec. exists (nth i xi 0%float).
      split; [now apply nth_error_nth'|]. simpl. now rewrite Hz.
Qed.

Lemma calc_yi_binary64_entries_witness :
  exists yi,
    calc_yi [0.75; 0; 0.25]%float [2; 5; 3]%float [4; 0.5; 8]%float = Ok yi /\
    calc_xi [0.75; 0; 0.25]%float [2; 5; 3]%float [4; 0.5; 8]%float = Ok yi /\
    length yi = 3%nat /\
    forall i, (i < 3)%nat ->
      nth i yi 0%float =
      if (nth i [0.75; 0; 0.25] 0 =? 0)%float then 0%float
      else (nth i [0.75; 0; 0.25] 0 * nth i [2; 5; 3] 0 / nth i [4; 0.5; 8] 0)%float.
Proof.
  apply (@calc_yi_binary64_entries [0.75; 0; 0.25]%float [2; 5; 3]%float [4; 0.5; 8]%float);
    simpl; lia.
Defined.

(** X12: A nonzero fraction without a coefficient of either kind ends the
    conversion with [IndexError]; so does the two-entry NaN vector that
    [calc_phiv] returns on flag 3 when the mixture has a third component. *)
Theorem calc_yi_missing_coefficient (xi phil phiv : array) (i : nat) (x : float) :
  nth_error xi i = Some x ->
  (x =? 0)%float = false ->
  (length phil <= i)%nat \/ (length phiv <= i)%nat ->
  calc_yi xi phil phiv = Raise IndexError.
Proof.
  intros Hx Hnz Hshort. unfold calc_yi.
  apply assign_each_index_error with (i := i).
  - intros j e He.
    destruct (getitem xi j) eqn:E1; cbn [bind] in He;
      [|inversion He; subst; eapply getitem_error; eauto].
    destruct (getitem phil j) eqn:E2; cbn [bind] in He;
      [|inversion He; subst; eapply getitem_error; eauto].
    destruct (getitem phiv j) eqn:E3; cbn [bind] in He;
      [discriminate|inversion He; subst; eapply getitem_error; eauto].
  - apply np_where_spec. exists x. split; [exact Hx|]. simpl. now rewrite Hnz.
  - unfold getitem at 1. rewrite Hx. cbn [bind].
    destruct Hshort as [H|H].
    + now rewrite (getitem_out_of_range phil H).
    + destruct (getitem phil i) as [l|e] eqn:El; cbn [bind].
      * now rewrite (getitem_out_of_range phiv H).
      * now rewrite (getitem_error _ _ El).
Qed.

Lemma calc_yi_missing_coefficient_witness :
  calc_yi [0.2; 0.3; 0.5]%float [1; 1; 1]%float [nan; nan] = Raise IndexError.
Proof.
  apply (@calc_yi_missing_coefficient [0.2; 0.3; 0.5]%float [1; 1; 1]%float [nan; nan]
           2 0.5%float).
  - reflexivity.
  - reflexivity.
  - right. simpl. lia.
Defined.

(** ** Cleaning plot data *)

Lemma SFcompare_antisym (a b : spec_float) :
  SFcompare b a = match SFcompare a b with
                  | Some c => Some (CompOpp c)
                  | None => None
                  end.
Proof.
  destruct a as [sa|sa| |sa ma ea], b as [sb|sb| |sb mb eb]; simpl;
    try reflexivity;
    try (destruct sa; reflexivity); try (destruct sb; reflexivity);
    try (destruct sa, sb; reflexivity).
  pose proof (Pos.compare_cont_antisym ma mb Eq) as Hm. simpl in Hm.
  destruct sa, sb; simpl; try reflexivity;
    rewrite (Z.compare_antisym ea eb); destruct (ea ?= eb)%Z; simpl; try reflexivity;
    rewrite <- Hm; try reflexivity; now rewrite CompOpp_involutive.
Qed.

(** Two numbers that are not NaN are equal or ordered one way or the other. *)
Lemma float_trichotomy (x h : float) :
  is_nan x = false -> is_nan h = false ->
  (x =? h)%float = false -> (x <? h)%float = false -> (h <? x)%float = true.
Proof.
  intros Hx Hh. rewrite FloatAxioms.eqb_spec, !FloatAxioms.ltb_spec.
  unfold SFeqb, SFltb. rewrite (SFcompare_antisym (Prim2SF x) (Prim2SF h)).
  destruct (SFcompare (Prim2SF x) (Prim2SF h)) as [[ | | ]|] eqn:Hc; simpl; try discriminate;
    try reflexivity.
  exfalso.
  assert (Hx' : Prim2SF x <> S754_nan).
  { intros E. apply is_nan_spec in E. congruence. }
  assert (Hh' : Prim2SF h <> S754_nan).
  { intros E. apply is_nan_spec in E. congruence. }
  destruct (Prim2SF x) as [s|s| |s m e], (Prim2SF h) as [s'|s'| |s' m' e'];
    simpl in Hc; try discriminate; congruence.
Qed.

Definition float_lt (a b : float) : Prop := (a <? b)%float = true.

Definition not_nan (x : float) : Prop := is_nan x = false.

Lemma np_any_isnan_false (l : array) : np_any_isnan l = false <-> Forall not_nan l.
Proof.
  unfold np_any_isnan, not_nan. induction l as [|h t IH]; simpl.
  - split; auto.
  - rewrite orb_false_iff, IH. split.
    + intros [H1 H2]. now constructor.
    + intros H. inversion H; subst. auto.
Qed.

Lemma np_any_isnan_true (l : array) :
  np_any_isnan l = true <-> exists x, In x l /\ is_nan x = true.
Proof.
  unfold np_any_isnan. apply existsb_exists.
Qed.

Lemma insert_unique_In (x : float) (l : array) (y : float) :
  In y (insert_unique x l) -> y = x \/ In y l.
Proof.
  induction l as [|h t IH]; simpl.
  - intros [<-|[]]. now left.
  - destruct (x =? h)%float; [now right|].
    destruct (x <? h)%float.
    + simpl. intros [<-|H]; [now left|now right].
    + simpl. intros [<-|H]; [right; now left|].
      destruct (IH H) as [->|H']; [now left|right; now right].
Qed.

Lemma insert_unique_keeps (x : float) (l : array) (y : float) :
  In y l -> In y (insert_unique x l).
Proof.
  induction l as [|h t IH]; simpl; [tauto|].
  destruct (x =? h)%float; [intros H; exact H|].
  destruct (x <? h)%float; simpl; [tauto|].
  intros [<-|H]; [now left|right; now apply IH].
Qed.

(** What an insertion leaves in the array for the inserted number: the
    number itself, or the entry equal to it that was already there. *)
Lemma insert_unique_holds (x : float) (l : array) :
  In x (insert_unique x l) \/ exists h, In h (insert_unique x l) /\ (x =? h)%float = true.
Proof.
  induction l as [|h t IH]; simpl.
  - left. now left.
  - destruct (x =? h)%float eqn:He.
    + right. exists h. split; [now left|exact He].
    + destruct (x <? h)%float; simpl.
      * left. now left.
      * destruct IH as [H|(h' & H & E)]; [left; now right|].
        right. exists h'. split; [now right|exact E].
Qed.

Lemma insert_unique_HdRel (x h : float) (t : array) :
  float_lt h x -> HdRel float_lt h t -> HdRel float_lt h (insert_unique x t).
Proof.
  intros Hhx Hrel. destruct t as [|h' t']; simpl.
  - now constructor.
  - inversion Hrel; subst.
    destruct (x =? h')%float; [now constructor|].
    destruct (x <? h')%float; now constructor.
Qed.

Lemma insert_unique_sorted (x : float) (l : array) :
  not_nan x -> Forall not_nan l ->
  Sorted float_lt l -> Sorted float_lt (insert_unique x l).
Proof.
  intros Hx Hl Hs. induction l as [|h t IH]; simpl.
  - repeat constructor.
  - inversion Hl; subst. inversion Hs; subst.
    destruct (x =? h)%float eqn:He; [exact Hs|].
    destruct (x <? h)%float eqn:Hlt.
    + constructor; [exact Hs|]. now constructor.
    + constructor; [now apply IH|].
      apply insert_unique_HdRel; [|assumption].
      now apply float_trichotomy.
Qed.

Lemma insert_unique_not_nan (x : float) (l : array) :
  not_nan x -> Forall not_nan l -> Forall not_nan (insert_unique x l).
Proof.
  intros Hx Hl. apply Forall_forall. intros y Hy.
  apply insert_unique_In in Hy. destruct Hy as [->|Hy]; [exact Hx|].
  rewrite Forall_forall in Hl. now apply Hl.
Qed.

(** The sorted array of distinct abscissae, as a fold from any sorted start. *)
Lemma fold_insert_sorted (l acc : array) :
  Forall not_nan l -> Forall not_nan acc -> Sorted float_lt acc ->
  Sorted float_lt (fold_left (fun acc x => insert_unique x acc) l acc) /\
  Forall not_nan (fold_left (fun acc x => insert_unique x acc) l acc).
Proof.
  revert acc; induction l as [|x t IH]; intros acc Hl Hacc Hs; simpl; [auto|].
  inversion Hl; subst.
  apply IH; [assumption| |].
  - now apply insert_unique_not_nan.
  - now apply insert_unique_sorted.
Qed.

Lemma fold_insert_sound (l acc : array) (y : float) :
  In y (fold_left (fun acc x => insert_unique x acc) l acc) -> In y l \/ In y acc.
Proof.
  revert acc; induction l as [|x t IH]; intros acc; simpl; [tauto|].
  intros H. destruct (IH _ H) as [H'|H']; [left; now right|].
  apply insert_unique_In in H'. destruct H' as [->|H']; [left; now left|now right].
Qed.

Lemma fold_insert_keeps (l acc : array) (y : float) :
  In y acc -> In y (fold_left (fun acc x => insert_unique x acc) l acc).
Proof.
  revert acc; induction l as [|x t IH]; intros acc H; simpl; [exact H|].
  apply IH. now apply insert_unique_keeps.
Qed.

Lemma fold_insert_complete (l acc : array) (x : float) :
  In x l ->
  In x (fold_left (fun acc x => insert_unique x acc) l acc) \/
  exists h, In h (fold_left (fun acc x => insert_unique x acc) l acc) /\
            (x =? h)%float = true.
Proof.
  revert acc; induction l as [|y t IH]; intros acc; simpl; [tauto|].
  intros [->|H]; [|now apply IH].
  destruct (insert_unique_holds x acc) as [Hx|(h & Hh & E)].
  - left. now apply fold_insert_keeps.
  - right. exists h. split; [now apply fold_insert_keeps|exact E].
Qed.

(** The first index at which a test holds. *)
Lemma where_from_first {A : Type} (p : A -> bool) (l : list A) (k i : nat) :
  getitem (where_from p l k) 0 = Ok i ->
  (k <= i)%nat /\
  (exists x, nth_error l (i - k) = Some x /\ p x = true) /\
  (forall j, (j < i - k)%nat -> exists y, nth_error l j = Some y /\ p y = false).
Proof.
  revert k; induction l as [|h t IH]; intros k; simpl; [discriminate|].
  destruct (p h) eqn:Hp.
  - unfold getitem. simpl. intros [= <-]. rewrite Nat.sub_diag.
    split; [lia|]. split; [exists h; auto|]. intros j Hj. lia.
  - intros H. destruct (IH _ H) as (Hk & (x & Hx & Hpx) & Hbefore).
    split; [lia|]. replace (i - k)%nat with (S (i - S k)) by lia.
    split; [exists x; auto|].
    intros [|j] Hj; [exists h; auto|]. apply Hbefore. lia.
Qed.

Lemma np_where_first {A : Type} (p : A -> bool) (l : list A) (i : nat) :
  getitem (np_where p l) 0 = Ok i ->
  (exists x, nth_error l i = Some x /\ p x = true) /\
  (forall j, (j < i)%nat -> exists y, nth_error l j = Some y /\ p y = false).
Proof.
  intros H. apply where_from_first in H. rewrite Nat.sub_0_r in H. tauto.
Qed.

Lemma np_where_some {A : Type} (p : A -> bool) (l : list A) (x : A) :
  In x l -> p x = true ->
  exists i, getitem (np_where p l) 0 = Ok i /\ (i < length l)%nat.
Proof.
  intros Hin Hp. apply In_nth_error in Hin. destruct Hin as [n Hn].
  assert (Hi : In n (np_where p l)) by (apply np_where_spec; eauto).
  destruct (np_where p l) as [|i rest] eqn:Hw; [destruct Hi|].
  exists i. split; [reflexivity|].
  assert (Hi' : In i (np_where p l)) by (rewrite Hw; now left).
  apply np_where_spec in Hi'. destruct Hi' as (y & Hy & _).
  apply nth_error_Some. congruence.
Qed.

(** The ordinate that goes with abscissa [x]: the one at the first index
    where [x_old] equals [x]. *)
Definition first_occurrence (x_old y_old : array) (x y : float) : Prop :=
  exists i x',
    nth_error x_old i = Some x' /\ (x' =? x)%float = true /\
    nth_error y_old i = Some y /\
    forall j, (j < i)%nat ->
      exists xj, nth_error x_old j = Some xj /\ (xj =? x)%float = false.

Lemma lookup_each_pairs (x_new x_old y_old y_new : array) :
  lookup_each x_new x_old y_old = Ok y_new ->
  Forall2 (first_occurrence x_old y_old) x_new y_new.
Proof.
  revert y_new; induction x_new as [|x rest IH]; intros y_new; simpl.
  - intros [= <-]. constructor.
  - destruct (getitem (np_where _ x_old) 0) as [i|] eqn:Hi; cbn [bind]; [|discriminate].
    destruct (getitem y_old i) as [y|] eqn:Hy; cbn [bind]; [|discriminate].
    destruct (lookup_each rest x_old y_old) as [ys|]; cbn [bind]; [|discriminate].
    intros [= <-]. constructor; [|now apply IH].
    apply np_where_first in Hi. destruct Hi as ((x' & Hx' & E) & Hbefore).
    exists i, x'. repeat split; auto.
    unfold getitem in Hy. destruct (nth_error y_old i); [congruence|discriminate].
Qed.

(** X13: [_clean_plot_data] returns as many ordinates as abscissae, and each
    ordinate is the one found at the first index where [x_old] equals its
    abscissa: of the ordinates of a repeated abscissa only the first is
    kept. *)
Theorem clean_plot_data_first_occurrence (x_old y_old x_new y_new : array) :
  _clean_plot_data x_old y_old = Ok (x_new, y_new) ->
  length y_new = length x_new /\
  Forall2 (first_occurrence x_old y_old) x_new y_new.
Proof.
  unfold _clean_plot_data. intros H.
  destruct (lookup_each _ _ _) as [ys|] eqn:Hl; cbn [bind] in H; [|discriminate].
  inversion H; subst. apply lookup_each_pairs in Hl.
  split; [symmetry; eapply Forall2_length; eauto|exact Hl].
Qed.

Lemma clean_plot_data_first_occurrence_witness :
  length [10; 20; 30]%float = length [1; 2; 3]%float /\
  Forall2 (first_occurrence [2; 1; 2; 3; 1]%float [20; 10; 21; 30; 11]%float)
    [1; 2; 3]%float [10; 20; 30]%float.
Proof.
  apply (@clean_plot_data_first_occurrence [2; 1; 2; 3; 1]%float [20; 10; 21; 30; 11]%float
           [1; 2; 3]%float [10; 20; 30]%float).
  vm_compute. reflexivity.
Defined.

Lemma lookup_each_total (x_new x_old y_old : array) :
  (forall x, In x x_new -> In x x_old /\ not_nan x) ->
  (length x_old <= length y_old)%nat ->
  exists y_new, lookup_each x_new x_old y_old = Ok y_new.
Proof.
  intros Hin Hlen. induction x_new as [|x rest IH]; simpl; [eauto|].
  destruct (Hin x (or_introl eq_refl)) as [Hx Hnan].
  destruct (@np_where_some float (fun v => (v =? x)%float) x_old x Hx
              (@eqb_refl_not_nan x Hnan)) as (i & Hi & Hlt).
  rewrite Hi. cbn [bind].
  rewrite (getitem_nth y_old 0%float) by lia. cbn [bind].
  destruct IH as [ys Hys]; [intros y Hy; apply Hin; now right|].
  rewrite Hys. cbn [bind]. eauto.
Qed.

(** X14: on abscissae without NaN, with an ordinate for each, [_clean_plot_data]
    returns; its abscissae are strictly increasing (so each value appears
    once), all of them are entries of [x_old], and every entry of [x_old]
    equals one of them. *)
Theorem clean_plot_data_sorted (x_old y_old : array) :
  np_any_isnan x_old = false ->
  (length x_old <= length y_old)%nat ->
  exists x_new y_new,
    _clean_plot_data x_old y_old = Ok (x_new, y_new) /\
    Sorted float_lt x_new /\
    (forall x, In x x_new -> In x x_old) /\
    (forall x, In x x_old -> exists h, In h x_new /\ (x =? h)%float = true).
Proof.
  intros Hnan Hlen. apply np_any_isnan_false in Hnan.
  assert (Hsound : forall x, In x (sort_unique x_old) -> In x x_old).
  { intros x Hx. apply fold_insert_sound in Hx. destruct Hx as [Hx|[]]. exact Hx. }
  destruct (@lookup_each_total (sort_unique x_old) x_old y_old) as [y_new Hy]; [|exact Hlen|].
  { intros x Hx. split; [now apply Hsound|].
    rewrite Forall_forall in Hnan. now apply Hnan, Hsound. }
  exists (sort_unique x_old), y_new. unfold _clean_plot_data. rewrite Hy. cbn [bind].
  split; [reflexivity|]. split; [|split; [exact Hsound|]].
  - apply fold_insert_sorted; [exact Hnan|constructor|constructor].
  - intros x Hx. destruct (@fold_insert_complete x_old [] x Hx) as [H|H]; [|exact H].
    exists x. split; [exact H|]. apply eqb_refl_not_nan.
    rewrite Forall_forall in Hnan. now apply Hnan.
Qed.

Lemma clean_plot_data_sorted_witness :
  exists x_new y_new,
    _clean_plot_data [2; 1; 2; 3; 1]%float [20; 10; 21; 30; 11]%float = Ok (x_new, y_new) /\
    Sorted float_lt x_new /\
    (forall x, In x x_new -> In x [2; 1; 2; 3; 1]%float) /\
    (forall x, In x [2; 1; 2; 3; 1]%float -> exists h, In h x_new /\ (x =? h)%float = true).
Proof.
  apply (@clean_plot_data_sorted [2; 1; 2; 3; 1]%float [20; 10; 21; 30; 11]%float).
  - reflexivity.
  - simpl. lia.
Defined.

Lemma lookup_each_error (x_new x_old y_old : array) (e : exn) :
  lookup_each x_new x_old y_old = Raise e -> e = IndexError.
Proof.
  induction x_new as [|x rest IH]; simpl; [discriminate|].
  destruct (getitem (np_where _ x_old) 0) as [i|e1] eqn:Hi; cbn [bind];
    [|intros [= <-]; eapply getitem_error; eauto].
  destruct (getitem y_old i) as [y|e2] eqn:Hy; cbn [bind];
    [|intros [= <-]; eapply getitem_error; eauto].
  destruct (lookup_each rest x_old y_old) as [ys|e3]; cbn [bind]; [discriminate|].
  intros [= <-]. now apply IH.
Qed.

Lemma lookup_each_nan (x_new x_old y_old : array) :
  np_any_isnan x_new = true -> lookup_each x_new x_old y_old = Raise IndexError.
Proof.
  intros H. destruct (lookup_each x_new x_old y_old) as [ys|e] eqn:Hl;
    [|now rewrite (lookup_each_error _ _ _ Hl)].
  exfalso. apply lookup_each_pairs in Hl.
  apply np_any_isnan_true in H. destruct H as (x & Hx & Hnan).
  clear -Hl Hx Hnan. induction Hl as [|a b l l' Hab _ IH]; [destruct Hx|].
  destruct Hx as [->|Hx]; [|now apply IH].
  destruct Hab as (i & x' & _ & E & _). rewrite (@eqb_nan_r x' x Hnan) in E. discriminate.
Qed.

(** X15: A NaN abscissa equals no entry of [x_old], itself included: the lookup
    of its ordinate indexes an empty array and the call ends in
    [IndexError]. *)
Theorem clean_plot_data_nan (x_old y_old : array) :
  np_any_isnan x_old = true ->
  _clean_plot_data x_old y_old = Raise IndexError.
Proof.
  intros H. unfold _clean_plot_data.
  rewrite lookup_each_nan; [reflexivity|].
  apply np_any_isnan_true in H. destruct H as (x & Hx & Hnan).
  apply np_any_isnan_true. exists x. split; [|exact Hnan].
  destruct (@fold_insert_complete x_old [] x Hx) as [H|(h & _ & E)]; [exact H|].
  rewrite (@eqb_nan_l x h Hnan) in E. discriminate.
Qed.

Lemma clean_plot_data_nan_witness :
  _clean_plot_data [2; nan; 1]%float [20; 0; 10]%float = Raise IndexError.
Proof.
  apply (@clean_plot_data_nan [2; nan; 1]%float [20; 0; 10]%float). reflexivity.
Defined.

(** ** The inner composition solvers *)

(** The composition with which the loop of [solve_yi_xiT] computes in its
    first iteration: the guess normalised on entry and once more. *)
Definition first_guess (yi : array) : array :=
  let yi := scale_by yi (np_sum yi) in scale_by yi (np_sum yi).

(** X16: when the first guess yields no vapour (NaN coefficients or a liquid
    flag), the mixture is binary and the search for another guess comes back
    with NaN, the loop is left with flag 3 before [yinew] was ever assigned;
    the code after the loop divides [yinew] by its sum and raises.  The call
    does not return the NaN coefficients it prepared. *)
Theorem solve_yi_xiT_failed_first_search (lib : Lib) (yi xi phil : array) (P T : float)
    (eos : EOS) (rd : rhodict) (maxiter : nat) (tol : float) (w : world)
    (phiv : array) (rhov : float) (flagv : flag) (yi2 : array) :
  let yi_tmp := first_guess yi in
  (0 < maxiter)%nat ->
  calc_phiv lib P T yi_tmp eos rd = Ok (phiv, rhov, flagv) ->
  (np_any_isnan phiv || flag_is flagv 1)%bool = true ->
  forallb (fun y => negb (y =? 0)%float) yi_tmp = true ->
  length yi_tmp = 2%nat ->
  find_new_yi lib P T phil xi eos (0.01, 0.99)%float 30 rd = Ok yi2 ->
  np_any_isnan yi2 = true ->
  solve_yi_xiT lib yi xi phil P T eos rd maxiter tol w =
    match smallest_fraction_index yi_tmp with
    | Ok _ => Raise (UnboundLocalError "yinew")
    | Raise e => Raise e
    end.
Proof.
  intros yi_tmp Hiter Hphiv Hbad Hnz Hlen Hfind Hnan.
  destruct maxiter as [|m]; [lia|].
  unfold solve_yi_xiT, solve_yi_loop, for_range. cbn [for_range_from].
  unfold solve_yi_step at 1. cbn [st_yi st_flag_check_vapor st_flag_trivial_sol st_world].
  fold (first_guess yi). fold yi_tmp.
  rewrite Hphiv. cbn [bind]. rewrite Hbad, Hnz, Hlen. cbn [andb Nat.eqb].
  rewrite Hfind. cbn [bind]. rewrite Hnan. cbn [bind].
  unfold solve_yi_finish. cbn [st_yi_tmp st_flagv st_yinew bound bind].
  destruct (smallest_fraction_index yi_tmp); reflexivity.
Qed.

Lemma solve_yi_xiT_failed_first_search_witness :
  solve_yi_xiT (fixture_lib [0.01; 0.02; 0.03]%float []) [0.3; 0.7]%float [0.5; 0.5]%float
    [1; 1]%float nan 323.2%float fixture_eos fixture_rhodict 30 1e-8%float fixture_world
  = Raise (UnboundLocalError "yinew").
Proof.
  erewrite (@solve_yi_xiT_failed_first_search (fixture_lib [0.01; 0.02; 0.03]%float [])
              [0.3; 0.7]%float [0.5; 0.5]%float [1; 1]%float nan 323.2%float fixture_eos
              fixture_rhodict 30 1e-8%float fixture_world).
  - vm_compute. reflexivity.
  - lia.
  - vm_compute. reflexivity.
  - reflexivity.
  - vm_compute. reflexivity.
  - reflexivity.
  - vm_compute. reflexivity.
  - reflexivity.
Defined.



(** ** The composition scans *)

Lemma find_new_yi_scan_points (lib : Lib) (yi_ext : array) (P T : float) (phil xi : array)
    (eos : EOS) (rd : rhodict) (scan : list (float * float * flag)) :
  find_new_yi_scan lib yi_ext P T phil xi eos rd = Ok scan ->
  map (fun '(_, y, _) => y) scan = yi_ext.
Proof.
  revert scan; induction yi_ext as [|y rest IH]; intros scan; simpl.
  - now intros [= <-].
  - intros H. split_result H. inversion H; subst. simpl. f_equal. now apply IH.
Qed.

Lemma find_new_xi_scan_points (lib : Lib) (xi_ext : array) (P T : float) (phiv yi : array)
    (eos : EOS) (rd : rhodict) (scan : list (float * float * flag)) :
  find_new_xi_scan lib xi_ext P T phiv yi eos rd = Ok scan ->
  map (fun '(_, x, _) => x) scan = xi_ext.
Proof.
  revert scan; induction xi_ext as [|x rest IH]; intros scan; simpl.
  - now intros [= <-].
  - intros H. split_result H. inversion H; subst. simpl. f_equal. now apply IH.
Qed.

Lemma getitem_In {A : Type} (l : list A) (i : nat) (x : A) : getitem l i = Ok x -> In x l.
Proof.
  unfold getitem. destruct (nth_error l i) eqn:E; [|discriminate].
  intros [= <-]. eapply nth_error_In; eauto.
Qed.

(** The pick among the scanned points: one of the points, or NaN when every
    objective is NaN. *)
Lemma scan_pick (scan : list (float * float * flag)) (keep : float * float * flag -> bool)
    (pick : float) :
  (let valid := filter (fun '(obj, _, _) => negb (is_nan obj)) scan in
   if (length valid =? 0)%nat then Ok nan
   else
     let preferred := filter keep valid in
     let kept := match preferred with [] => valid | _ => preferred end in
     let obj_tmp := map (fun '(obj, _, _) => abs obj) kept in
     m <- py_min obj_tmp ;;
     ind <- getitem (np_where (fun o => (o =? m)%float) obj_tmp) 0 ;;
     '(_, y, _) <- getitem kept ind ;;
     Ok y) = Ok pick ->
  In pick (map (fun '(_, y, _) => y) scan) \/
  (pick = nan /\ Forall (fun '(obj, _, _) => is_nan obj = true) scan).
Proof.
  cbv zeta. intros H.
  destruct (length (filter _ scan) =? 0)%nat eqn:Hlen.
  - right. inversion H; subst. split; [reflexivity|].
    apply Nat.eqb_eq, length_zero_iff_nil in Hlen.
    apply Forall_forall. intros [[obj y] f] Hin.
    destruct (is_nan obj) eqn:Hobj; [reflexivity|].
    assert (Hf : In (obj, y, f) (filter (fun '(obj, _, _) => negb (is_nan obj)) scan)).
    { apply filter_In. split; [exact Hin|]. now rewrite Hobj. }
    rewrite Hlen in Hf. destruct Hf.
  - left.
    destruct (py_min _) as [m|]; cbn [bind] in H; [|discriminate].
    destruct (getitem (np_where _ _) 0) as [ind|]; cbn [bind] in H; [|discriminate].
    match type of H with
    | bind (getitem ?kept ind) _ = _ =>
        destruct (getitem kept ind) as [[[obj y] f]|] eqn:Hk; cbn [bind] in H;
          [|discriminate];
        assert (Hin : In (obj, y, f) scan)
    end.
    { apply getitem_In in Hk.
      destruct (filter keep _) eqn:Hp.
      - apply filter_In in Hk. tauto.
      - rewrite <- Hp in Hk. apply filter_In in Hk. destruct Hk as [Hk _].
        apply filter_In in Hk. tauto. }
    inversion H; subst. apply in_map_iff. exists (obj, pick, f). auto.
Qed.

(** X18: whenever [find_new_yi] returns, it answers with a two-entry composition
    [[y, 1 - y]]: [y] is one of the points of the [np.linspace] grid between
    the bounds, or NaN when the objective is NaN at every point. *)
Theorem find_new_yi_answers_binary (lib : Lib) (P T : float) (phil xi : array) (eos : EOS)
    (bounds : float * float) (npoints : nat) (rd : rhodict) (out : array) :
  find_new_yi lib P T phil xi eos bounds npoints rd = Ok out ->
  exists y, out = [y; (1 - y)%float] /\
    (In y (np_linspace lib (fst bounds) (snd bounds) npoints) \/ y = nan).
Proof.
  intros H. unfold find_new_yi in H.
  destruct (find_new_yi_scan _ _ _ _ _ _ _ _) as [scan|] eqn:Hscan; cbn [bind] in H;
    [|discriminate].
  match type of H with
  | bind ?r _ = _ => destruct r as [y|] eqn:Hpick; cbn [bind] in H; [|discriminate]
  end.
  inversion H; subst. exists y. split; [reflexivity|].
  apply scan_pick in Hpick. rewrite (find_new_yi_scan_points _ _ _ _ _ _ _ _ Hscan) in Hpick.
  tauto.
Qed.

Lemma find_new_yi_answers_binary_witness :
  exists y, [0.51689655172413784; 0.48310344827586216]%float = [y; (1 - y)%float] /\
    (In y (np_linspace (fixture_lib [0.01; 0.02; 0.03]%float [0.015; 0.025]%float)
             0.01%float 0.99%float 30) \/ y = nan).
Proof.
  apply (@find_new_yi_answers_binary
           (fixture_lib [0.01; 0.02; 0.03]%float [0.015; 0.025]%float) 9000%float
           323.2%float [1; 1]%float [0.5; 0.5]%float fixture_eos_swinging
           (0.01, 0.99)%float 30 fixture_rhodict).
  vm_compute. reflexivity.
Defined.

(** X19: the same for [find_new_xi] and its fixed grid of 30 points between 0.001
    and 0.999. *)
Theorem find_new_xi_answers_binary (lib : Lib) (P T : float) (phiv yi : array) (eos : EOS)
    (rd : rhodict) (out : array) :
  find_new_xi lib P T phiv yi eos rd = Ok out ->
  exists x, out = [x; (1 - x)%float] /\
    (In x (np_linspace lib 0.001%float 0.999%float 30) \/ x = nan).
Proof.
  intros H. unfold find_new_xi in H.
  destruct (find_new_xi_scan _ _ _ _ _ _ _ _) as [scan|] eqn:Hscan; cbn [bind] in H;
    [|discriminate].
  match type of H with
  | bind ?r _ = _ => destruct r as [x|] eqn:Hpick; cbn [bind] in H; [|discriminate]
  end.
  inversion H; subst. exists x. split; [reflexivity|].
  apply scan_pick in Hpick. rewrite (find_new_xi_scan_points _ _ _ _ _ _ _ _ Hscan) in Hpick.
  tauto.
Qed.

Lemma find_new_xi_answers_binary_witness :
  exists x, [0.001; 0.999]%float = [x; (1 - x)%float] /\
    (In x (np_linspace (fixture_lib [0.01; 0.02; 0.03]%float [0.015; 0.025]%float)
             0.001%float 0.999%float 30) \/ x = nan).
Proof.
  apply (@find_new_xi_answers_binary
           (fixture_lib [0.01; 0.02; 0.03]%float [0.015; 0.025]%float) 9000%float
           323.2%float [1; 1]%float [0.5; 0.5]%float fixture_eos_swinging fixture_rhodict).
  vm_compute. reflexivity.
Defined.

(** ** Dummy saturation pressures: rows without a positive entry *)

Lemma setPsat_loop_skips (row : array) (j : nat) (beads : list string)
    (Psat : option float) (NaNbead : option string) :
  existsb (fun x => (0.0 <? x)%float) row = false ->
  setPsat_loop row j beads Psat NaNbead = Ok (Psat, NaNbead).
Proof.
  revert j; induction row as [|x rest IH]; intros j H; simpl in *; [reflexivity|].
  apply orb_false_iff in H. destruct H as [Hx Hrest]. rewrite Hx. now apply IH.
Qed.

(** X20: for a component whose stoichiometry row has no positive entry (zeros,
    negative numbers or NaN only) no branch assigns [Psat], and the [return]
    raises; the bead names are not even read. *)
Theorem setPsat_needs_positive_entry (ind : nat) (eos : EOS) (row : array) :
  nth_error (nui eos) ind = Some row ->
  existsb (fun x => (0.0 <? x)%float) row = false ->
  setPsat ind eos = Raise (UnboundLocalError "Psat").
Proof.
  intros Hrow Hnone. unfold setPsat, getitem. rewrite Hrow. cbn [bind].
  now rewrite (setPsat_loop_skips row 0 (beads eos) None None Hnone).
Qed.

Lemma setPsat_needs_positive_entry_witness :
  setPsat 1 {| density_max := density_max fixture_eos;
               pressure := pressure fixture_eos;
               fugacity_coefficient := fugacity_coefficient fixture_eos;
               beads := [];
               nui := [[1; 0]; [0; nan]]%float |}
  = Raise (UnboundLocalError "Psat").
Proof.
  apply (@setPsat_needs_positive_entry 1 _ [0; nan]%float); reflexivity.
Defined.

(** ** Loops *)

(** A loop left by [break] was left at a turn it reached. *)
Lemma for_range_from_break {St : Type} (body : nat -> St -> result (St * bool))
    (n z : nat) (last : option nat) (s st : St) (k : nat) :
  for_range_from body n z last s = Ok (st, Some k, true) -> (z <= k)%nat.
Proof.
  revert z last s; induction n as [|n IH]; intros z last s H; simpl in H; [discriminate|].
  destruct (body z s) as [[s' b]|]; cbn [bind] in H; [|discriminate].
  destruct b.
  - inversion H; subst. lia.
  - apply IH in H. lia.
Qed.

(** A loop left by [break] in its first turn: that turn produced the final
    state. *)
Lemma for_range_first_break {St : Type} (body : nat -> St -> result (St * bool))
    (n : nat) (s st : St) :
  for_range n body s = Ok (st, Some 0%nat, true) -> body 0%nat s = Ok (st, true).
Proof.
  unfold for_range. destruct n as [|n]; simpl; [discriminate|].
  destruct (body 0%nat s) as [[s' b]|]; cbn [bind]; [|discriminate].
  destruct b.
  - now intros [= ->].
  - intros H. apply for_range_from_break in H. lia.
Qed.

(** ** The pressure bracket for a dew point *)

(** X21: when the loop of [calc_Prange_yi] is left in its first turn (the lowest
    trial pressure gives a vapour flag other than 0, 2 and 4), the call
    raises nothing: it returns a NaN range and a NaN guess, and leaves the
    liquid composition found at that pressure in [xi_global]. *)
Theorem calc_Prange_yi_no_vapour_at_start (lib : Lib) (T : float) (xi yi : array)
    (eos : EOS) (rd : rhodict) (zo : zi_opts) (w : world) (st : Prange_yi_state) :
  Prange_yi_loop lib T xi yi eos rd zo w = Ok (st, Some 0%nat, true) ->
  calc_Prange_yi lib T xi yi eos rd zo w
    = Ok ((nan, nan), nan, set_xi_global (ry_world st) (ry_xi_range st)).
Proof.
  intros H. unfold calc_Prange_yi. rewrite H. cbn [bind bound Nat.eqb Nat.sub].
  unfold Prange_yi_loop in H.
  destruct (PvsRho lib T yi eos rd) as [[vlist Plist]|]; cbn [bind] in H; [|discriminate].
  destruct (PvsV_spline lib vlist Plist) as [[Pvspline roots] extrema].
  match type of H with
  | bind ?r _ = _ => destruct r as [[Pmin Pmax]|]; cbn [bind] in H; [|discriminate]
  end.
  apply for_range_first_break in H.
  unfold Prange_yi_step in H. cbn [ry_p ry_xi_range ry_world ry_Prange ry_ObjRange
    ry_flag_sol ry_flag_vapor ry_Pguess Nat.eqb] in H.
  split_result H; inversion H; subst; reflexivity.
Qed.

Lemma calc_Prange_yi_no_vapour_at_start_witness :
  exists w,
    calc_Prange_yi fixture_lib_below 323.2%float [0.3; 0.7]%float [0.3; 0.7]%float
      fixture_eos fixture_rhodict zi_opts_default fixture_world
    = Ok ((nan, nan), nan, w).
Proof.
  eexists.
  eapply (@calc_Prange_yi_no_vapour_at_start fixture_lib_below 323.2%float
            [0.3; 0.7]%float [0.3; 0.7]%float fixture_eos fixture_rhodict
            zi_opts_default fixture_world).
  vm_compute. reflexivity.
Defined.

(** ** Flash *)

(** The K-values [calc_flash] starts from: the saturation pressures of the
    two pure components, or their dummy values, over the pressure. *)
Definition initial_K (p0 p1 P : float) : array := [(p0 / P)%float; (p1 / P)%float].

Lemma calc_flash_start (lib : Lib) (P T : float) (eos : EOS) (rd : rhodict)
    (maxiter : nat) (tol : float) (p0 p1 : float) (e : exn) :
  length (nui eos) = 2%nat ->
  Psat_of_components_xT lib [0; 1]%nat [0; 0]%float T eos rd = Ok [p0; p1] ->
  flash_K_guess (initial_K p0 p1 P) = Raise e ->
  calc_flash lib P T eos rd maxiter tol = Raise e.
Proof.
  intros Hlx HPsat HK. unfold calc_flash. rewrite Hlx.
  cbn [Nat.eqb negb seq repeat]. rewrite HPsat. cbn [bind map].
  fold (initial_K p0 p1 P). now rewrite HK.
Qed.

(** X22: K-values on both sides of 1, the case of a mixture that splits into two
    phases: no NaN is repaired and the K-values are neither all above nor all
    below 1, so none of the blocks before the loop assigns [ind], and the
    test [ind[0] == 0] that follows raises.  [calc_flash] does not reach its
    iteration. *)
Theorem calc_flash_straddling_K (lib : Lib) (P T : float) (eos : EOS) (rd : rhodict)
    (maxiter : nat) (tol : float) (p0 p1 : float) :
  length (nui eos) = 2%nat ->
  Psat_of_components_xT lib [0; 1]%nat [0; 0]%float T eos rd = Ok [p0; p1] ->
  np_any_isnan (initial_K p0 p1 P) = false ->
  forallb (fun k => (1.0 <? k)%float) (initial_K p0 p1 P) = false ->
  forallb (fun k => (k <? 1.0)%float) (initial_K p0 p1 P) = false ->
  calc_flash lib P T eos rd maxiter tol = Raise (UnboundLocalError "ind").
Proof.
  intros Hlx HPsat Hnan Habove Hbelow.
  apply calc_flash_start with (p0 := p0) (p1 := p1); try assumption.
  unfold flash_K_guess, flash_K_nan. rewrite Hnan. cbn [bind].
  unfold flash_K_side. rewrite Habove, Hbelow. reflexivity.
Qed.

Lemma calc_flash_straddling_K_witness :
  calc_flash (fixture_lib [] []) 9000000%float 323.2%float fixture_eos fixture_rhodict
    200 1e-9%float = Raise (UnboundLocalError "ind").
Proof.
  eapply (@calc_flash_straddling_K (fixture_lib [] []) 9000000%float 323.2%float
            fixture_eos fixture_rhodict 200 1e-9%float).
  - reflexivity.
  - vm_compute. reflexivity.
  - reflexivity.
  - reflexivity.
  - reflexivity.
Defined.

(** X23: at a NaN pressure both K-values are NaN; the repair looks for the
    K-value that is not NaN, finds none, and indexes the empty result:
    [calc_flash] raises [IndexError], and the fallback [[0.5, 1.5]] the code
    holds ready for that case is out of reach. *)
Theorem calc_flash_nan_pressure (lib : Lib) (P T : float) (eos : EOS) (rd : rhodict)
    (maxiter : nat) (tol : float) (p0 p1 : float) :
  length (nui eos) = 2%nat ->
  Psat_of_components_xT lib [0; 1]%nat [0; 0]%float T eos rd = Ok [p0; p1] ->
  is_nan P = true ->
  calc_flash lib P T eos rd maxiter tol = Raise IndexError.
Proof.
  intros Hlx HPsat HP.
  apply calc_flash_start with (p0 := p0) (p1 := p1); try assumption.
  unfold flash_K_guess, flash_K_nan, initial_K, np_any_isnan, np_where.
  cbn [existsb where_from].
  rewrite (@div_nan_r p0 P HP), (@div_nan_r p1 P HP). reflexivity.
Qed.

Lemma calc_flash_nan_pressure_witness :
  calc_flash (fixture_lib [] []) nan 323.2%float fixture_eos fixture_rhodict
    200 1e-9%float = Raise IndexError.
Proof.
  eapply (@calc_flash_nan_pressure (fixture_lib [] []) nan 323.2%float
            fixture_eos fixture_rhodict 200 1e-9%float).
  - reflexivity.
  - vm_compute. reflexivity.
  - reflexivity.
Defined.

Lemma fold_left_pick {A : Type} (f : A -> A -> A) (l : list A) (x : A) :
  (forall a b, f a b = a \/ f a b = b) -> In (fold_left f l x) (x :: l).
Proof.
  intros Hf. revert x; induction l as [|h t IH]; intros x; simpl; [now left|].
  destruct (IH (f x h)) as [H|H]; [|right; right; exact H].
  destruct (Hf x h) as [E|E]; [left|right; left]; rewrite <- H; auto.
Qed.

Lemma py_max_In (l : array) (m : float) : py_max l = Ok m -> In m l.
Proof.
  destruct l as [|x t]; simpl; [discriminate|]. intros [= <-].
  apply fold_left_pick. intros a b. destruct (a <? b)%float; auto.
Qed.

Lemma py_min_In (l : array) (m : float) : py_min l = Ok m -> In m l.
Proof.
  destruct l as [|x t]; simpl; [discriminate|]. intros [= <-].
  apply fold_left_pick. intros a b. destruct (b <? a)%float; auto.
Qed.

Lemma ltb_not_nan_l (x y : float) : (x <? y)%float = true -> is_nan x = false.
Proof.
  intros H. destruct (is_nan x) eqn:E; [|reflexivity].
  rewrite (@ltb_nan_l x y E) in H. discriminate.
Qed.

Lemma np_where_equal_nonempty (l : array) (m : float) :
  In m l -> is_nan m = false ->
  (length (np_where (fun k => (k =? m)%float) l) =? 0)%nat = false.
Proof.
  intros Hin Hnan.
  destruct (@np_where_some float (fun k => (k =? m)%float) l m Hin
              (@eqb_refl_not_nan m Hnan)) as (i & Hi & _).
  destruct (np_where _ l); [discriminate|reflexivity].
Qed.

(** A raise of the block that handles K-values on one side of 1 is the
    [max()] of an empty sequence. *)
Lemma flash_K_side_raise (Ki : array) (ind : option (list nat)) (e : exn) :
  flash_K_side Ki ind = Raise e ->
  e = ValueError "max() arg is an empty sequence" [] [] /\
  forallb (fun k => (1.0 <? k)%float) Ki = true /\
  filter (fun k => (k <? 2.0)%float) Ki = [].
Proof.
  unfold flash_K_side. intros H.
  destruct (forallb (fun k => (1.0 <? k)%float) Ki) eqn:Habove.
  - destruct (filter (fun k => (k <? 2.0)%float) Ki) as [|b t] eqn:Hbelow.
    + simpl in H. inversion H; subst. auto.
    + exfalso. destruct (py_max (b :: t)) as [m|] eqn:Hm; [|discriminate Hm].
      cbn [bind] in H. pose proof (@py_max_In _ m Hm) as Hin.
      assert (Hnan : is_nan m = false).
      { rewrite <- Hbelow in Hin. apply filter_In in Hin. destruct Hin as [_ Hlt].
        eapply ltb_not_nan_l; eauto. }
      rewrite (@np_where_equal_nonempty _ m Hin Hnan) in H. discriminate.
  - exfalso.
    destruct (forallb (fun k => (k <? 1.0)%float) Ki) eqn:Hbelow; [|discriminate].
    destruct Ki as [|k0 kt]; [discriminate Habove|].
    destruct (py_min (k0 :: kt)) as [m|] eqn:Hm; [|discriminate Hm].
    cbn [bind] in H. pose proof (@py_min_In _ m Hm) as Hin.
    assert (Hnan : is_nan m = false).
    { rewrite forallb_forall in Hbelow. eapply ltb_not_nan_l. now apply Hbelow. }
    rewrite (@np_where_equal_nonempty _ m Hin Hnan) in H. discriminate.
Qed.

(** X24: the block that handles K-values on one side of 1 cannot raise either of
    its two errors ("All Ki values greater than 1", "All Ki values less than
    1"): the array they test for emptiness holds the index of the maximum or
    minimum just taken.  Whatever it raises is the [ValueError] of [max()]
    on an empty sequence, and it raises exactly when every K-value is above
    1 and none is below 2. *)
Theorem flash_K_side_errors (Ki : array) (ind : option (list nat)) :
  (forall e, flash_K_side Ki ind = Raise e ->
             e = ValueError "max() arg is an empty sequence" [] []) /\
  ((exists e, flash_K_side Ki ind = Raise e) <->
   (forallb (fun k => (1.0 <? k)%float) Ki = true /\
    filter (fun k => (k <? 2.0)%float) Ki = [])).
Proof.
  split; [|split].
  - intros e H. now apply (flash_K_side_raise Ki ind).
  - intros [e H]. now apply (flash_K_side_raise Ki ind) in H.
  - intros [Habove Hbelow]. unfold flash_K_side. rewrite Habove, Hbelow.
    eexists. reflexivity.
Qed.

Lemma flash_K_side_errors_witness :
  flash_K_side [2.5; 3]%float None
    = Raise (ValueError "max() arg is an empty sequence" [] []) /\
  exists ind, flash_K_side [1.5; 3]%float None = Ok ind.
Proof.
  destruct (@flash_K_side_errors [2.5; 3]%float None) as [Hmax [_ Hraise]].
  destruct Hraise as [e He]; [split; reflexivity|].
  split; [rewrite He; f_equal; now apply Hmax|].
  eexists. vm_compute. reflexivity.
Defined.

(** What every turn of a loop preserves holds when the loop is over. *)
Lemma for_range_from_invariant {St : Type} (Inv : St -> Prop)
    (body : nat -> St -> result (St * bool)) (n z : nat) (last : option nat)
    (s st : St) (l : option nat) (b : bool) :
  (forall z s s' b, Inv s -> body z s = Ok (s', b) -> Inv s') ->
  Inv s ->
  for_range_from body n z last s = Ok (st, l, b) -> Inv st.
Proof.
  intros Hstep. revert z last s; induction n as [|n IH]; intros z last s Hs H; simpl in H.
  - inversion H; subst. exact Hs.
  - destruct (body z s) as [[s' b']|] eqn:Hb; cbn [bind] in H; [|discriminate].
    pose proof (Hstep _ _ _ _ Hs Hb) as Hs'.
    destruct b'; [inversion H; subst; exact Hs'|]. eapply IH; eauto.
Qed.

(** The shape of the compositions a turn of the flash iteration leaves: the
    liquid is [[x, 1 - x]] with [x = (1 - K1) / (K0 - K1)] and the vapour is
    [[K0 * x, K1 * (1 - x)]], for the two K-values the turn started from. *)
Definition flash_shape (xi yi : array) : Prop :=
  exists k0 k1 x,
    x = ((1 - k1) / (k0 - k1))%float /\
    xi = [x; (1 - x)%float] /\
    yi = [(k0 * x)%float; (k1 * (1 - x))%float].

Definition flash_invariant (st : flash_state) : Prop :=
  length (fl_xi st) = 2%nat /\
  (fl_flagl st = None \/ flash_shape (fl_xi st) (fl_yi st)).

Lemma flash_step_invariant (lib : Lib) (P T : float) (eos : EOS) (rd : rhodict)
    (tol : float) (z : nat) (s s' : flash_state) (b : bool) :
  flash_invariant s -> flash_step lib P T eos rd tol z s = Ok (s', b) ->
  flash_invariant s'.
Proof.
  intros [Hlen _] H. unfold flash_step in H.
  destruct (fl_xi s) as [|a [|c [|d t]]]; try discriminate Hlen.
  destruct (fl_Ki s) as [|k0 [|k1 rest]]; try discriminate H.
  cbn [getitem nth_error bind assign_at length Nat.ltb Nat.leb setitem] in H.
  assert (Hyi : forall yi,
             broadcast PrimFloat.mul (k0 :: k1 :: rest)
               [((1 - k1) / (k0 - k1))%float; (1 - (1 - k1) / (k0 - k1))%float] = Ok yi ->
             yi = [(k0 * ((1 - k1) / (k0 - k1)))%float;
                   (k1 * (1 - (1 - k1) / (k0 - k1)))%float]).
  { intros yi Hb. unfold broadcast in Hb. destruct rest as [|r rest'].
    - simpl in Hb. now inversion Hb.
    - simpl in Hb. discriminate. }
  destruct (broadcast PrimFloat.mul _ _) as [yi|] eqn:Hb; cbn [bind] in H; [|discriminate].
  specialize (Hyi yi eq_refl). subst yi.
  assert (Hgoal : forall Ki Kiprev err fl fv,
             flash_invariant
               {| fl_Ki := Ki; fl_Kiprev := Kiprev;
                  fl_xi := [((1 - k1) / (k0 - k1))%float; (1 - (1 - k1) / (k0 - k1))%float];
                  fl_yi := [(k0 * ((1 - k1) / (k0 - k1)))%float;
                            (k1 * (1 - (1 - k1) / (k0 - k1)))%float];
                  fl_flagl := fl; fl_flagv := fv; fl_err := err |}).
  { intros. split; [reflexivity|]. right. exists k0, k1, ((1 - k1) / (k0 - k1))%float.
    repeat split. }
  split_result H; inversion H; subst; apply Hgoal.
Qed.

(** X25: whenever [calc_flash] returns, the liquid composition is [[x, 1 - x]]
    and the vapour composition is the liquid one scaled entry by entry by
    two K-values, [[K0 * x, K1 * (1 - x)]] with [x = (1 - K1) / (K0 - K1)]:
    the vapour fractions are not normalised. *)
Theorem calc_flash_output_shape (lib : Lib) (P T : float) (eos : EOS) (rd : rhodict)
    (maxiter : nat) (tol : float) (xi yi err : array) (flagl flagv : flag) :
  calc_flash lib P T eos rd maxiter tol = Ok (xi, flagl, yi, flagv, err) ->
  flash_shape xi yi.
Proof.
  unfold calc_flash. intros H.
  destruct (negb (length (nui eos) =? 2)%nat) eqn:Hlx; [discriminate|].
  apply negb_false_iff, Nat.eqb_eq in Hlx. rewrite Hlx in H.
  destruct (Psat_of_components_xT _ _ _ _ _ _) as [Psat|]; cbn [bind] in H; [|discriminate].
  destruct (flash_K_guess _) as [Ki|]; cbn [bind] in H; [|discriminate].
  destruct (for_range _ _ _) as [[[st i] b]|] eqn:Hloop; cbn [bind] in H; [|discriminate].
  assert (Hinv : flash_invariant st).
  { unfold for_range in Hloop.
    eapply for_range_from_invariant with (Inv := flash_invariant); [| |exact Hloop].
    - intros. eapply flash_step_invariant; eauto.
    - split; [reflexivity|]. now left. }
  match type of H with
  | bind ?r _ = _ => destruct r; cbn [bind] in H; [|discriminate]
  end.
  destruct (fl_flagl st) as [fl|] eqn:Hfl; cbn [bound bind] in H; [|discriminate].
  destruct (fl_flagv st) as [fv|]; cbn [bound bind] in H; [|discriminate].
  inversion H; subst. destruct Hinv as [_ [Hnone|Hshape]]; [congruence|exact Hshape].
Qed.

Lemma calc_flash_output_shape_witness :
  flash_shape [0.50000000000000011; 0.49999999999999989]%float
              [0.81557500000000016; 0.18442499999999998]%float.
Proof.
  apply (@calc_flash_output_shape (fixture_lib [0.01; 0.02; 0.03]%float []) 20000000%float
           323.2%float fixture_eos_flash fixture_rhodict 200 1e-9%float
           [0.50000000000000011; 0.49999999999999989]%float
           [0.81557500000000016; 0.18442499999999998]%float [1%float] (Flag 1) (Flag 0)).
  vm_compute. reflexivity.
Defined.

(** ** The critical-point pressure guess *)

(** No number is below -0.847 and above 0.2387 at once. *)
Lemma omega_never_out_of_range (x : float) : omega_out_of_range x = false.
Proof.
  unfold omega_out_of_range. rewrite !FloatAxioms.ltb_spec.
  set (lo := Prim2SF (-0.847)%float). set (hi := Prim2SF 0.2387%float).
  vm_compute in lo. vm_compute in hi. subst lo hi.
  destruct (Prim2SF x) as [s|s| |s m e]; try destruct s;
    first [reflexivity
          |apply andb_false_intro1; reflexivity
          |apply andb_false_intro2; reflexivity].
Qed.

Lemma forallb_never {A : Type} (p : A -> bool) (l : list A) :
  (forall x, p x = false) -> l <> [] -> forallb p l = false.
Proof.
  intros Hp Hl. destruct l as [|h t]; [contradiction|]. simpl. now rewrite Hp.
Qed.

(** X26: with its seven lists of critical properties and at least one acentric
    factor, [calc_CC_Pguess] never returns a pressure: the validity test of
    the acentric factors cannot hold, an empty [xilist] gives the empty
    list, and a state point ends in an exception, in the mixing rules or, at
    the latest, at the undefined name [eos_dict]. *)
Theorem calc_CC_Pguess_never_a_pressure (mix : Mixing) (xilist : list array)
    (Tlist : array) (Tc Pc omega rho_7 Zc Vc M : array) :
  omega <> [] ->
  calc_CC_Pguess mix xilist Tlist [Tc; Pc; omega; rho_7; Zc; Vc; M] =
    match xilist with
    | [] => Ok (Psat_list [])
    | xi :: _ =>
        match mixing_rules mix xi Tlist [Tc; Pc; omega; rho_7; Zc; Vc; M] with
        | Ok _ => Raise (NameError "eos_dict")
        | Raise e => Raise e
        end
    end.
Proof.
  intros Homega. unfold calc_CC_Pguess. cbn [unpack7 length Nat.eqb bind getitem nth_error].
  rewrite (forallb_never _ omega_never_out_of_range Homega). cbn [Z.eqb].
  destruct xilist as [|xi rest]; [reflexivity|].
  destruct (mixing_rules mix xi Tlist _); reflexivity.
Qed.

Lemma calc_CC_Pguess_never_a_pressure_witness :
  calc_CC_Pguess {| mixing_rules := fun _ _ _ => Ok tt |} [[0.5; 0.5]%float] [300%float]
    [[304.1; 647.1]; [7377000; 22064000]; [0.225; 0.344]; [20000; 50000];
     [0.274; 0.229]; [0.000094; 0.000056]; [0.04401; 0.018015]]%float
  = Raise (NameError "eos_dict").
Proof.
  erewrite calc_CC_Pguess_never_a_pressure.
  - reflexivity.
  - discriminate.
Defined.
